(** * DetoxBuddy: focus-session engine and reminder lifecycle

    A shallow embedding of the scheduling core of DetoxBuddy:

    - [database/models/focus_session.py] and [database/crud/focus_session.py]
      (modules [FocusModel], [CRUDFocusSession]);
    - [core/focus_timer.py] (module [FocusTimer]);
    - [database/models/reminder.py] and [database/crud/reminder.py]
      (modules [ReminderModel], [CRUDReminder]; [UserModel] holds the
      two columns of [database/models/user.py] that the dispatch reads);
    - [core/reminder_scheduler.py] (module [ReminderScheduler]);
    - [tasks/reminder_tasks.py] (module [ReminderTasks]).

    Conventions of the embedding.

    - A [datetime] is an integer number of seconds on the server clock.
      Every operation reads the clock once: the [now] argument stands for
      all the [datetime.now()] / [datetime.utcnow()] calls of one Python
      call (the server is taken to run in UTC, so both agree).
    - [int(delta.total_seconds() / 60)] truncates toward zero: [Z.quot].
    - A table is the list of its rows in insertion order; the ORM identity
      map is modelled by writing a modified row back by primary key.
    - Python functions that mutate the database, the cache or the job store
      take the state and return the new state next to their result. *)

From stdpp Require Import gmap list strings.
From Stdlib Require Import ZArith Lia.

Local Open Scope Z_scope.

Definition datetime := Z.

(** [timedelta(minutes=m)] in seconds. *)
Definition minutes (m : Z) : Z := 60 * m.

(** [int((later - earlier).total_seconds() / 60)]. *)
Definition whole_minutes (later earlier : datetime) : Z :=
  Z.quot (later - earlier) 60.

(** Python truthiness of an [Optional[int]]: [None] and [0] are falsy. *)
Definition truthy (o : option Z) : bool :=
  match o with
  | Some n => negb (n =? 0)
  | None => false
  end.

(* ================================================================== *)
(** ** models/focus_session.py *)

Module FocusModel.

Inductive FocusSessionStatus :=
| PLANNED | ACTIVE | PAUSED | COMPLETED | CANCELLED.

Inductive FocusSessionType :=
| FOCUS | SHORT_BREAK | LONG_BREAK.

Definition status_eqb (a b : FocusSessionStatus) : bool :=
  match a, b with
  | PLANNED, PLANNED | ACTIVE, ACTIVE | PAUSED, PAUSED
  | COMPLETED, COMPLETED | CANCELLED, CANCELLED => true
  | _, _ => false
  end.

(** The columns of [focus_sessions] that the lifecycle code reads or
    writes.  The free-text columns ([title], [description], [notes]), the
    counters [interruptions_count] / [notifications_enabled] (never
    assigned after the insert) and the floating-point [completion_rate]
    are left out. *)
Record FocusSession := {
  id : Z;
  user_id : Z;
  session_type : FocusSessionType;
  status : FocusSessionStatus;
  planned_duration : Z;
  actual_duration : option Z;
  paused_duration : Z;
  planned_start : datetime;
  actual_start : option datetime;
  actual_end : option datetime;
  last_pause_start : option datetime;
  auto_start_next : bool;
  created_at : datetime;
  updated_at : datetime
}.

(** Attribute assignments, [session.<column> = v]. *)
Definition set_status (v : FocusSessionStatus) (s : FocusSession) : FocusSession :=
  {| id := id s;
     user_id := user_id s;
     session_type := session_type s;
     status := v;
     planned_duration := planned_duration s;
     actual_duration := actual_duration s;
     paused_duration := paused_duration s;
     planned_start := planned_start s;
     actual_start := actual_start s;
     actual_end := actual_end s;
     last_pause_start := last_pause_start s;
     auto_start_next := auto_start_next s;
     created_at := created_at s;
     updated_at := updated_at s |}.

Definition set_actual_duration (v : option Z) (s : FocusSession) : FocusSession :=
  {| id := id s;
     user_id := user_id s;
     session_type := session_type s;
     status := status s;
     planned_duration := planned_duration s;
     actual_duration := v;
     paused_duration := paused_duration s;
     planned_start := planned_start s;
     actual_start := actual_start s;
     actual_end := actual_end s;
     last_pause_start := last_pause_start s;
     auto_start_next := auto_start_next s;
     created_at := created_at s;
     updated_at := updated_at s |}.

Definition set_paused_duration (v : Z) (s : FocusSession) : FocusSession :=
  {| id := id s;
     user_id := user_id s;
     session_type := session_type s;
     status := status s;
     planned_duration := planned_duration s;
     actual_duration := actual_duration s;
     paused_duration := v;
     planned_start := planned_start s;
     actual_start := actual_start s;
     actual_end := actual_end s;
     last_pause_start := last_pause_start s;
     auto_start_next := auto_start_next s;
     created_at := created_at s;
     updated_at := updated_at s |}.

Definition set_actual_start (v : option datetime) (s : FocusSession) : FocusSession :=
  {| id := id s;
     user_id := user_id s;
     session_type := session_type s;
     status := status s;
     planned_duration := planned_duration s;
     actual_duration := actual_duration s;
     paused_duration := paused_duration s;
     planned_start := planned_start s;
     actual_start := v;
     actual_end := actual_end s;
     last_pause_start := last_pause_start s;
     auto_start_next := auto_start_next s;
     created_at := created_at s;
     updated_at := updated_at s |}.

Definition set_actual_end (v : option datetime) (s : FocusSession) : FocusSession :=
  {| id := id s;
     user_id := user_id s;
     session_type := session_type s;
     status := status s;
     planned_duration := planned_duration s;
     actual_duration := actual_duration s;
     paused_duration := paused_duration s;
     planned_start := planned_start s;
     actual_start := actual_start s;
     actual_end := v;
     last_pause_start := last_pause_start s;
     auto_start_next := auto_start_next s;
     created_at := created_at s;
     updated_at := updated_at s |}.

Definition set_last_pause_start (v : option datetime) (s : FocusSession) : FocusSession :=
  {| id := id s;
     user_id := user_id s;
     session_type := session_type s;
     status := status s;
     planned_duration := planned_duration s;
     actual_duration := actual_duration s;
     paused_duration := paused_duration s;
     planned_start := planned_start s;
     actual_start := actual_start s;
     actual_end := actual_end s;
     last_pause_start := v;
     auto_start_next := auto_start_next s;
     created_at := created_at s;
     updated_at := updated_at s |}.

Definition set_updated_at (v : datetime) (s : FocusSession) : FocusSession :=
  {| id := id s;
     user_id := user_id s;
     session_type := session_type s;
     status := status s;
     planned_duration := planned_duration s;
     actual_duration := actual_duration s;
     paused_duration := paused_duration s;
     planned_start := planned_start s;
     actual_start := actual_start s;
     actual_end := actual_end s;
     last_pause_start := last_pause_start s;
     auto_start_next := auto_start_next s;
     created_at := created_at s;
     updated_at := v |}.

Definition is_active (s : FocusSession) : bool := status_eqb (status s) ACTIVE.
Definition is_completed (s : FocusSession) : bool := status_eqb (status s) COMPLETED.
Definition is_paused (s : FocusSession) : bool := status_eqb (status s) PAUSED.

(** [if self.actual_duration: return self.actual_duration;
     return self.planned_duration] *)
Definition total_duration_minutes (s : FocusSession) : Z :=
  if truthy (actual_duration s)
  then default 0 (actual_duration s)
  else planned_duration s.

(** [if self.actual_duration:
       return self.actual_duration - self.paused_duration
     return self.planned_duration] *)
Definition effective_duration_minutes (s : FocusSession) : Z :=
  if truthy (actual_duration s)
  then default 0 (actual_duration s) - paused_duration s
  else planned_duration s.

End FocusModel.

(* ================================================================== *)
(** ** crud/focus_session.py *)

Module CRUDFocusSession.
Import FocusModel.

Definition table := list FocusSession.

(** [CRUDBase.get]: the row with this primary key. *)
Definition get (db : table) (session_id : Z) : option FocusSession :=
  List.find (fun s => id s =? session_id) db.

(** [db.commit()] of a modified ORM object: the row with the same
    primary key is replaced. *)
Definition commit (s : FocusSession) (db : table) : table :=
  List.map (fun r => if id r =? id s then s else r) db.

(** [autoincrement=True]: one more than the largest key in the table. *)
Definition next_id (db : table) : Z :=
  1 + List.fold_right (fun r m => Z.max (id r) m) 0 db.

Definition get_active_session (db : table) (uid : Z) : option FocusSession :=
  List.find
    (fun s => (user_id s =? uid)
              && (status_eqb (status s) ACTIVE || status_eqb (status s) PAUSED))
    db.

(** [order_by(desc(FocusSession.created_at))]; rows created at the same
    instant keep their table order (SQL leaves the order of ties open). *)
Fixpoint insert_by_created_at (s : FocusSession) (l : list FocusSession)
  : list FocusSession :=
  match l with
  | [] => [s]
  | x :: l' =>
    if created_at x <? created_at s then s :: l
    else x :: insert_by_created_at s l'
  end.

Definition order_by_created_at_desc (l : list FocusSession) : list FocusSession :=
  List.fold_left (fun sorted s => insert_by_created_at s sorted) l [].

Definition get_user_sessions (db : table) (uid : option Z) (limit : Z)
    (st : option FocusSessionStatus) : list FocusSession :=
  let by_user :=
    match uid with
    | Some u => List.filter (fun s => user_id s =? u) db
    | None => db
    end in
  let by_status :=
    match st with
    | Some x => List.filter (fun s => status_eqb (status s) x) by_user
    | None => by_user
    end in
  List.firstn (Z.to_nat limit) (order_by_created_at_desc by_status).

Definition create_focus_session (now : datetime) (db : table)
    (uid : Z) (ty : FocusSessionType) (duration_minutes : Z)
    (auto_next : bool) : FocusSession * table :=
  let session :=
    {| id := next_id db;
       user_id := uid;
       session_type := ty;
       status := PLANNED;
       planned_duration := duration_minutes;
       actual_duration := None;
       paused_duration := 0;
       planned_start := now;
       actual_start := None;
       actual_end := None;
       last_pause_start := None;
       auto_start_next := auto_next;
       created_at := now;
       updated_at := now |} in
  (session, db ++ [session]).

Definition start_session (now : datetime) (db : table) (session_id : Z)
  : option FocusSession * table :=
  match get db session_id with
  | None => (None, db)
  | Some session =>
    if negb (status_eqb (status session) PLANNED) then (None, db)
    else
      let session := set_status ACTIVE session in
      let session := set_actual_start (Some now) session in
      let session := set_updated_at now session in
      (Some session, commit session db)
  end.

Definition pause_session (now : datetime) (db : table) (session_id : Z)
  : option FocusSession * table :=
  match get db session_id with
  | None => (None, db)
  | Some session =>
    if negb (status_eqb (status session) ACTIVE) then (None, db)
    else
      let session := set_status PAUSED session in
      let session := set_last_pause_start (Some now) session in
      let session := set_updated_at now session in
      (Some session, commit session db)
  end.

Definition resume_session (now : datetime) (db : table) (session_id : Z)
  : option FocusSession * table :=
  match get db session_id with
  | None => (None, db)
  | Some session =>
    if negb (status_eqb (status session) PAUSED) then (None, db)
    else
      let session :=
        match last_pause_start session with
        | Some paused_at =>
          let pause_duration := whole_minutes now paused_at in
          set_paused_duration (paused_duration session + pause_duration) session
        | None => session
        end in
      let session := set_status ACTIVE session in
      let session := set_last_pause_start None session in
      let session := set_updated_at now session in
      (Some session, commit session db)
  end.

(** [completion_rate] is not modelled, and neither is the achievement /
    experience bookkeeping that follows the commit: it lives in other
    tables, sits in its own [try/except] and does not touch the session
    row. *)
Definition complete_session (now : datetime) (db : table) (session_id : Z)
  : option FocusSession * table :=
  match get db session_id with
  | None => (None, db)
  | Some session =>
    if negb (status_eqb (status session) ACTIVE
             || status_eqb (status session) PAUSED) then (None, db)
    else
      let session := set_status COMPLETED session in
      let session := set_actual_end (Some now) session in
      let session :=
        match actual_start session with
        | Some started_at =>
          let total_duration := whole_minutes now started_at in
          set_actual_duration (Some total_duration) session
        | None => session
        end in
      let session := set_updated_at now session in
      (Some session, commit session db)
  end.

Definition cancel_session (now : datetime) (db : table) (session_id : Z)
  : option FocusSession * table :=
  match get db session_id with
  | None => (None, db)
  | Some session =>
    if status_eqb (status session) COMPLETED then (None, db)
    else
      let session := set_status CANCELLED session in
      let session := set_actual_end (Some now) session in
      let session := set_updated_at now session in
      (Some session, commit session db)
  end.

(** *** Statistics *)

(** [datetime.combine(current_date - timedelta(days=i), datetime.min.time())]:
    midnight of the day [i] days before the day of [now]. *)
Definition day_start (now : datetime) (i : Z) : datetime :=
  (now / 86400 - i) * 86400.

(** The count query of [get_streak_days] for the day that starts at
    [start_datetime]. *)
Definition completed_sessions_on (db : table) (uid : Z) (start_datetime : datetime)
  : nat :=
  length
    (List.filter
       (fun s => (user_id s =? uid)
                 && (start_datetime <=? created_at s)
                 && (created_at s <? start_datetime + 86400)
                 && status_eqb (status s) COMPLETED)
       db).

(** The body of [for i in range(365)] with its [break]. *)
Fixpoint streak_loop (now : datetime) (db : table) (uid : Z) (days : list Z) : Z :=
  match days with
  | [] => 0
  | i :: rest =>
    if (0 <? completed_sessions_on db uid (day_start now i))%nat
    then 1 + streak_loop now db uid rest
    else 0
  end.

Definition get_streak_days (now : datetime) (db : table) (uid : Z) : Z :=
  streak_loop now db uid (List.map Z.of_nat (List.seq 0 365)).

End CRUDFocusSession.

(* ================================================================== *)
(** ** core/focus_timer.py *)

Module FocusTimer.
Import FocusModel.

(** A value of the [active_sessions] dict. *)
Record SessionInfo := {
  session_id : Z;
  start_time : datetime;
  duration_minutes : Z;
  session_type : FocusSessionType;
  sessions_completed : Z
}.

(** Job ids are the strings [focus_complete_{user}_{session}],
    [break_complete_{user}_{session}] and [progress_{user}_{session}_{i}];
    they are kept structured. *)
Inductive JobId :=
| focus_complete (uid sid : Z)
| break_complete (uid sid : Z)
| progress (uid sid i : Z).

Definition job_id_eqb (a b : JobId) : bool :=
  match a, b with
  | focus_complete u s, focus_complete u' s' => (u =? u') && (s =? s')
  | break_complete u s, break_complete u' s' => (u =? u') && (s =? s')
  | progress u s i, progress u' s' i' => (u =? u') && (s =? s') && (i =? i')
  | _, _ => false
  end.

(** The callback of a job with its [args]. *)
Inductive JobFunc :=
| complete_focus_job (uid : Z)
| complete_break_job (uid : Z)
| progress_job (uid elapsed total : Z).

(** Every job of the timer has a [DateTrigger(run_date=...)]. *)
Record Job := {
  job_id : JobId;
  run_date : datetime;
  func : JobFunc
}.

(** [scheduler.add_job(..., replace_existing=True)]. *)
Definition add_job (j : Job) (jobs : list Job) : list Job :=
  List.filter (fun k => negb (job_id_eqb (job_id k) (job_id j))) jobs ++ [j].

(** [scheduler.remove_job(job_id)], the lookup error being swallowed. *)
Definition remove_job (i : JobId) (jobs : list Job) : list Job :=
  List.filter (fun k => negb (job_id_eqb (job_id k) i)) jobs.

Definition find_job (i : JobId) (jobs : list Job) : option Job :=
  List.find (fun k => job_id_eqb (job_id k) i) jobs.

(** Messages handed to [telegram_bot.send_message]; each sender catches
    every exception, so the outcome of the delivery changes nothing. *)
Inductive Notification :=
| session_complete_notification (uid : Z) (session : FocusSession)
| break_start_notification (uid : Z) (long : bool)
| break_complete_notification (uid : Z) (ty : FocusSessionType).

Record Timer := {
  db : CRUDFocusSession.table;
  active_sessions : gmap Z SessionInfo;
  scheduler : list Job;
  notifications : list Notification;
  focus_duration : Z;
  short_break_duration : Z;
  long_break_duration : Z;
  sessions_before_long_break : Z
}.

(** [FocusTimer.__init__] over an existing database. *)
Definition __init__ (database : CRUDFocusSession.table) : Timer :=
  {| db := database;
     active_sessions := ∅;
     scheduler := [];
     notifications := [];
     focus_duration := 25;
     short_break_duration := 5;
     long_break_duration := 15;
     sessions_before_long_break := 4 |}.

Definition set_db (d : CRUDFocusSession.table) (t : Timer) : Timer :=
  {| db := d;
     active_sessions := active_sessions t;
     scheduler := scheduler t;
     notifications := notifications t;
     focus_duration := focus_duration t;
     short_break_duration := short_break_duration t;
     long_break_duration := long_break_duration t;
     sessions_before_long_break := sessions_before_long_break t |}.

Definition set_active_sessions (m : gmap Z SessionInfo) (t : Timer) : Timer :=
  {| db := db t;
     active_sessions := m;
     scheduler := scheduler t;
     notifications := notifications t;
     focus_duration := focus_duration t;
     short_break_duration := short_break_duration t;
     long_break_duration := long_break_duration t;
     sessions_before_long_break := sessions_before_long_break t |}.

Definition set_scheduler (jobs : list Job) (t : Timer) : Timer :=
  {| db := db t;
     active_sessions := active_sessions t;
     scheduler := jobs;
     notifications := notifications t;
     focus_duration := focus_duration t;
     short_break_duration := short_break_duration t;
     long_break_duration := long_break_duration t;
     sessions_before_long_break := sessions_before_long_break t |}.

Definition notify (n : Notification) (t : Timer) : Timer :=
  {| db := db t;
     active_sessions := active_sessions t;
     scheduler := scheduler t;
     notifications := notifications t ++ [n];
     focus_duration := focus_duration t;
     short_break_duration := short_break_duration t;
     long_break_duration := long_break_duration t;
     sessions_before_long_break := sessions_before_long_break t |}.

(** One iteration of the loop of [_restore_active_sessions]. *)
Definition restore_session (t : Timer) (session : FocusSession) : Timer :=
  if status_eqb (status session) ACTIVE || status_eqb (status session) PAUSED
  then
    set_active_sessions
      (<[user_id session :=
           {| session_id := id session;
              start_time := default (created_at session) (actual_start session);
              duration_minutes := planned_duration session;
              session_type := FocusModel.session_type session;
              sessions_completed := 0 |}]> (active_sessions t))
      t
  else t.

(** The cache is rebuilt from the 100 most recent rows; no job is
    scheduled for the sessions that are put back. *)
Definition _restore_active_sessions (t : Timer) : Timer :=
  List.fold_left restore_session
    (CRUDFocusSession.get_user_sessions (db t) None 100 None) t.

(** [FocusTimer.start]: the scheduler is started, then the cache
    restored. *)
Definition start (t : Timer) : Timer := _restore_active_sessions t.

(** [range(5, duration_minutes, 5)]. *)
Definition progress_marks (duration : Z) : list Z :=
  List.map (fun k => 5 * Z.of_nat k)
           (List.seq 1 (Z.to_nat ((duration - 1) / 5))).

Definition _schedule_progress_notifications (now : datetime)
    (jobs : list Job) (uid duration sid : Z) : list Job :=
  List.fold_left
    (fun js i =>
       add_job {| job_id := progress uid sid i;
                  run_date := now + minutes i;
                  func := progress_job uid i duration |} js)
    (progress_marks duration) jobs.

(** Jobs whose id starts with [progress_{user}_{session}_] are removed. *)
Definition _remove_progress_notifications (jobs : list Job) (uid sid : Z)
  : list Job :=
  List.filter
    (fun k => match job_id k with
              | progress u s _ => negb ((u =? uid) && (s =? sid))
              | _ => true
              end)
    jobs.

Definition start_focus_session (now : datetime) (t : Timer)
    (uid duration : Z) (auto_next : bool) : option FocusSession * Timer :=
  match CRUDFocusSession.get_active_session (db t) uid with
  | Some active_session => (Some active_session, t)
  | None =>
    let '(created, db1) :=
      CRUDFocusSession.create_focus_session now (db t) uid FOCUS duration auto_next in
    match CRUDFocusSession.start_session now db1 (id created) with
    | (None, db2) => (None, set_db db2 t)
    | (Some session, db2) =>
      let info :=
        {| session_id := id session;
           start_time := now;
           duration_minutes := duration;
           session_type := FOCUS;
           sessions_completed := 0 |} in
      let jobs1 :=
        add_job {| job_id := focus_complete uid (id session);
                   run_date := now + minutes duration;
                   func := complete_focus_job uid |} (scheduler t) in
      let jobs2 :=
        _schedule_progress_notifications now jobs1 uid duration (id session) in
      (Some session,
       set_scheduler jobs2
         (set_active_sessions (<[uid := info]> (active_sessions t))
            (set_db db2 t)))
    end
  end.

Definition pause_session (now : datetime) (t : Timer) (uid : Z)
  : bool * Timer :=
  match active_sessions t !! uid with
  | None => (false, t)
  | Some session_info =>
    match CRUDFocusSession.pause_session now (db t) (session_id session_info) with
    | (Some _, db') =>
      let jobs1 :=
        remove_job (focus_complete uid (session_id session_info)) (scheduler t) in
      let jobs2 :=
        _remove_progress_notifications jobs1 uid (session_id session_info) in
      (true, set_scheduler jobs2 (set_db db' t))
    | (None, db') => (false, set_db db' t)
    end
  end.

Definition resume_session (now : datetime) (t : Timer) (uid : Z)
  : bool * Timer :=
  match active_sessions t !! uid with
  | None => (false, t)
  | Some session_info =>
    match CRUDFocusSession.resume_session now (db t) (session_id session_info) with
    | (Some _, db') =>
      let remaining_minutes :=
        Z.max 0 (duration_minutes session_info
                 - whole_minutes now (start_time session_info)) in
      let jobs' :=
        if 0 <? remaining_minutes then
          let jobs1 :=
            add_job {| job_id := focus_complete uid (session_id session_info);
                       run_date := now + minutes remaining_minutes;
                       func := complete_focus_job uid |} (scheduler t) in
          _schedule_progress_notifications now jobs1 uid remaining_minutes
            (session_id session_info)
        else scheduler t in
      (true, set_scheduler jobs' (set_db db' t))
    | (None, db') => (false, set_db db' t)
    end
  end.

Definition cancel_session (now : datetime) (t : Timer) (uid : Z)
  : bool * Timer :=
  match active_sessions t !! uid with
  | None => (false, t)
  | Some session_info =>
    match CRUDFocusSession.cancel_session now (db t) (session_id session_info) with
    | (Some _, db') =>
      let jobs1 :=
        remove_job (focus_complete uid (session_id session_info)) (scheduler t) in
      let jobs2 :=
        _remove_progress_notifications jobs1 uid (session_id session_info) in
      (true,
       set_active_sessions (delete uid (active_sessions t))
         (set_scheduler jobs2 (set_db db' t)))
    | (None, db') => (false, set_db db' t)
    end
  end.

Definition _start_short_break (now : datetime) (t : Timer) (uid : Z) : Timer :=
  let '(created, db1) :=
    CRUDFocusSession.create_focus_session now (db t) uid SHORT_BREAK
      (short_break_duration t) true in
  match CRUDFocusSession.start_session now db1 (id created) with
  | (Some session, db2) =>
    let info :=
      {| session_id := id session;
         start_time := now;
         duration_minutes := short_break_duration t;
         session_type := SHORT_BREAK;
         sessions_completed := 0 |} in
    let jobs1 :=
      add_job {| job_id := break_complete uid (id session);
                 run_date := now + minutes (short_break_duration t);
                 func := complete_break_job uid |} (scheduler t) in
    notify (break_start_notification uid false)
      (set_scheduler jobs1
         (set_active_sessions (<[uid := info]> (active_sessions t))
            (set_db db2 t)))
  | (None, db2) => set_db db2 t
  end.

Definition _start_long_break (now : datetime) (t : Timer) (uid : Z) : Timer :=
  let '(created, db1) :=
    CRUDFocusSession.create_focus_session now (db t) uid LONG_BREAK
      (long_break_duration t) true in
  match CRUDFocusSession.start_session now db1 (id created) with
  | (Some session, db2) =>
    let info :=
      {| session_id := id session;
         start_time := now;
         duration_minutes := long_break_duration t;
         session_type := LONG_BREAK;
         sessions_completed := 0 |} in
    let jobs1 :=
      add_job {| job_id := break_complete uid (id session);
                 run_date := now + minutes (long_break_duration t);
                 func := complete_break_job uid |} (scheduler t) in
    notify (break_start_notification uid true)
      (set_scheduler jobs1
         (set_active_sessions (<[uid := info]> (active_sessions t))
            (set_db db2 t)))
  | (None, db2) => set_db db2 t
  end.

(** [session_info] aliases the dict stored in the cache, so the
    increment of ["sessions_completed"] is an update of the cache entry.
    A zero [sessions_before_long_break] makes [%] raise; the handler
    around the whole body then leaves the state as it is at that point. *)
Definition _complete_focus_session (now : datetime) (t : Timer) (uid : Z)
  : Timer :=
  match active_sessions t !! uid with
  | None => t
  | Some session_info =>
    match CRUDFocusSession.complete_session now (db t) (session_id session_info) with
    | (Some session, db') =>
      let session_info' :=
        {| session_id := session_id session_info;
           start_time := start_time session_info;
           duration_minutes := duration_minutes session_info;
           session_type := session_type session_info;
           sessions_completed := sessions_completed session_info + 1 |} in
      let t1 :=
        notify (session_complete_notification uid session)
          (set_active_sessions (<[uid := session_info']> (active_sessions t))
             (set_db db' t)) in
      if sessions_before_long_break t1 =? 0 then t1
      else
        let t2 :=
          if sessions_completed session_info' mod sessions_before_long_break t1
             =? 0
          then _start_long_break now t1 uid
          else _start_short_break now t1 uid in
        set_active_sessions (delete uid (active_sessions t2)) t2
    | (None, db') => set_db db' t
    end
  end.

Definition _complete_break_session (now : datetime) (t : Timer) (uid : Z)
  : Timer :=
  match active_sessions t !! uid with
  | None => t
  | Some session_info =>
    match CRUDFocusSession.complete_session now (db t) (session_id session_info) with
    | (Some _, db') =>
      set_active_sessions (delete uid (active_sessions t))
        (notify (break_complete_notification uid (session_type session_info))
           (set_db db' t))
    | (None, db') => set_db db' t
    end
  end.

(** *** Progress pings *)

(** What [telegram_bot.send_message] does for a progress ping: the message
    goes out, the wrapper returns [None] (chat not found, bot blocked,
    forbidden), or an exception leaves the call; [blocked_text] tells
    whether its text contains "chat not found", "bot was blocked" or
    "forbidden". *)
Inductive SendOutcome :=
| delivered
| not_delivered
| send_failed (blocked_text : bool).

(** [f"_{user_id}_" in job.id].  In [focus_complete_{u}_{s}] and
    [break_complete_{u}_{s}] the only number that stands between two
    underscores is [u]; in [progress_{u}_{s}_{i}] both [u] and [s] do. *)
Definition mentions_user (uid : Z) (i : JobId) : bool :=
  match i with
  | focus_complete u _ => u =? uid
  | break_complete u _ => u =? uid
  | progress u s _ => (u =? uid) || (s =? uid)
  end.

Definition _remove_user_notifications (jobs : list Job) (uid : Z) : list Job :=
  List.filter (fun k => negb (mentions_user uid (job_id k))) jobs.

(** The ping itself is not recorded in [notifications].  With
    [total_minutes = 0] the percentage raises [ZeroDivisionError], whose
    text is none of the three above. *)
Definition _send_progress_notification (outcome : SendOutcome) (t : Timer)
    (uid elapsed_minutes total_minutes : Z) : Timer :=
  let purged := set_scheduler (_remove_user_notifications (scheduler t) uid) t in
  if total_minutes =? 0 then purged
  else
    match outcome with
    | delivered => t
    | not_delivered =>
      set_active_sessions (delete uid (active_sessions purged)) purged
    | send_failed true =>
      set_active_sessions (delete uid (active_sessions purged)) purged
    | send_failed false => purged
    end.

Definition get_session_info (t : Timer) (uid : Z) : option SessionInfo :=
  active_sessions t !! uid.

Definition is_user_in_session (t : Timer) (uid : Z) : bool :=
  bool_decide (is_Some (active_sessions t !! uid)).

(** *** The user cache

    [_user_cache] maps a user id to [{'data': ..., 'timestamp': ...}];
    the data is any value. *)

Definition _cache_ttl : Z := 300.

Definition _cache_user {A} (now : datetime) (cache : gmap Z (A * datetime))
    (uid : Z) (user_data : A) : gmap Z (A * datetime) :=
  <[uid := (user_data, now)]> cache.

Definition _get_cached_user {A} (now : datetime) (cache : gmap Z (A * datetime))
    (uid : Z) : option A * gmap Z (A * datetime) :=
  match cache !! uid with
  | Some (data, timestamp) =>
    if now - timestamp <? _cache_ttl then (Some data, cache)
    else (None, delete uid cache)
  | None => (None, cache)
  end.

(** [if user_id:] is a truthiness test: [None] and [0] both clear the
    whole cache. *)
Definition _clear_user_cache {A} (cache : gmap Z (A * datetime))
    (uid : option Z) : gmap Z (A * datetime) :=
  if truthy uid then delete (default 0 uid) cache else ∅.

End FocusTimer.

(* ================================================================== *)
(** ** models/user.py *)

Module UserModel.

(** The two columns of [users] that the dispatch reads. *)
Record User := {
  id : Z;
  telegram_id : Z
}.

End UserModel.

(* ================================================================== *)
(** ** models/reminder.py *)

Module ReminderModel.

Inductive ReminderType :=
| DAILY | WEEKLY | CUSTOM | DETOX_REMINDER | FOCUS_REMINDER
| BREAK_REMINDER | QUIET_HOURS.

Inductive ReminderStatus :=
| ACTIVE | SENT | CANCELLED | EXPIRED | FAILED.

Definition status_eqb (a b : ReminderStatus) : bool :=
  match a, b with
  | ACTIVE, ACTIVE | SENT, SENT | CANCELLED, CANCELLED
  | EXPIRED, EXPIRED | FAILED, FAILED => true
  | _, _ => false
  end.

(** A row of [reminders].  [reminder_time] is a time of day in seconds
    after midnight; [updated_at] carries [onupdate=datetime.utcnow], so
    every UPDATE of the row refreshes it. *)
Record Reminder := {
  id : Z;
  user_id : Z;
  title : string;
  message : option string;
  reminder_type : ReminderType;
  status : ReminderStatus;
  scheduled_time : datetime;
  reminder_time : option Z;
  repeat_days : option string;
  repeat_interval : option Z;
  sent_at : option datetime;
  sent_count : Z;
  failed_at : option datetime;
  failed_count : Z;
  max_send_count : option Z;
  is_recurring : bool;
  is_enabled : bool;
  priority : Z;
  extra_data : option string;
  action_url : option string;
  created_at : datetime;
  updated_at : datetime;
  expires_at : option datetime
}.

(** Attribute assignments, [reminder.<column> = v]. *)
Definition set_status (v : ReminderStatus) (r : Reminder) : Reminder :=
  {| id := id r;
     user_id := user_id r;
     title := title r;
     message := message r;
     reminder_type := reminder_type r;
     status := v;
     scheduled_time := scheduled_time r;
     reminder_time := reminder_time r;
     repeat_days := repeat_days r;
     repeat_interval := repeat_interval r;
     sent_at := sent_at r;
     sent_count := sent_count r;
     failed_at := failed_at r;
     failed_count := failed_count r;
     max_send_count := max_send_count r;
     is_recurring := is_recurring r;
     is_enabled := is_enabled r;
     priority := priority r;
     extra_data := extra_data r;
     action_url := action_url r;
     created_at := created_at r;
     updated_at := updated_at r;
     expires_at := expires_at r |}.

Definition set_scheduled_time (v : datetime) (r : Reminder) : Reminder :=
  {| id := id r;
     user_id := user_id r;
     title := title r;
     message := message r;
     reminder_type := reminder_type r;
     status := status r;
     scheduled_time := v;
     reminder_time := reminder_time r;
     repeat_days := repeat_days r;
     repeat_interval := repeat_interval r;
     sent_at := sent_at r;
     sent_count := sent_count r;
     failed_at := failed_at r;
     failed_count := failed_count r;
     max_send_count := max_send_count r;
     is_recurring := is_recurring r;
     is_enabled := is_enabled r;
     priority := priority r;
     extra_data := extra_data r;
     action_url := action_url r;
     created_at := created_at r;
     updated_at := updated_at r;
     expires_at := expires_at r |}.

Definition set_sent_at (v : option datetime) (r : Reminder) : Reminder :=
  {| id := id r;
     user_id := user_id r;
     title := title r;
     message := message r;
     reminder_type := reminder_type r;
     status := status r;
     scheduled_time := scheduled_time r;
     reminder_time := reminder_time r;
     repeat_days := repeat_days r;
     repeat_interval := repeat_interval r;
     sent_at := v;
     sent_count := sent_count r;
     failed_at := failed_at r;
     failed_count := failed_count r;
     max_send_count := max_send_count r;
     is_recurring := is_recurring r;
     is_enabled := is_enabled r;
     priority := priority r;
     extra_data := extra_data r;
     action_url := action_url r;
     created_at := created_at r;
     updated_at := updated_at r;
     expires_at := expires_at r |}.

Definition set_sent_count (v : Z) (r : Reminder) : Reminder :=
  {| id := id r;
     user_id := user_id r;
     title := title r;
     message := message r;
     reminder_type := reminder_type r;
     status := status r;
     scheduled_time := scheduled_time r;
     reminder_time := reminder_time r;
     repeat_days := repeat_days r;
     repeat_interval := repeat_interval r;
     sent_at := sent_at r;
     sent_count := v;
     failed_at := failed_at r;
     failed_count := failed_count r;
     max_send_count := max_send_count r;
     is_recurring := is_recurring r;
     is_enabled := is_enabled r;
     priority := priority r;
     extra_data := extra_data r;
     action_url := action_url r;
     created_at := created_at r;
     updated_at := updated_at r;
     expires_at := expires_at r |}.

Definition set_failed_at (v : option datetime) (r : Reminder) : Reminder :=
  {| id := id r;
     user_id := user_id r;
     title := title r;
     message := message r;
     reminder_type := reminder_type r;
     status := status r;
     scheduled_time := scheduled_time r;
     reminder_time := reminder_time r;
     repeat_days := repeat_days r;
     repeat_interval := repeat_interval r;
     sent_at := sent_at r;
     sent_count := sent_count r;
     failed_at := v;
     failed_count := failed_count r;
     max_send_count := max_send_count r;
     is_recurring := is_recurring r;
     is_enabled := is_enabled r;
     priority := priority r;
     extra_data := extra_data r;
     action_url := action_url r;
     created_at := created_at r;
     updated_at := updated_at r;
     expires_at := expires_at r |}.

Definition set_failed_count (v : Z) (r : Reminder) : Reminder :=
  {| id := id r;
     user_id := user_id r;
     title := title r;
     message := message r;
     reminder_type := reminder_type r;
     status := status r;
     scheduled_time := scheduled_time r;
     reminder_time := reminder_time r;
     repeat_days := repeat_days r;
     repeat_interval := repeat_interval r;
     sent_at := sent_at r;
     sent_count := sent_count r;
     failed_at := failed_at r;
     failed_count := v;
     max_send_count := max_send_count r;
     is_recurring := is_recurring r;
     is_enabled := is_enabled r;
     priority := priority r;
     extra_data := extra_data r;
     action_url := action_url r;
     created_at := created_at r;
     updated_at := updated_at r;
     expires_at := expires_at r |}.

Definition set_updated_at (v : datetime) (r : Reminder) : Reminder :=
  {| id := id r;
     user_id := user_id r;
     title := title r;
     message := message r;
     reminder_type := reminder_type r;
     status := status r;
     scheduled_time := scheduled_time r;
     reminder_time := reminder_time r;
     repeat_days := repeat_days r;
     repeat_interval := repeat_interval r;
     sent_at := sent_at r;
     sent_count := sent_count r;
     failed_at := failed_at r;
     failed_count := failed_count r;
     max_send_count := max_send_count r;
     is_recurring := is_recurring r;
     is_enabled := is_enabled r;
     priority := priority r;
     extra_data := extra_data r;
     action_url := action_url r;
     created_at := created_at r;
     updated_at := v;
     expires_at := expires_at r |}.

Definition is_active (r : Reminder) : bool :=
  status_eqb (status r) ACTIVE && is_enabled r.

Definition is_sent (r : Reminder) : bool := status_eqb (status r) SENT.

(** [reminder.is_recurring and reminder.repeat_interval], the guard of
    every rescheduling path. *)
Definition repeats (r : Reminder) : bool :=
  is_recurring r && truthy (repeat_interval r).

(** What a call of [send_message] does: the message goes out, the
    project's wrapper swallows a blocked / forbidden chat and returns
    [None], or an exception leaves the call. *)
Inductive SendResult := message_sent | returned_none | raised.

(** The notifier, by chat id. *)
Definition Bot := Z -> SendResult.

(** *** More of the model *)


(** [if self.expires_at: return datetime.utcnow() > self.expires_at]. *)
Definition is_expired (now : datetime) (r : Reminder) : bool :=
  match expires_at r with
  | Some e => e <? now
  | None => false
  end.

Definition can_send (now : datetime) (r : Reminder) : bool :=
  if negb (is_active r) || is_expired now r then false
  else if truthy (max_send_count r)
          && (default 0 (max_send_count r) <=? sent_count r) then false
  else scheduled_time r <=? now.

(** [if not message: message = title], for [None] and for the empty
    string. *)
Definition message_or_title (message : option string) (title : string)
  : option string :=
  match message with
  | Some m => if String.eqb m EmptyString then Some title else Some m
  | None => Some title
  end.

End ReminderModel.

(* ================================================================== *)
(** ** crud/reminder.py *)

Module CRUDReminder.
Import ReminderModel.

Definition table := list Reminder.

(** [CRUDBase.get]: the row with this primary key. *)
Definition get (db : table) (reminder_id : Z) : option Reminder :=
  List.find (fun r => id r =? reminder_id) db.

(** [db.commit()] of a modified ORM object. *)
Definition commit (r : Reminder) (db : table) : table :=
  List.map (fun x => if id x =? id r then r else x) db.

(** [autoincrement=True]: one more than the largest key in the table. *)
Definition next_id (db : table) : Z :=
  1 + List.fold_right (fun r m => Z.max (id r) m) 0 db.

(** [reminder.user] / [db.query(User).filter(User.id == ...).first()]. *)
Definition get_user (users : list UserModel.User) (i : Z)
  : option UserModel.User :=
  List.find (fun u => UserModel.id u =? i) users.

(** The commit issues an UPDATE, which also refreshes [updated_at]. *)
Definition mark_as_sent (now : datetime) (db : table) (reminder_id : Z)
  : option Reminder * table :=
  match get db reminder_id with
  | Some reminder =>
    let reminder := set_status SENT reminder in
    let reminder := set_sent_at (Some now) reminder in
    let reminder := set_sent_count (sent_count reminder + 1) reminder in
    let reminder := set_updated_at now reminder in
    (Some reminder, commit reminder db)
  | None => (None, db)
  end.

Definition mark_as_failed (now : datetime) (db : table) (reminder_id : Z)
  : option Reminder * table :=
  match get db reminder_id with
  | Some reminder =>
    let reminder := set_status FAILED reminder in
    let reminder := set_failed_at (Some now) reminder in
    let reminder := set_failed_count (failed_count reminder + 1) reminder in
    let reminder := set_updated_at now reminder in
    (Some reminder, commit reminder db)
  | None => (None, db)
  end.

(** *** Queries *)

(** [order_by(asc(scheduled_time))]; ties keep their table order. *)
Fixpoint insert_by_scheduled_time (r : Reminder) (l : list Reminder)
  : list Reminder :=
  match l with
  | [] => [r]
  | x :: l' =>
    if scheduled_time r <? scheduled_time x then r :: l
    else x :: insert_by_scheduled_time r l'
  end.

Definition order_by_scheduled_time (l : list Reminder) : list Reminder :=
  List.fold_left (fun sorted r => insert_by_scheduled_time r sorted) l [].

(** The filter of [get_active_reminders]. *)
Definition ready_to_send (now : datetime) (r : Reminder) : bool :=
  status_eqb (status r) ACTIVE
  && is_enabled r
  && (scheduled_time r <=? now)
  && match expires_at r with
     | None => true
     | Some e => now <? e
     end
  && match max_send_count r with
     | None => true
     | Some m => sent_count r <? m
     end.

Definition get_active_reminders (now : datetime) (db : table) : list Reminder :=
  order_by_scheduled_time (List.filter (ready_to_send now) db).

(** The filter of [get_expired_reminders]; a NULL [expires_at] never
    compares. *)
Definition has_expired (now : datetime) (r : Reminder) : bool :=
  match expires_at r with
  | Some e => e <=? now
  | None => false
  end
  && status_eqb (status r) ACTIVE.

Definition get_expired_reminders (now : datetime) (db : table) : list Reminder :=
  List.filter (has_expired now) db.

(** *** Single-row updates *)

Definition mark_as_expired (now : datetime) (db : table) (reminder_id : Z)
  : option Reminder * table :=
  match get db reminder_id with
  | Some reminder =>
    let reminder := set_status EXPIRED reminder in
    let reminder := set_updated_at now reminder in
    (Some reminder, commit reminder db)
  | None => (None, db)
  end.

Definition cancel_reminder (now : datetime) (db : table) (reminder_id : Z)
  : option Reminder * table :=
  match get db reminder_id with
  | Some reminder =>
    let reminder := set_status CANCELLED reminder in
    let reminder := set_updated_at now reminder in
    (Some reminder, commit reminder db)
  | None => (None, db)
  end.



(** *** Bulk cancel *)

Definition active_of (uid : Z) (r : Reminder) : bool :=
  (user_id r =? uid) && status_eqb (status r) ACTIVE.

(** One UPDATE over the rows of the filter; its result is the number of
    rows it matched. *)
Definition cancel_all_active_reminders (now : datetime) (db : table) (uid : Z)
  : Z * table :=
  (Z.of_nat (length (List.filter (active_of uid) db)),
   List.map
     (fun r => if active_of uid r
               then set_updated_at now (set_status CANCELLED r)
               else r)
     db).

(** *** Creation *)

(** [Reminder(...)] with the column defaults for what the caller leaves
    out, inserted under a fresh key. *)
Definition new_reminder (now : datetime) (db : table) (uid : Z)
    (title : string) (message : option string) (ty : ReminderType)
    (scheduled : datetime) (time_of_day : option Z) (days : option string)
    (interval : option Z) (recurring : bool) (expires : option datetime)
    (max_count : option Z) (prio : Z) : Reminder :=
  {| id := next_id db;
     user_id := uid;
     title := title;
     message := message;
     reminder_type := ty;
     status := ACTIVE;
     scheduled_time := scheduled;
     reminder_time := time_of_day;
     repeat_days := days;
     repeat_interval := interval;
     sent_at := None;
     sent_count := 0;
     failed_at := None;
     failed_count := 0;
     max_send_count := max_count;
     is_recurring := recurring;
     is_enabled := true;
     priority := prio;
     extra_data := None;
     action_url := None;
     created_at := now;
     updated_at := now;
     expires_at := expires |}.

Definition create_quick_reminder (now : datetime) (db : table) (uid : Z)
    (title : string) (message : option string) (delay_minutes : Z)
    (ty : ReminderType) : Reminder * table :=
  let scheduled_time := now + minutes delay_minutes in
  let message := message_or_title message title in
  let reminder :=
    new_reminder now db uid title message ty scheduled_time
      None None None false None None 1 in
  (reminder, db ++ [reminder]).

Definition create_recurring_reminder (now : datetime) (db : table) (uid : Z)
    (title : string) (message : option string) (ty : ReminderType)
    (repeat_interval : Z) (start_time : datetime) (end_time : option datetime)
    (max_send_count : option Z) (prio : Z) (repeat_days : option string)
    (reminder_time : option Z) : Reminder * table :=
  let message := message_or_title message title in
  let reminder :=
    new_reminder now db uid title message ty start_time
      reminder_time repeat_days (Some repeat_interval) true end_time
      max_send_count prio in
  (reminder, db ++ [reminder]).

(** [datetime.now().replace(hour=reminder_time.hour,
    minute=reminder_time.minute, second=0, microsecond=0)], the time of day
    being given in seconds after midnight. *)
Definition today_at (now : datetime) (reminder_time : Z) : datetime :=
  now / 86400 * 86400
  + 3600 * (reminder_time / 3600)
  + 60 * (reminder_time mod 3600 / 60).

Definition create_daily_reminder (now : datetime) (db : table) (uid : Z)
    (title : string) (message : option string) (reminder_time : Z)
    (start_date end_date : option datetime) (max_send_count : option Z)
    (prio : Z) : Reminder * table :=
  let message := message_or_title message title in
  let start_date :=
    match start_date with
    | Some d => d
    | None =>
      let d := today_at now reminder_time in
      if d <=? now then d + 86400 else d
    end in
  let reminder :=
    new_reminder now db uid title message DAILY start_date
      (Some reminder_time) None None true end_date max_send_count prio in
  (reminder, db ++ [reminder]).

(** *** The next weekly date *)

Definition day_mapping : list (string * Z) :=
  [ ("mon", 0); ("tue", 1); ("wed", 2); ("thu", 3); ("fri", 4); ("sat", 5);
    ("sun", 6); ("monday", 0); ("tuesday", 1); ("wednesday", 2);
    ("thursday", 3); ("friday", 4); ("saturday", 5); ("sunday", 6) ].

(** [str.lower] on the ASCII letters; no other character lowers to a
    letter of a day name. *)
Definition lower_char (c : Ascii.ascii) : Ascii.ascii :=
  let n := Ascii.nat_of_ascii c in
  if ((65 <=? n) && (n <=? 90))%nat then Ascii.ascii_of_nat (n + 32) else c.

Fixpoint lower (s : string) : string :=
  match s with
  | EmptyString => EmptyString
  | String c rest => String (lower_char c) (lower rest)
  end.

(** [day_mapping.get(day_name.lower())]. *)
Definition day_number (day_name : string) : option Z :=
  option_map snd
    (List.find (fun entry => String.eqb (fst entry) (lower day_name)) day_mapping).

(** The first name of the list that the mapping knows. *)
Fixpoint first_known_day (days_of_week : list string) : option Z :=
  match days_of_week with
  | [] => None
  | day_name :: rest =>
    match day_number day_name with
    | Some day_num => Some day_num
    | None => first_known_day rest
    end
  end.

(** [date.weekday()] of the day with this number, day 0 (1 January 1970)
    being a Thursday. *)
Definition weekday (day : Z) : Z := (day + 3) mod 7.

(** The result is [datetime.combine(next_date, reminder_time)], the time
    of day again in seconds after midnight. *)
Definition _get_next_weekly_date (now : datetime) (days_of_week : list string)
    (reminder_time : Z) : datetime :=
  let today := now / 86400 in
  let current_weekday := weekday today in
  match first_known_day days_of_week with
  | Some day_num =>
    let days_ahead := day_num - current_weekday in
    let days_ahead := if days_ahead <=? 0 then days_ahead + 7 else days_ahead in
    (today + days_ahead) * 86400 + reminder_time
  | None => (today + 7) * 86400 + reminder_time
  end.

End CRUDReminder.

(* ================================================================== *)
(** ** core/reminder_scheduler.py *)

Module ReminderScheduler.
Import ReminderModel.

(** The trigger [_schedule_reminder] builds.  The cron expressions of
    the daily and weekly branches are decoded by [json] and APScheduler;
    they are kept as the fields they are built from (the weekly one
    falls back to a [DateTrigger] when [repeat_days] does not decode). *)
Inductive Trigger :=
| IntervalTrigger (every : Z) (start_date : datetime) (end_date : option datetime)
| CronTrigger_daily (time_of_day : Z)
| CronTrigger_weekly (days : string) (at_time : datetime)
| DateTrigger (run_date : datetime).

(** Job [reminder_{id}], calling [_send_reminder_job] with [args=[id]]. *)
Record Job := {
  job_reminder : Z;
  trigger : Trigger
}.

Record Scheduler := {
  reminders : CRUDReminder.table;
  users : list UserModel.User;
  jobs : list Job;
  (** the calls of [bot.send_message]: chat id and reminder id *)
  dispatched : list (Z * Z)
}.

Definition remove_job (rid : Z) (js : list Job) : list Job :=
  List.filter (fun j => negb (job_reminder j =? rid)) js.

Definition add_job (j : Job) (js : list Job) : list Job :=
  remove_job (job_reminder j) js ++ [j].

Definition trigger_of (reminder : Reminder) : Trigger :=
  if repeats reminder then
    IntervalTrigger (default 0 (repeat_interval reminder))
                    (scheduled_time reminder) (expires_at reminder)
  else
    match reminder_type reminder, reminder_time reminder, repeat_days reminder with
    | DAILY, Some t, _ => CronTrigger_daily t
    | WEEKLY, _, Some days =>
      if String.eqb days EmptyString
      then DateTrigger (scheduled_time reminder)
      else CronTrigger_weekly days (scheduled_time reminder)
    | _, _, _ => DateTrigger (scheduled_time reminder)
    end.

Definition _schedule_reminder (s : Scheduler) (reminder : Reminder) : Scheduler :=
  {| reminders := reminders s;
     users := users s;
     jobs := add_job {| job_reminder := id reminder;
                        trigger := trigger_of reminder |}
                     (remove_job (id reminder) (jobs s));
     dispatched := dispatched s |}.

(** [_send_telegram_reminder] re-raises whatever [send_message] raises
    and ignores its return value: only [raised] reaches the handler that
    marks the reminder FAILED. *)
Definition _send_reminder (now : datetime) (bot : Bot) (s : Scheduler)
    (reminder : Reminder) : Scheduler :=
  match CRUDReminder.get_user (users s) (user_id reminder) with
  | None => s
  | Some user =>
    if UserModel.telegram_id user =? 0 then s
    else
      let log := dispatched s ++ [(UserModel.telegram_id user, id reminder)] in
      match bot (UserModel.telegram_id user) with
      | raised =>
        {| reminders := snd (CRUDReminder.mark_as_failed now (reminders s) (id reminder));
           users := users s;
           jobs := jobs s;
           dispatched := log |}
      | _ =>
        {| reminders := snd (CRUDReminder.mark_as_sent now (reminders s) (id reminder));
           users := users s;
           jobs := jobs s;
           dispatched := log |}
      end
  end.

Definition _schedule_next_recurring_reminder (now : datetime) (s : Scheduler)
    (reminder : Reminder) : Scheduler :=
  let next_time := now + minutes (default 0 (repeat_interval reminder)) in
  let new_reminder :=
    {| id := CRUDReminder.next_id (reminders s);
       user_id := user_id reminder;
       title := title reminder;
       message := message reminder;
       reminder_type := reminder_type reminder;
       status := ACTIVE;
       scheduled_time := next_time;
       reminder_time := reminder_time reminder;
       repeat_days := repeat_days reminder;
       repeat_interval := repeat_interval reminder;
       sent_at := None;
       sent_count := 0;
       failed_at := None;
       failed_count := 0;
       max_send_count := max_send_count reminder;
       is_recurring := is_recurring reminder;
       is_enabled := true;
       priority := priority reminder;
       extra_data := extra_data reminder;
       action_url := action_url reminder;
       created_at := now;
       updated_at := now;
       expires_at := expires_at reminder |} in
  _schedule_reminder
    {| reminders := reminders s ++ [new_reminder];
       users := users s;
       jobs := jobs s;
       dispatched := dispatched s |}
    new_reminder.

(** [reminder] is the ORM object that [mark_as_sent] / [mark_as_failed]
    update in the same database session, so the recurrence test reads the
    row as it is after the dispatch. *)
Definition _send_reminder_job (now : datetime) (bot : Bot) (s : Scheduler)
    (reminder_id : Z) : Scheduler :=
  match CRUDReminder.get (reminders s) reminder_id with
  | None => s
  | Some reminder =>
    if negb (is_active reminder) then s
    else
      let s1 := _send_reminder now bot s reminder in
      let reminder' :=
        default reminder (CRUDReminder.get (reminders s1) reminder_id) in
      if repeats reminder'
      then _schedule_next_recurring_reminder now s1 reminder'
      else s1
  end.

(** *** Start-up, removal and the expiry sweep *)

Definition _load_existing_reminders (now : datetime) (s : Scheduler) : Scheduler :=
  List.fold_left _schedule_reminder
    (CRUDReminder.get_active_reminders now (reminders s)) s.

Definition add_reminder (s : Scheduler) (reminder : Reminder) : Scheduler :=
  _schedule_reminder s reminder.

Definition update_reminder (s : Scheduler) (reminder : Reminder) : Scheduler :=
  _schedule_reminder s reminder.

(** [scheduler.remove_job]; the error for a job that does not exist is
    caught and logged. *)
Definition remove_reminder (s : Scheduler) (reminder_id : Z) : Scheduler :=
  {| reminders := reminders s;
     users := users s;
     jobs := remove_job reminder_id (jobs s);
     dispatched := dispatched s |}.

(** One iteration of the loop of [cleanup_expired_reminders]. *)
Definition expire_reminder (now : datetime) (s : Scheduler) (reminder : Reminder)
  : Scheduler :=
  remove_reminder
    {| reminders := snd (CRUDReminder.mark_as_expired now (reminders s) (id reminder));
       users := users s;
       jobs := jobs s;
       dispatched := dispatched s |}
    (id reminder).

Definition cleanup_expired_reminders (now : datetime) (s : Scheduler) : Scheduler :=
  List.fold_left (expire_reminder now)
    (CRUDReminder.get_expired_reminders now (reminders s)) s.

(** The job of a reminder, if the store has one. *)
Definition job_of (reminder_id : Z) (js : list Job) : option Job :=
  List.find (fun j => job_reminder j =? reminder_id) js.

End ReminderScheduler.

(* ================================================================== *)
(** ** tasks/reminder_tasks.py *)

Module ReminderTasks.
Import ReminderModel.

Record Worker := {
  reminders : CRUDReminder.table;
  users : list UserModel.User;
  (** [send_telegram_reminder.delay(id)]: the ids handed to the broker *)
  queue : list Z
}.

(** The filter of the [due_reminders] query. *)
Definition is_due (now : datetime) (r : Reminder) : bool :=
  status_eqb (status r) ACTIVE
  && is_enabled r
  && (scheduled_time r <=? now)
  && match expires_at r with
     | None => true
     | Some e => now <? e
     end
  && match max_send_count r with
     | None => true
     | Some m => sent_count r <? m
     end.

(** The assignments of one loop iteration to its [reminder]; the commit
    refreshes [updated_at]. *)
Definition mark_processed (now : datetime) (reminder : Reminder) : Reminder :=
  let reminder := set_status SENT reminder in
  let reminder := set_sent_at (Some now) reminder in
  let reminder := set_sent_count (sent_count reminder + 1) reminder in
  let reminder :=
    if repeats reminder then
      let next_time := now + minutes (default 0 (repeat_interval reminder)) in
      let reminder := set_scheduled_time next_time reminder in
      set_status ACTIVE reminder
    else reminder in
  set_updated_at now reminder.

(** One iteration of the loop: enqueue the delivery task, update the
    row, commit.  The broker is taken to accept the task. *)
Definition process_reminder (now : datetime) (w : Worker) (reminder : Reminder)
  : Worker :=
  {| reminders := CRUDReminder.commit (mark_processed now reminder) (reminders w);
     users := users w;
     queue := queue w ++ [id reminder] |}.

(** Returns the ["processed"] count next to the new state. *)
Definition check_due_reminders (now : datetime) (w : Worker) : Z * Worker :=
  let due_reminders := List.filter (is_due now) (reminders w) in
  (Z.of_nat (length due_reminders),
   List.fold_left (process_reminder now) due_reminders w).

Inductive TaskResult :=
| task_success (reminder_id : Z)
| task_error (reason : string).

(** The delivery task run later by a worker.  It reads the tables and
    changes none of them; a [None] from the bot fails on
    [result.message_id] inside the same [try]. *)
Definition send_telegram_reminder (bot : Bot) (w : Worker) (reminder_id : Z)
  : TaskResult :=
  match CRUDReminder.get (reminders w) reminder_id with
  | None => task_error "Reminder not found"
  | Some reminder =>
    match CRUDReminder.get_user (users w) (user_id reminder) with
    | None => task_error "User not found"
    | Some user =>
      match bot (UserModel.telegram_id user) with
      | message_sent => task_success reminder_id
      | _ => task_error "Failed to send message"
      end
    end
  end.

(** *** The expiry task and the cancel task *)

(** Every expired row gets [status = EXPIRED]; one commit follows the
    loop.  The count is the ["expired_count"] of the result. *)
Definition cleanup_expired_reminders (now : datetime) (w : Worker) : Z * Worker :=
  let expired_reminders :=
    List.filter (CRUDReminder.has_expired now) (reminders w) in
  (Z.of_nat (length expired_reminders),
   List.fold_left
     (fun w reminder =>
        {| reminders :=
             CRUDReminder.commit
               (set_updated_at now (set_status EXPIRED reminder)) (reminders w);
           users := users w;
           queue := queue w |})
     expired_reminders w).

Definition cancel_reminder (now : datetime) (w : Worker) (reminder_id : Z)
  : TaskResult * Worker :=
  match CRUDReminder.get (reminders w) reminder_id with
  | None => (task_error "Reminder not found", w)
  | Some reminder =>
    (task_success reminder_id,
     {| reminders :=
          CRUDReminder.commit
            (set_updated_at now (set_status CANCELLED reminder)) (reminders w);
        users := users w;
        queue := queue w |})
  end.

End ReminderTasks.

(* ================================================================== *)
(** ** Statements and scenarios for the focus-session engine *)

Module FocusSpec.
Import FocusModel.

(** The calls that reach the timer: the bot's handlers and the jobs of
    the scheduler.  [restart] is a restart of the process: a new timer is
    constructed over the same database and started. *)
Inductive Event :=
| start_focus (uid duration : Z) (auto_next : bool)
| pause (uid : Z)
| resume (uid : Z)
| cancel (uid : Z)
| focus_complete_fires (uid : Z)
| break_complete_fires (uid : Z)
| restart.

Definition handle (t : FocusTimer.Timer) (e : datetime * Event)
  : FocusTimer.Timer :=
  let now := fst e in
  match snd e with
  | start_focus uid d a => snd (FocusTimer.start_focus_session now t uid d a)
  | pause uid => snd (FocusTimer.pause_session now t uid)
  | resume uid => snd (FocusTimer.resume_session now t uid)
  | cancel uid => snd (FocusTimer.cancel_session now t uid)
  | focus_complete_fires uid => FocusTimer._complete_focus_session now t uid
  | break_complete_fires uid => FocusTimer._complete_break_session now t uid
  | restart => FocusTimer.start (FocusTimer.__init__ (FocusTimer.db t))
  end.

(** The job store is only changed by the timer's own calls: a job that
    has fired stays listed. *)
Definition run (t : FocusTimer.Timer) (trace : list (datetime * Event))
  : FocusTimer.Timer :=
  List.fold_left handle trace t.

(** Every cache entry still has its counter at zero. *)
Definition fresh_counters (t : FocusTimer.Timer) : Prop :=
  forall uid info,
    FocusTimer.active_sessions t !! uid = Some info ->
    FocusTimer.sessions_completed info = 0.

(** The user owns a session that is ACTIVE or PAUSED. *)
Definition has_running_session (db : CRUDFocusSession.table) (uid : Z) : Prop :=
  exists s, In s db /\ user_id s = uid
            /\ (status s = ACTIVE \/ status s = PAUSED).

(** "start fails and creates no session" for a user with a running
    session; [None] is the only failure [start_focus_session] can
    report, since its body returns [None] from every handler. *)
Definition start_conflict_fails : Prop :=
  forall now t uid d a,
    has_running_session (FocusTimer.db t) uid ->
    fst (FocusTimer.start_focus_session now t uid d a) = None
    /\ FocusTimer.db (snd (FocusTimer.start_focus_session now t uid d a))
       = FocusTimer.db t.

(** A CRUD operation is rejected on every CANCELLED session and leaves
    the table as it was. *)
Definition rejects_cancelled
    (op : datetime -> CRUDFocusSession.table -> Z
          -> option FocusSession * CRUDFocusSession.table) : Prop :=
  forall now db sid s,
    CRUDFocusSession.get db sid = Some s -> status s = CANCELLED ->
    op now db sid = (None, db).

Definition cancelled_is_terminal : Prop :=
  rejects_cancelled CRUDFocusSession.start_session
  /\ rejects_cancelled CRUDFocusSession.pause_session
  /\ rejects_cancelled CRUDFocusSession.resume_session
  /\ rejects_cancelled CRUDFocusSession.complete_session
  /\ rejects_cancelled CRUDFocusSession.cancel_session.

(** The row a break starts with. *)
Definition started_break (now : datetime) (db : CRUDFocusSession.table)
    (uid : Z) (ty : FocusSessionType) (d : Z) : FocusSession :=
  {| id := CRUDFocusSession.next_id db;
     user_id := uid;
     session_type := ty;
     status := ACTIVE;
     planned_duration := d;
     actual_duration := None;
     paused_duration := 0;
     planned_start := now;
     actual_start := Some now;
     actual_end := None;
     last_pause_start := None;
     auto_start_next := true;
     created_at := now;
     updated_at := now |}.

(** *** Scenario: a 25-minute session paused after 10 minutes for 5 *)

Definition T0 : datetime := 0.

Definition pomodoro_started : FocusTimer.Timer :=
  snd (FocusTimer.start_focus_session T0 (FocusTimer.__init__ []) 7 25 true).

Definition pomodoro_paused : FocusTimer.Timer :=
  snd (FocusTimer.pause_session (T0 + minutes 10) pomodoro_started 7).

Definition pomodoro_resumed : FocusTimer.Timer :=
  snd (FocusTimer.resume_session (T0 + minutes 15) pomodoro_paused 7).

(** *** Scenario: the fourth focus session of user 7 *)

Definition finished (i : Z) (ty : FocusSessionType) (d : Z) (t0 : datetime)
  : FocusSession :=
  {| id := i;
     user_id := 7;
     session_type := ty;
     status := COMPLETED;
     planned_duration := d;
     actual_duration := Some d;
     paused_duration := 0;
     planned_start := t0;
     actual_start := Some t0;
     actual_end := Some (t0 + minutes d);
     last_pause_start := None;
     auto_start_next := true;
     created_at := t0;
     updated_at := t0 + minutes d |}.

(** Three focus sessions and their breaks, all COMPLETED. *)
Definition three_pomodoros : CRUDFocusSession.table :=
  [ finished 1 FOCUS 25 0;      finished 2 SHORT_BREAK 5 1500;
    finished 3 FOCUS 25 1800;   finished 4 SHORT_BREAK 5 3300;
    finished 5 FOCUS 25 3600;   finished 6 SHORT_BREAK 5 5100 ].

Definition fourth_started : FocusTimer.Timer :=
  snd (FocusTimer.start_focus_session 5400
         (FocusTimer.__init__ three_pomodoros) 7 25 true).

Definition fourth_completed : FocusTimer.Timer :=
  FocusTimer._complete_focus_session (5400 + minutes 25) fourth_started 7.

(** *** Scenario: four focus sessions in a row, from an empty table

    After each completion the break that was started is no longer in the
    cache, so it takes a restart (which puts the break back into the
    cache) and a cancel before the user can start the next session. *)

Definition four_sessions : list (datetime * Event) :=
  [ (0, start_focus 7 25 true);    (1500, focus_complete_fires 7);
    (1800, restart);               (1800, cancel 7);
    (1800, start_focus 7 25 true); (3300, focus_complete_fires 7);
    (3600, restart);               (3600, cancel 7);
    (3600, start_focus 7 25 true); (5100, focus_complete_fires 7);
    (5400, restart);               (5400, cancel 7);
    (5400, start_focus 7 25 true); (6900, focus_complete_fires 7) ].

(** *** Rows used as concrete inputs *)

Definition cancelled_row : FocusSession :=
  {| id := 1;
     user_id := 7;
     session_type := FOCUS;
     status := CANCELLED;
     planned_duration := 25;
     actual_duration := None;
     paused_duration := 0;
     planned_start := 0;
     actual_start := Some 0;
     actual_end := Some 600;
     last_pause_start := None;
     auto_start_next := true;
     created_at := 0;
     updated_at := 600 |}.

Definition running_row (st : FocusSessionStatus) (pause : option datetime)
  : FocusSession :=
  {| id := 1;
     user_id := 7;
     session_type := FOCUS;
     status := st;
     planned_duration := 25;
     actual_duration := None;
     paused_duration := 0;
     planned_start := 0;
     actual_start := Some 0;
     actual_end := None;
     last_pause_start := pause;
     auto_start_next := true;
     created_at := 0;
     updated_at := 0 |}.

(** A timer that was just constructed over a table holding an ACTIVE
    session of user 7: the cache is empty. *)
Definition restarted : FocusTimer.Timer :=
  FocusTimer.__init__ [running_row ACTIVE None].

(** *** Supplements *)

(** The ping of minute [i]. *)
Definition progress_ping (now : datetime) (uid d sid i : Z) : FocusTimer.Job :=
  {| FocusTimer.job_id := FocusTimer.progress uid sid i;
     FocusTimer.run_date := now + minutes i;
     FocusTimer.func := FocusTimer.progress_job uid i d |}.

(** A session that counts as running. *)
Definition running (s : FocusSession) : bool :=
  status_eqb (status s) ACTIVE || status_eqb (status s) PAUSED.

(** Primary keys are unique. *)
Definition well_keyed (db : CRUDFocusSession.table) : Prop :=
  List.NoDup (List.map id db).

(** No user has two running sessions. *)
Definition one_running (db : CRUDFocusSession.table) : Prop :=
  forall s1 s2,
    In s1 db -> In s2 db ->
    running s1 = true -> running s2 = true ->
    user_id s1 = user_id s2 -> id s1 = id s2.

(** Every cache entry names a row of the table that belongs to the
    user it is filed under. *)
Definition cache_owned (t : FocusTimer.Timer) : Prop :=
  forall u info,
    FocusTimer.active_sessions t !! u = Some info ->
    exists s,
      CRUDFocusSession.get (FocusTimer.db t) (FocusTimer.session_id info) = Some s
      /\ user_id s = u.

Definition consistent (t : FocusTimer.Timer) : Prop :=
  well_keyed (FocusTimer.db t)
  /\ one_running (FocusTimer.db t)
  /\ cache_owned t.

(** What an entry written by the restore looks like. *)
Definition restored_from (db : CRUDFocusSession.table) (u : Z)
    (info : FocusTimer.SessionInfo) : Prop :=
  exists s,
    In s db
    /\ running s = true
    /\ user_id s = u
    /\ FocusTimer.session_id info = id s
    /\ FocusTimer.start_time info = default (created_at s) (actual_start s)
    /\ FocusTimer.duration_minutes info = planned_duration s
    /\ FocusTimer.sessions_completed info = 0.

(** The day [i] days before today has a COMPLETED session of the user. *)
Definition completed_on_day (now : datetime) (db : CRUDFocusSession.table)
    (uid : Z) (i : nat) : Prop :=
  (0 < CRUDFocusSession.completed_sessions_on db uid
         (CRUDFocusSession.day_start now (Z.of_nat i)))%nat.

(** [db'] keeps the keys unique and keeps every row of [db] under its
    key, with the same owner. *)
Definition extends (db db' : CRUDFocusSession.table) : Prop :=
  (well_keyed db -> well_keyed db')
  /\ forall i s,
       CRUDFocusSession.get db i = Some s ->
       exists s', CRUDFocusSession.get db' i = Some s' /\ user_id s' = user_id s.

(** [db'] is [db], or [db] with one row written back that has kept its
    key and owner and runs only if it ran before. *)
Definition calm (db db' : CRUDFocusSession.table) : Prop :=
  db' = db
  \/ exists sid s s',
       CRUDFocusSession.get db sid = Some s
       /\ id s' = id s
       /\ user_id s' = user_id s
       /\ (running s' = true -> running s = true)
       /\ db' = CRUDFocusSession.commit s' db.

(** The user has no running session in the table. *)
Definition idle (db : CRUDFocusSession.table) (uid : Z) : Prop :=
  forall x, In x db -> running x = true -> user_id x <> uid.

End FocusSpec.

(* ================================================================== *)
(** ** Statements and scenarios for the reminders *)

Module ReminderSpec.
Import ReminderModel.

(** Primary keys are unique. *)
Definition well_keyed (db : CRUDReminder.table) : Prop :=
  List.NoDup (List.map id db).


(** "Each fire of an interval reminder adds one to [sent_count], and the
    next occurrence is never scheduled later than [expires_at]". *)
Definition interval_fire_respects_expiry : Prop :=
  forall now w r,
    well_keyed (ReminderTasks.reminders w) ->
    In r (ReminderTasks.reminders w) ->
    repeats r = true ->
    ReminderTasks.is_due now r = true ->
    exists r',
      CRUDReminder.get
        (ReminderTasks.reminders (snd (ReminderTasks.check_due_reminders now w)))
        (id r) = Some r'
      /\ sent_count r' = sent_count r + 1
      /\ forall e, expires_at r = Some e -> scheduled_time r' <= e.

(** *** Concrete inputs *)

(** A reminder of user 7, due since second 0. *)
Definition reminder_row (i : Z) (st : ReminderStatus) (recurring : bool)
    (interval expires : option Z) (sent : Z) : Reminder :=
  {| id := i;
     user_id := 7;
     title := "Drink water";
     message := None;
     reminder_type := CUSTOM;
     status := st;
     scheduled_time := 0;
     reminder_time := None;
     repeat_days := None;
     repeat_interval := interval;
     sent_at := if sent =? 0 then None else Some 0;
     sent_count := sent;
     failed_at := None;
     failed_count := 0;
     max_send_count := None;
     is_recurring := recurring;
     is_enabled := true;
     priority := 1;
     extra_data := None;
     action_url := None;
     created_at := 0;
     updated_at := 0;
     expires_at := expires |}.

Definition user7 : UserModel.User :=
  {| UserModel.id := 7; UserModel.telegram_id := 7007 |}.

(** A notifier whose [send_message] raises for every chat. *)
Definition broken_bot : Bot := fun _ => raised.

Definition scheduler_with (r : Reminder) : ReminderScheduler.Scheduler :=
  {| ReminderScheduler.reminders := [r];
     ReminderScheduler.users := [user7];
     ReminderScheduler.jobs :=
       [{| ReminderScheduler.job_reminder := id r;
           ReminderScheduler.trigger := ReminderScheduler.trigger_of r |}];
     ReminderScheduler.dispatched := [] |}.

Definition worker_with (r : Reminder) : ReminderTasks.Worker :=
  {| ReminderTasks.reminders := [r];
     ReminderTasks.users := [user7];
     ReminderTasks.queue := [] |}.

(** One-shot reminder, still ACTIVE. *)
Definition one_shot : Reminder := reminder_row 1 ACTIVE false None None 0.

(** One-shot reminder that was already sent once. *)
Definition one_shot_sent : Reminder := reminder_row 1 SENT false None None 1.

(** Hourly reminder that expires at second 100. *)
Definition hourly : Reminder := reminder_row 1 ACTIVE true (Some 60) (Some 100) 0.

(** *** The row loops *)

(** What the expiry sweeps write to an expired row. *)
Definition expired_row (now : datetime) (r : Reminder) : Reminder :=
  set_updated_at now (set_status EXPIRED r).

(** At most one job per reminder. *)
Definition unique_jobs (s : ReminderScheduler.Scheduler) : Prop :=
  List.NoDup (List.map ReminderScheduler.job_reminder (ReminderScheduler.jobs s)).


End ReminderSpec.

(* ================================================================== *)
(** * Properties of the focus-session engine *)

Module FocusProps.
Import FocusModel.

Lemma status_eqb_eq a b : status_eqb a b = true <-> a = b.
Proof. destruct a, b; simpl; split; congruence. Qed.

(** ** The table *)

Lemma get_id db i s : CRUDFocusSession.get db i = Some s -> id s = i.
Proof.
  unfold CRUDFocusSession.get. intros H.
  apply List.find_some in H as [_ H]. lia.
Qed.

Lemma get_In db i s : CRUDFocusSession.get db i = Some s -> In s db.
Proof.
  unfold CRUDFocusSession.get. intros H. now apply List.find_some in H.
Qed.

(** Reading back a row that was just written. *)
Lemma get_commit db i s s' :
  CRUDFocusSession.get db i = Some s ->
  id s' = i ->
  CRUDFocusSession.get (CRUDFocusSession.commit s' db) i = Some s'.
Proof.
  unfold CRUDFocusSession.get, CRUDFocusSession.commit. intros H <-.
  induction db as [|r db IH]; cbn [List.find List.map] in *; [discriminate|].
  destruct (id r =? id s') eqn:Hr.
  - now rewrite Z.eqb_refl.
  - rewrite Hr. apply IH. exact H.
Qed.

(** Writing a row leaves the rows with another key alone. *)
Lemma get_commit_other db s' i :
  id s' <> i ->
  CRUDFocusSession.get (CRUDFocusSession.commit s' db) i = CRUDFocusSession.get db i.
Proof.
  unfold CRUDFocusSession.get, CRUDFocusSession.commit. intros N.
  induction db as [|r db IH]; simpl; [reflexivity|].
  destruct (id r =? id s') eqn:Hr.
  - apply Z.eqb_eq in Hr.
    destruct (id s' =? i) eqn:H1; [lia|].
    destruct (id r =? i) eqn:H2; [lia|]. exact IH.
  - destruct (id r =? i); [reflexivity|exact IH].
Qed.

Lemma id_lt_next_id db s : In s db -> id s < CRUDFocusSession.next_id db.
Proof.
  unfold CRUDFocusSession.next_id.
  induction db as [|r db IH]; simpl; [tauto|].
  intros [->|H]; [lia|]. specialize (IH H). lia.
Qed.

Lemma get_next_id db : CRUDFocusSession.get db (CRUDFocusSession.next_id db) = None.
Proof.
  destruct (CRUDFocusSession.get db (CRUDFocusSession.next_id db)) as [s|] eqn:H; [|reflexivity].
  pose proof (get_id _ _ _ H). apply get_In, id_lt_next_id in H. lia.
Qed.

Lemma commit_absent db s :
  CRUDFocusSession.get db (id s) = None -> CRUDFocusSession.commit s db = db.
Proof.
  unfold CRUDFocusSession.get, CRUDFocusSession.commit.
  induction db as [|r db IH]; simpl; [reflexivity|].
  destruct (id r =? id s); [discriminate|].
  intros H. now rewrite IH.
Qed.

Lemma get_app_absent db i s :
  CRUDFocusSession.get db i = None -> id s = i ->
  CRUDFocusSession.get (db ++ [s]) i = Some s.
Proof.
  unfold CRUDFocusSession.get.
  induction db as [|r db IH]; simpl; intros H E.
  - apply Z.eqb_eq in E. now rewrite E.
  - destruct (id r =? i); [discriminate|auto].
Qed.

Lemma commit_app db s l :
  CRUDFocusSession.commit s (db ++ l) = CRUDFocusSession.commit s db ++ CRUDFocusSession.commit s l.
Proof. unfold CRUDFocusSession.commit. apply List.map_app. Qed.

(** A session created by [create_focus_session] starts: the row that
    was appended is replaced by its ACTIVE version. *)
Lemma start_created now db uid ty d auto_next :
  let created := fst (CRUDFocusSession.create_focus_session now db uid ty d auto_next) in
  let started :=
    {| id := CRUDFocusSession.next_id db;
       user_id := uid;
       session_type := ty;
       status := ACTIVE;
       planned_duration := d;
       actual_duration := None;
       paused_duration := 0;
       planned_start := now;
       actual_start := Some now;
       actual_end := None;
       last_pause_start := None;
       auto_start_next := auto_next;
       created_at := now;
       updated_at := now |} in
  CRUDFocusSession.start_session now
    (snd (CRUDFocusSession.create_focus_session now db uid ty d auto_next))
    (id created)
  = (Some started, db ++ [started]).
Proof.
  simpl. unfold CRUDFocusSession.start_session.
  rewrite (get_app_absent db (CRUDFocusSession.next_id db)); [|apply get_next_id|reflexivity].
  simpl. f_equal.
  rewrite commit_app. rewrite commit_absent by (simpl; apply get_next_id).
  simpl. now rewrite Z.eqb_refl.
Qed.

(** ** CANCELLED sessions *)

(** C5 (as amended).  On a CANCELLED session [start_session],
    [pause_session], [resume_session] and [complete_session] are
    rejected and leave the table as it was; [cancel_session] is accepted
    once more and writes the row back, still with status CANCELLED.  So
    the status never leaves CANCELLED. *)
Theorem cancelled_stays_cancelled now db sid s :
  CRUDFocusSession.get db sid = Some s ->
  status s = CANCELLED ->
  CRUDFocusSession.start_session now db sid = (None, db)
  /\ CRUDFocusSession.pause_session now db sid = (None, db)
  /\ CRUDFocusSession.resume_session now db sid = (None, db)
  /\ CRUDFocusSession.complete_session now db sid = (None, db)
  /\ exists s',
       CRUDFocusSession.cancel_session now db sid = (Some s', CRUDFocusSession.commit s' db)
       /\ CRUDFocusSession.get (CRUDFocusSession.commit s' db) sid = Some s'
       /\ status s' = CANCELLED.
Proof.
  intros G C.
  unfold CRUDFocusSession.start_session, CRUDFocusSession.pause_session,
    CRUDFocusSession.resume_session, CRUDFocusSession.complete_session,
    CRUDFocusSession.cancel_session.
  rewrite G, C; cbn.
  repeat split.
  eexists. split; [reflexivity|]. split; [|reflexivity].
  eapply get_commit; [exact G|]. cbn. eapply get_id; exact G.
Qed.

Lemma cancelled_stays_cancelled_witness :
  CRUDFocusSession.get [FocusSpec.cancelled_row] 1 = Some FocusSpec.cancelled_row
  /\ status FocusSpec.cancelled_row = CANCELLED
  /\ CRUDFocusSession.start_session 900 [FocusSpec.cancelled_row] 1
     = (None, [FocusSpec.cancelled_row])
  /\ CRUDFocusSession.pause_session 900 [FocusSpec.cancelled_row] 1
     = (None, [FocusSpec.cancelled_row])
  /\ CRUDFocusSession.resume_session 900 [FocusSpec.cancelled_row] 1
     = (None, [FocusSpec.cancelled_row])
  /\ CRUDFocusSession.complete_session 900 [FocusSpec.cancelled_row] 1
     = (None, [FocusSpec.cancelled_row])
  /\ exists s',
       CRUDFocusSession.cancel_session 900 [FocusSpec.cancelled_row] 1
       = (Some s', CRUDFocusSession.commit s' [FocusSpec.cancelled_row])
       /\ CRUDFocusSession.get (CRUDFocusSession.commit s' [FocusSpec.cancelled_row]) 1 = Some s'
       /\ status s' = CANCELLED.
Proof.
  split; [reflexivity|]. split; [reflexivity|].
  apply (cancelled_stays_cancelled 900 [FocusSpec.cancelled_row] 1
           FocusSpec.cancelled_row); reflexivity.
Defined.

(** C5, counterexample.  A session cancelled at second 600 is cancelled
    again at second 900: the call is not rejected, and [actual_end] and
    [updated_at] of the stored row are overwritten. *)
Lemma cancel_rewrites_cancelled_row :
  CRUDFocusSession.get [FocusSpec.cancelled_row] 1 = Some FocusSpec.cancelled_row
  /\ status FocusSpec.cancelled_row = CANCELLED
  /\ actual_end FocusSpec.cancelled_row = Some 600
  /\ (exists s',
        CRUDFocusSession.cancel_session 900 [FocusSpec.cancelled_row] 1
        = (Some s', [s'])
        /\ actual_end s' = Some 900
        /\ updated_at s' = 900)
  /\ ~ FocusSpec.cancelled_is_terminal.
Proof.
  split; [reflexivity|]. split; [reflexivity|]. split; [reflexivity|].
  split.
  - eexists. split; [reflexivity|]. split; reflexivity.
  - intros (_ & _ & _ & _ & H).
    specialize (H 900 [FocusSpec.cancelled_row] 1 FocusSpec.cancelled_row
                  eq_refl eq_refl).
    discriminate H.
Qed.

(** ** Completion *)

(** Completing a PAUSED session touches neither [paused_duration] nor
    [last_pause_start]: the pause that is still open is not accounted. *)
Lemma complete_from_paused now db sid s :
  CRUDFocusSession.get db sid = Some s ->
  status s = PAUSED ->
  exists s',
    CRUDFocusSession.complete_session now db sid = (Some s', CRUDFocusSession.commit s' db)
    /\ status s' = COMPLETED
    /\ paused_duration s' = paused_duration s
    /\ last_pause_start s' = last_pause_start s.
Proof.
  intros G P. unfold CRUDFocusSession.complete_session. rewrite G, P. cbn.
  destruct (actual_start s); (eexists; split; [reflexivity|]; cbn; auto).
Qed.

(** Pausing an ACTIVE session at [t1] and completing it at [t2] leaves
    [last_pause_start = Some t1] in the COMPLETED row. *)
Lemma pause_then_complete t1 t2 db sid s :
  CRUDFocusSession.get db sid = Some s ->
  status s = ACTIVE ->
  exists p c,
    CRUDFocusSession.pause_session t1 db sid = (Some p, CRUDFocusSession.commit p db)
    /\ CRUDFocusSession.complete_session t2 (CRUDFocusSession.commit p db) sid
       = (Some c, CRUDFocusSession.commit c (CRUDFocusSession.commit p db))
    /\ status c = COMPLETED
    /\ paused_duration c = paused_duration s
    /\ last_pause_start c = Some t1.
Proof.
  intros G A. unfold CRUDFocusSession.pause_session. rewrite G, A. cbn.
  destruct (actual_start s) eqn:AS;
    (eexists; eexists; split; [reflexivity|]);
    unfold CRUDFocusSession.complete_session;
    (erewrite get_commit; [|exact G|cbn; eapply get_id; exact G]);
    cbn; rewrite AS; (split; [reflexivity|]); cbn; auto.
Qed.

(** [actual_duration] is the whole-minute span between [actual_start]
    and the completion instant, pauses included. *)
Lemma complete_actual_duration now db sid s t0 :
  CRUDFocusSession.get db sid = Some s ->
  status s = ACTIVE \/ status s = PAUSED ->
  actual_start s = Some t0 ->
  exists s',
    CRUDFocusSession.complete_session now db sid = (Some s', CRUDFocusSession.commit s' db)
    /\ status s' = COMPLETED
    /\ actual_end s' = Some now
    /\ actual_duration s' = Some (whole_minutes now t0)
    /\ paused_duration s' = paused_duration s.
Proof.
  intros G S A. unfold CRUDFocusSession.complete_session. rewrite G.
  destruct S as [S|S]; rewrite S; cbn; rewrite A;
    (eexists; split; [reflexivity|]; cbn; auto).
Qed.

(** As soon as at least one whole minute has passed, the effective
    duration of the completed session is [actual_duration] minus
    [paused_duration]. *)
Lemma effective_duration_after_complete now db sid s t0 :
  CRUDFocusSession.get db sid = Some s ->
  status s = ACTIVE \/ status s = PAUSED ->
  actual_start s = Some t0 ->
  whole_minutes now t0 <> 0 ->
  exists s',
    CRUDFocusSession.complete_session now db sid = (Some s', CRUDFocusSession.commit s' db)
    /\ effective_duration_minutes s'
       = whole_minutes now t0 - paused_duration s.
Proof.
  intros G S A N. unfold CRUDFocusSession.complete_session. rewrite G.
  destruct S as [S|S]; rewrite S; cbn; rewrite A;
    (eexists; split; [reflexivity|]);
    unfold effective_duration_minutes; cbn;
    destruct (whole_minutes now t0 =? 0) eqn:E; cbn; try reflexivity;
    apply Z.eqb_eq in E; contradiction.
Qed.

(** Within the first minute [actual_duration] is [0], which
    [effective_duration_minutes] reads as "not set". *)
Lemma effective_duration_zero_minutes now db sid s t0 :
  CRUDFocusSession.get db sid = Some s ->
  status s = ACTIVE \/ status s = PAUSED ->
  actual_start s = Some t0 ->
  whole_minutes now t0 = 0 ->
  exists s',
    CRUDFocusSession.complete_session now db sid = (Some s', CRUDFocusSession.commit s' db)
    /\ actual_duration s' = Some 0
    /\ effective_duration_minutes s' = planned_duration s.
Proof.
  intros G S A N. unfold CRUDFocusSession.complete_session. rewrite G.
  destruct S as [S|S]; rewrite S; cbn; rewrite A, N;
    (eexists; split; [reflexivity|]); cbn; auto.
Qed.

(** C10, at the failing input.  A 25-minute session started at second 0
    is completed at second 30: the row is COMPLETED with [actual_start]
    set, [actual_duration = 0] and [paused_duration = 0], yet
    [effective_duration_minutes] is 25, not [0 - 0]. *)
Theorem zero_minute_session_counts_as_planned :
  exists s',
    CRUDFocusSession.complete_session 30 [FocusSpec.running_row ACTIVE None] 1
    = (Some s', [s'])
    /\ status s' = COMPLETED
    /\ actual_start s' = Some 0
    /\ actual_end s' = Some 30
    /\ actual_duration s' = Some 0
    /\ paused_duration s' = 0
    /\ effective_duration_minutes s' = 25
    /\ effective_duration_minutes s' <> 0 - paused_duration s'.
Proof.
  eexists. split; [reflexivity|]. cbn. repeat split; discriminate.
Qed.

(** ** The cache gates pause, resume and cancel *)

(** C9.  For a user without an entry in [active_sessions], the timer's
    [pause_session], [resume_session] and [cancel_session] return [False]
    and leave the whole state, the session table included, as it was,
    whatever the table holds for that user. *)
Theorem uncached_user_is_refused now (t : FocusTimer.Timer) uid :
  FocusTimer.active_sessions t !! uid = None ->
  FocusTimer.pause_session now t uid = (false, t)
  /\ FocusTimer.resume_session now t uid = (false, t)
  /\ FocusTimer.cancel_session now t uid = (false, t).
Proof.
  intros H.
  unfold FocusTimer.pause_session, FocusTimer.resume_session,
    FocusTimer.cancel_session.
  rewrite H. auto.
Qed.

Lemma uncached_user_is_refused_witness :
  CRUDFocusSession.get_active_session (FocusTimer.db FocusSpec.restarted) 7
  = Some (FocusSpec.running_row ACTIVE None)
  /\ FocusTimer.active_sessions FocusSpec.restarted !! 7 = None
  /\ FocusTimer.pause_session 600 FocusSpec.restarted 7
     = (false, FocusSpec.restarted)
  /\ FocusTimer.resume_session 600 FocusSpec.restarted 7
     = (false, FocusSpec.restarted)
  /\ FocusTimer.cancel_session 600 FocusSpec.restarted 7
     = (false, FocusSpec.restarted).
Proof.
  split; [reflexivity|]. split; [reflexivity|].
  apply (uncached_user_is_refused 600 FocusSpec.restarted 7). reflexivity.
Defined.

(** A cancel that went through has removed the cache entry, so the timer
    refuses every further pause, resume or cancel for that user. *)
Lemma cancelled_user_leaves_cache now (t t' : FocusTimer.Timer) uid :
  FocusTimer.cancel_session now t uid = (true, t') ->
  FocusTimer.active_sessions t' !! uid = None.
Proof.
  unfold FocusTimer.cancel_session.
  destruct (FocusTimer.active_sessions t !! uid); [|discriminate].
  destruct (CRUDFocusSession.cancel_session _ _ _) as [[?|] ?]; [|discriminate].
  intros [= <-]. cbn. apply lookup_delete_eq.
Qed.

(** ** Starting while a session is running *)

Lemma running_session_found db uid :
  FocusSpec.has_running_session db uid ->
  exists s,
    CRUDFocusSession.get_active_session db uid = Some s
    /\ In s db /\ user_id s = uid
    /\ (status s = ACTIVE \/ status s = PAUSED).
Proof.
  intros (s0 & Hin & Hu & Hs).
  unfold CRUDFocusSession.get_active_session.
  match goal with |- context [List.find ?f db] =>
    destruct (List.find f db) as [s|] eqn:F end.
  - apply List.find_some in F as [Hin' Hp].
    apply andb_prop in Hp as [Hp1 Hp2].
    exists s. split; [reflexivity|]. split; [exact Hin'|].
    split; [lia|].
    apply orb_prop in Hp2 as [Hp2|Hp2]; apply status_eqb_eq in Hp2; auto.
  - exfalso.
    pose proof (List.find_none _ _ F s0 Hin) as Hp. cbn in Hp.
    rewrite Hu, Z.eqb_refl in Hp. cbn in Hp.
    destruct Hs as [Hs|Hs]; rewrite Hs in Hp; discriminate.
Qed.

(** C4 (as amended).  When the user already has an ACTIVE or PAUSED
    session, [start_focus_session] raises nothing: it returns that
    running session and changes nothing, so no session record is
    created, no cache entry written and no job scheduled. *)
Theorem start_returns_running_session now (t : FocusTimer.Timer) uid d a :
  FocusSpec.has_running_session (FocusTimer.db t) uid ->
  exists s,
    FocusTimer.start_focus_session now t uid d a = (Some s, t)
    /\ In s (FocusTimer.db t)
    /\ user_id s = uid
    /\ (status s = ACTIVE \/ status s = PAUSED).
Proof.
  intros H. apply running_session_found in H as (s & F & Hin & Hu & Hs).
  exists s. unfold FocusTimer.start_focus_session. rewrite F. auto.
Qed.

Lemma restarted_has_running_session :
  FocusSpec.has_running_session (FocusTimer.db FocusSpec.restarted) 7.
Proof.
  exists (FocusSpec.running_row ACTIVE None).
  split; [left; reflexivity|]. split; [reflexivity|]. left. reflexivity.
Defined.

Lemma start_returns_running_session_witness :
  FocusSpec.has_running_session (FocusTimer.db FocusSpec.restarted) 7
  /\ exists s,
       FocusTimer.start_focus_session 600 FocusSpec.restarted 7 25 true
       = (Some s, FocusSpec.restarted)
       /\ In s (FocusTimer.db FocusSpec.restarted)
       /\ user_id s = 7
       /\ (status s = ACTIVE \/ status s = PAUSED).
Proof.
  split; [exact restarted_has_running_session|].
  apply (start_returns_running_session 600 FocusSpec.restarted 7 25 true).
  exact restarted_has_running_session.
Defined.

(** C4, counterexample.  User 7 has an ACTIVE session; a second start
    does not fail: it hands back the running session. *)
Lemma start_with_running_session_succeeds :
  FocusSpec.has_running_session (FocusTimer.db FocusSpec.restarted) 7
  /\ FocusTimer.start_focus_session 600 FocusSpec.restarted 7 25 true
     = (Some (FocusSpec.running_row ACTIVE None), FocusSpec.restarted)
  /\ ~ FocusSpec.start_conflict_fails.
Proof.
  split; [exact restarted_has_running_session|].
  split; [reflexivity|].
  intros H.
  destruct (H 600 FocusSpec.restarted 7 25 true restarted_has_running_session)
    as [H1 _].
  discriminate H1.
Qed.

(** ** The job store *)

Lemma job_id_eqb_eq a b : FocusTimer.job_id_eqb a b = true <-> a = b.
Proof.
  destruct a, b; cbn; split; intros H; try discriminate;
    try (inversion H; subst; rewrite !Z.eqb_refl; reflexivity);
    repeat (apply andb_prop in H as [H ?]);
    repeat match goal with E : (_ =? _) = true |- _ => apply Z.eqb_eq in E end;
    congruence.
Qed.

Lemma job_id_eqb_neq a b : FocusTimer.job_id_eqb a b = false <-> a <> b.
Proof.
  split.
  - intros H E. apply job_id_eqb_eq in E. congruence.
  - intros N. destruct (FocusTimer.job_id_eqb a b) eqn:E; [|reflexivity].
    apply job_id_eqb_eq in E. contradiction.
Qed.

(** [replace_existing=True]: after [add_job j] the id of [j] names [j],
    every other id names what it named before. *)
Lemma find_job_add_job i j jobs :
  FocusTimer.find_job i (FocusTimer.add_job j jobs)
  = if FocusTimer.job_id_eqb (FocusTimer.job_id j) i
    then Some j
    else FocusTimer.find_job i jobs.
Proof.
  unfold FocusTimer.find_job, FocusTimer.add_job.
  induction jobs as [|k jobs IH]; cbn [List.filter List.find app].
  - destruct (FocusTimer.job_id_eqb (FocusTimer.job_id j) i); reflexivity.
  - destruct (FocusTimer.job_id_eqb (FocusTimer.job_id k) (FocusTimer.job_id j)) eqn:Ekj;
      cbn [negb List.find app].
    + rewrite IH. apply job_id_eqb_eq in Ekj.
      destruct (FocusTimer.job_id_eqb (FocusTimer.job_id j) i) eqn:Eji; [reflexivity|].
      rewrite Ekj, Eji. reflexivity.
    + destruct (FocusTimer.job_id_eqb (FocusTimer.job_id k) i) eqn:Eki.
      * apply job_id_eqb_eq in Eki. subst i. apply job_id_eqb_neq in Ekj.
        destruct (FocusTimer.job_id_eqb (FocusTimer.job_id j) (FocusTimer.job_id k)) eqn:E;
          [|reflexivity].
        apply job_id_eqb_eq in E. congruence.
      * exact IH.
Qed.

(** The progress pings use ids of their own: they displace no
    completion job. *)
Lemma find_job_progress now jobs uid d sid u s :
  FocusTimer.find_job (FocusTimer.focus_complete u s)
    (FocusTimer._schedule_progress_notifications now jobs uid d sid)
  = FocusTimer.find_job (FocusTimer.focus_complete u s) jobs.
Proof.
  unfold FocusTimer._schedule_progress_notifications.
  generalize (FocusTimer.progress_marks d) as marks.
  intros marks. revert jobs.
  induction marks as [|m marks IH]; intros jobs; cbn [List.fold_left];
    [reflexivity|].
  rewrite IH, find_job_add_job. reflexivity.
Qed.

(** ** Resume *)

(** What [resume_session] does on a PAUSED session that is in the
    cache: the row becomes ACTIVE, and the completion job is set
    [duration - (minutes since start_time)] minutes ahead, the minutes
    counted on the wall clock.  Nothing is scheduled when that
    difference is not positive. *)
Lemma resume_reschedules now (t : FocusTimer.Timer) uid info s :
  FocusTimer.active_sessions t !! uid = Some info ->
  CRUDFocusSession.get (FocusTimer.db t) (FocusTimer.session_id info) = Some s ->
  status s = PAUSED ->
  let remaining :=
    FocusTimer.duration_minutes info
    - whole_minutes now (FocusTimer.start_time info) in
  exists t' s',
    FocusTimer.resume_session now t uid = (true, t')
    /\ CRUDFocusSession.get (FocusTimer.db t') (FocusTimer.session_id info) = Some s'
    /\ status s' = ACTIVE
    /\ last_pause_start s' = None
    /\ (0 < remaining ->
        FocusTimer.find_job
          (FocusTimer.focus_complete uid (FocusTimer.session_id info))
          (FocusTimer.scheduler t')
        = Some {| FocusTimer.job_id :=
                    FocusTimer.focus_complete uid (FocusTimer.session_id info);
                  FocusTimer.run_date := now + minutes remaining;
                  FocusTimer.func := FocusTimer.complete_focus_job uid |})
    /\ (remaining <= 0 -> FocusTimer.scheduler t' = FocusTimer.scheduler t).
Proof.
  intros C G P remaining.
  unfold FocusTimer.resume_session. rewrite C.
  unfold CRUDFocusSession.resume_session. rewrite G, P. cbn [negb status_eqb].
  pose proof (get_id _ _ _ G) as I.
  destruct (last_pause_start s) as [paused_at|];
    (eexists; eexists; split; [reflexivity|]);
    cbn [FocusTimer.db FocusTimer.set_db FocusTimer.set_scheduler
           FocusTimer.scheduler];
    (split; [eapply (get_commit _ _ s); [exact G|exact I]|]);
    (split; [reflexivity|]); (split; [reflexivity|]);
    fold remaining; (split; intros R).
  all: try (assert (Z.max 0 remaining = 0) as -> by lia; reflexivity).
  all: assert (Z.max 0 remaining = remaining) as -> by lia;
    assert ((0 <? remaining) = true) as -> by lia;
    rewrite find_job_progress, find_job_add_job;
    cbn; now rewrite !Z.eqb_refl.
Qed.

(** C1, at the failing input.  A 25-minute session starts at [T0], is
    paused at [T0 + 10 min] and resumed at [T0 + 15 min].  The row is
    ACTIVE again with 5 minutes of pause recorded, but the completion
    job is set for [T0 + 25 min]: the pause is counted as elapsed time,
    and the job does not fire at [T0 + 30 min]. *)
Theorem resume_counts_pause_as_elapsed :
  (exists s,
     CRUDFocusSession.get (FocusTimer.db FocusSpec.pomodoro_paused) 1 = Some s
     /\ status s = PAUSED
     /\ last_pause_start s = Some (FocusSpec.T0 + minutes 10))
  /\ FocusTimer.find_job (FocusTimer.focus_complete 7 1)
       (FocusTimer.scheduler FocusSpec.pomodoro_paused) = None
  /\ (exists s,
        CRUDFocusSession.get (FocusTimer.db FocusSpec.pomodoro_resumed) 1 = Some s
        /\ status s = ACTIVE
        /\ actual_start s = Some FocusSpec.T0
        /\ paused_duration s = 5)
  /\ FocusTimer.find_job (FocusTimer.focus_complete 7 1)
       (FocusTimer.scheduler FocusSpec.pomodoro_resumed)
     = Some {| FocusTimer.job_id := FocusTimer.focus_complete 7 1;
               FocusTimer.run_date := FocusSpec.T0 + minutes 25;
               FocusTimer.func := FocusTimer.complete_focus_job 7 |}
  /\ FocusSpec.T0 + minutes 25 <> FocusSpec.T0 + minutes 30.
Proof.
  split; [eexists; split; [vm_compute; reflexivity|split; reflexivity]|].
  split; [vm_compute; reflexivity|].
  split; [eexists; split; [vm_compute; reflexivity|repeat split]|].
  split; [vm_compute; reflexivity|].
  vm_compute. discriminate.
Qed.

(** ** The break after a focus session *)

Lemma start_short_break_db now (t : FocusTimer.Timer) uid :
  FocusTimer.db (FocusTimer._start_short_break now t uid)
  = FocusTimer.db t
    ++ [FocusSpec.started_break now (FocusTimer.db t) uid SHORT_BREAK
          (FocusTimer.short_break_duration t)].
Proof.
  unfold FocusTimer._start_short_break.
  pose proof (start_created now (FocusTimer.db t) uid SHORT_BREAK
                (FocusTimer.short_break_duration t) true) as H.
  cbn in H. cbn. rewrite H. reflexivity.
Qed.

Lemma start_long_break_db now (t : FocusTimer.Timer) uid :
  FocusTimer.db (FocusTimer._start_long_break now t uid)
  = FocusTimer.db t
    ++ [FocusSpec.started_break now (FocusTimer.db t) uid LONG_BREAK
          (FocusTimer.long_break_duration t)].
Proof.
  unfold FocusTimer._start_long_break.
  pose proof (start_created now (FocusTimer.db t) uid LONG_BREAK
                (FocusTimer.long_break_duration t) true) as H.
  cbn in H. cbn. rewrite H. reflexivity.
Qed.

(** Which break follows a completed focus session, by the counter in
    the cache entry: a long one exactly when the incremented counter is
    a multiple of [sessions_before_long_break]. *)
Lemma complete_focus_break now (t : FocusTimer.Timer) uid info s db' :
  FocusTimer.active_sessions t !! uid = Some info ->
  CRUDFocusSession.complete_session now (FocusTimer.db t) (FocusTimer.session_id info)
  = (Some s, db') ->
  FocusTimer.sessions_before_long_break t <> 0 ->
  FocusTimer.db (FocusTimer._complete_focus_session now t uid)
  = db' ++
    [if (FocusTimer.sessions_completed info + 1)
          mod FocusTimer.sessions_before_long_break t =? 0
     then FocusSpec.started_break now db' uid LONG_BREAK (FocusTimer.long_break_duration t)
     else FocusSpec.started_break now db' uid SHORT_BREAK (FocusTimer.short_break_duration t)].
Proof.
  intros C D N.
  unfold FocusTimer._complete_focus_session. rewrite C, D.
  cbn [FocusTimer.sessions_before_long_break FocusTimer.notify
         FocusTimer.set_active_sessions FocusTimer.set_db
         FocusTimer.sessions_completed].
  apply Z.eqb_neq in N. rewrite N.
  destruct ((FocusTimer.sessions_completed info + 1)
              mod FocusTimer.sessions_before_long_break t =? 0).
  - cbn [FocusTimer.db FocusTimer.set_active_sessions].
    now rewrite start_long_break_db.
  - cbn [FocusTimer.db FocusTimer.set_active_sessions].
    now rewrite start_short_break_db.
Qed.

(** With the counter at zero and the default cycle length 4, the break
    is a short one. *)
Lemma fresh_counter_gives_short_break now (t : FocusTimer.Timer) uid info s db' :
  FocusTimer.active_sessions t !! uid = Some info ->
  FocusTimer.sessions_completed info = 0 ->
  FocusTimer.sessions_before_long_break t = 4 ->
  CRUDFocusSession.complete_session now (FocusTimer.db t) (FocusTimer.session_id info)
  = (Some s, db') ->
  FocusTimer.db (FocusTimer._complete_focus_session now t uid)
  = db' ++ [FocusSpec.started_break now db' uid SHORT_BREAK
              (FocusTimer.short_break_duration t)].
Proof.
  intros C Z0 N D.
  rewrite (complete_focus_break now t uid info s db' C D) by lia.
  rewrite Z0, N. reflexivity.
Qed.

(** *** The counter never leaves zero *)

Lemma start_short_break_cache now (t : FocusTimer.Timer) uid u info :
  FocusTimer.active_sessions (FocusTimer._start_short_break now t uid) !! u
  = Some info ->
  FocusTimer.active_sessions t !! u = Some info
  \/ FocusTimer.sessions_completed info = 0.
Proof.
  unfold FocusTimer._start_short_break.
  pose proof (start_created now (FocusTimer.db t) uid SHORT_BREAK
                (FocusTimer.short_break_duration t) true) as H.
  cbn in H. cbn. rewrite H. cbn.
  destruct (decide (uid = u)) as [->|N].
  - rewrite lookup_insert_eq. intros [= <-]. now right.
  - rewrite lookup_insert_ne by exact N. now left.
Qed.

Lemma start_long_break_cache now (t : FocusTimer.Timer) uid u info :
  FocusTimer.active_sessions (FocusTimer._start_long_break now t uid) !! u
  = Some info ->
  FocusTimer.active_sessions t !! u = Some info
  \/ FocusTimer.sessions_completed info = 0.
Proof.
  unfold FocusTimer._start_long_break.
  pose proof (start_created now (FocusTimer.db t) uid LONG_BREAK
                (FocusTimer.long_break_duration t) true) as H.
  cbn in H. cbn. rewrite H. cbn.
  destruct (decide (uid = u)) as [->|N].
  - rewrite lookup_insert_eq. intros [= <-]. now right.
  - rewrite lookup_insert_ne by exact N. now left.
Qed.

Lemma start_short_break_config now (t : FocusTimer.Timer) uid :
  FocusTimer.sessions_before_long_break (FocusTimer._start_short_break now t uid)
  = FocusTimer.sessions_before_long_break t.
Proof.
  unfold FocusTimer._start_short_break. cbn.
  destruct (CRUDFocusSession.start_session _ _ _) as [[?|] ?]; reflexivity.
Qed.

Lemma start_long_break_config now (t : FocusTimer.Timer) uid :
  FocusTimer.sessions_before_long_break (FocusTimer._start_long_break now t uid)
  = FocusTimer.sessions_before_long_break t.
Proof.
  unfold FocusTimer._start_long_break. cbn.
  destruct (CRUDFocusSession.start_session _ _ _) as [[?|] ?]; reflexivity.
Qed.

Lemma restore_fold_config sessions : forall t,
  FocusTimer.sessions_before_long_break
    (List.fold_left FocusTimer.restore_session sessions t)
  = FocusTimer.sessions_before_long_break t.
Proof.
  induction sessions as [|x sessions IH]; intros t; cbn [List.fold_left];
    [reflexivity|].
  rewrite IH. unfold FocusTimer.restore_session.
  destruct (_ || _); reflexivity.
Qed.

Lemma restore_fold_fresh sessions : forall t,
  FocusSpec.fresh_counters t ->
  FocusSpec.fresh_counters (List.fold_left FocusTimer.restore_session sessions t).
Proof.
  induction sessions as [|x sessions IH]; intros t F; cbn [List.fold_left];
    [exact F|].
  apply IH. unfold FocusTimer.restore_session.
  destruct (_ || _); [|exact F].
  intros u info. cbn.
  destruct (decide (user_id x = u)) as [->|Hne].
  - rewrite lookup_insert_eq. now intros [= <-].
  - rewrite lookup_insert_ne by exact Hne. apply F.
Qed.

(** No call changes the cycle length, and a restart sets it to 4 again. *)
Lemma handle_config t e :
  FocusTimer.sessions_before_long_break t = 4 ->
  FocusTimer.sessions_before_long_break (FocusSpec.handle t e) = 4.
Proof.
  intros H.
  destruct e as [now [uid d a|uid|uid|uid|uid|uid|]];
    unfold FocusSpec.handle; cbn [fst snd].
  - rewrite <- H. unfold FocusTimer.start_focus_session.
    destruct (CRUDFocusSession.get_active_session _ _); [reflexivity|].
    cbn. destruct (CRUDFocusSession.start_session _ _ _) as [[?|] ?]; reflexivity.
  - rewrite <- H. unfold FocusTimer.pause_session.
    destruct (_ !! _); [|reflexivity].
    destruct (CRUDFocusSession.pause_session _ _ _) as [[?|] ?]; reflexivity.
  - rewrite <- H. unfold FocusTimer.resume_session.
    destruct (_ !! _); [|reflexivity].
    destruct (CRUDFocusSession.resume_session _ _ _) as [[?|] ?]; reflexivity.
  - rewrite <- H. unfold FocusTimer.cancel_session.
    destruct (_ !! _); [|reflexivity].
    destruct (CRUDFocusSession.cancel_session _ _ _) as [[?|] ?]; reflexivity.
  - rewrite <- H. unfold FocusTimer._complete_focus_session.
    destruct (_ !! _); [|reflexivity].
    destruct (CRUDFocusSession.complete_session _ _ _) as [[?|] ?]; [|reflexivity].
    cbn [FocusTimer.sessions_before_long_break FocusTimer.notify
           FocusTimer.set_active_sessions FocusTimer.set_db].
    destruct (FocusTimer.sessions_before_long_break t =? 0); [reflexivity|].
    destruct (_ mod _ =? 0); cbn [FocusTimer.sessions_before_long_break
                                    FocusTimer.set_active_sessions].
    + now rewrite start_long_break_config.
    + now rewrite start_short_break_config.
  - rewrite <- H. unfold FocusTimer._complete_break_session.
    destruct (_ !! _); [|reflexivity].
    destruct (CRUDFocusSession.complete_session _ _ _) as [[?|] ?]; reflexivity.
  - unfold FocusTimer.start, FocusTimer._restore_active_sessions.
    now rewrite restore_fold_config.
Qed.

(** Every call keeps the counters at zero: an entry is written with
    counter [0], and the one entry whose counter is incremented is
    deleted before [_complete_focus_session] returns. *)
Lemma handle_fresh t e :
  FocusTimer.sessions_before_long_break t <> 0 ->
  FocusSpec.fresh_counters t ->
  FocusSpec.fresh_counters (FocusSpec.handle t e).
Proof.
  intros N F u info.
  destruct e as [now [uid d a|uid|uid|uid|uid|uid|]];
    unfold FocusSpec.handle; cbn [fst snd].
  - unfold FocusTimer.start_focus_session.
    destruct (CRUDFocusSession.get_active_session _ _); [apply F|].
    cbn. destruct (CRUDFocusSession.start_session _ _ _) as [[?|] ?]; cbn; [|apply F].
    destruct (decide (uid = u)) as [->|Hne].
    + rewrite lookup_insert_eq. now intros [= <-].
    + rewrite lookup_insert_ne by exact Hne. apply F.
  - unfold FocusTimer.pause_session.
    destruct (_ !! uid); [|apply F].
    destruct (CRUDFocusSession.pause_session _ _ _) as [[?|] ?]; apply F.
  - unfold FocusTimer.resume_session.
    destruct (_ !! uid); [|apply F].
    destruct (CRUDFocusSession.resume_session _ _ _) as [[?|] ?]; apply F.
  - unfold FocusTimer.cancel_session.
    destruct (_ !! uid); [|apply F].
    destruct (CRUDFocusSession.cancel_session _ _ _) as [[?|] ?]; cbn; [|apply F].
    intros H. apply lookup_delete_Some in H as [_ H]. revert H. apply F.
  - unfold FocusTimer._complete_focus_session.
    destruct (_ !! uid) as [i0|] eqn:C; [|apply F].
    destruct (CRUDFocusSession.complete_session _ _ _) as [[?|] ?]; [|apply F].
    cbn [FocusTimer.sessions_before_long_break FocusTimer.notify
           FocusTimer.set_active_sessions FocusTimer.set_db].
    apply Z.eqb_neq in N. rewrite N.
    cbn [FocusTimer.active_sessions FocusTimer.set_active_sessions].
    intros H. apply lookup_delete_Some in H as [Hne H].
    destruct (_ mod _ =? 0).
    + apply start_long_break_cache in H as [H|H]; [|exact H].
      cbn in H. rewrite lookup_insert_ne in H by exact Hne. revert H. apply F.
    + apply start_short_break_cache in H as [H|H]; [|exact H].
      cbn in H. rewrite lookup_insert_ne in H by exact Hne. revert H. apply F.
  - unfold FocusTimer._complete_break_session.
    destruct (_ !! uid); [|apply F].
    destruct (CRUDFocusSession.complete_session _ _ _) as [[?|] ?]; cbn; [|apply F].
    intros H. apply lookup_delete_Some in H as [_ H]. revert H. apply F.
  - unfold FocusTimer.start, FocusTimer._restore_active_sessions.
    apply restore_fold_fresh.
    intros u' i H. cbn in H. rewrite lookup_empty in H. discriminate.
Qed.

Lemma run_fresh trace : forall t,
  FocusTimer.sessions_before_long_break t = 4 ->
  FocusSpec.fresh_counters t ->
  FocusTimer.sessions_before_long_break (FocusSpec.run t trace) = 4
  /\ FocusSpec.fresh_counters (FocusSpec.run t trace).
Proof.
  unfold FocusSpec.run.
  induction trace as [|e trace IH]; intros t N F; cbn [List.fold_left];
    [now split|].
  apply IH.
  - now apply handle_config.
  - apply handle_fresh; [lia|exact F].
Qed.

(** Whatever the calls a timer has served since it was constructed,
    restarts of the process included, a focus session that its completion
    job completes is followed by a SHORT_BREAK: the long break is never
    started. *)
Lemma long_break_is_never_started db0 trace now uid info s db' :
  let t := FocusSpec.run (FocusTimer.__init__ db0) trace in
  FocusTimer.active_sessions t !! uid = Some info ->
  CRUDFocusSession.complete_session now (FocusTimer.db t) (FocusTimer.session_id info)
  = (Some s, db') ->
  FocusTimer.db (FocusTimer._complete_focus_session now t uid)
  = db' ++ [FocusSpec.started_break now db' uid SHORT_BREAK
              (FocusTimer.short_break_duration t)].
Proof.
  intros t C D.
  destruct (run_fresh trace (FocusTimer.__init__ db0) eq_refl) as [N F].
  { intros u i H. cbn in H. rewrite lookup_empty in H. discriminate. }
  eapply fresh_counter_gives_short_break; eauto.
Qed.

(** The whole cycle from an empty table: four focus sessions of user 7
    are completed, each followed by a SHORT_BREAK. *)
Lemma four_sessions_four_short_breaks :
  List.map (fun s => (id s, session_type s, status s))
    (FocusTimer.db (FocusSpec.run (FocusTimer.__init__ []) FocusSpec.four_sessions))
  = [ (1, FOCUS, COMPLETED); (2, SHORT_BREAK, CANCELLED);
      (3, FOCUS, COMPLETED); (4, SHORT_BREAK, CANCELLED);
      (5, FOCUS, COMPLETED); (6, SHORT_BREAK, CANCELLED);
      (7, FOCUS, COMPLETED); (8, SHORT_BREAK, ACTIVE) ].
Proof. vm_compute. reflexivity. Qed.

(** Why the cycle needs the restarts: when the job has completed the
    first session, the break is ACTIVE in the table but has no cache
    entry, and a new start hands that break back. *)
Lemma break_is_left_without_cache_entry :
  let t := FocusSpec.run (FocusTimer.__init__ [])
             (List.firstn 2 FocusSpec.four_sessions) in
  FocusTimer.active_sessions t !! 7 = None
  /\ exists b,
       FocusTimer.start_focus_session 1800 t 7 25 true = (Some b, t)
       /\ id b = 2 /\ session_type b = SHORT_BREAK /\ status b = ACTIVE.
Proof.
  cbn zeta. split; [vm_compute; reflexivity|].
  eexists. split; [vm_compute; reflexivity|]. repeat split.
Qed.

(** C2, at the failing input.  User 7 has three COMPLETED focus
    sessions; the fourth is started by the timer and completed by its
    completion job.  The table then holds four COMPLETED focus sessions
    of user 7, and the break that was created and started is a
    SHORT_BREAK; no LONG_BREAK exists. *)
Theorem fourth_focus_session_gets_short_break :
  length (List.filter
            (fun s => (user_id s =? 7) && is_completed s
                      && match session_type s with FOCUS => true | _ => false end)
            (FocusTimer.db FocusSpec.fourth_completed)) = 4%nat
  /\ FocusTimer.sessions_before_long_break FocusSpec.fourth_started = 4
  /\ FocusTimer.db FocusSpec.fourth_completed
     = FocusSpec.three_pomodoros
       ++ [FocusSpec.finished 7 FOCUS 25 5400;
           FocusSpec.started_break 6900
             (FocusSpec.three_pomodoros ++ [FocusSpec.finished 7 FOCUS 25 5400])
             7 SHORT_BREAK 5]
  /\ List.Forall (fun s => session_type s <> LONG_BREAK)
       (FocusTimer.db FocusSpec.fourth_completed).
Proof.
  split; [vm_compute; reflexivity|].
  split; [reflexivity|].
  split; [vm_compute; reflexivity|].
  vm_compute. repeat constructor; discriminate.
Qed.

End FocusProps.

(* ================================================================== *)
(** * Properties of the reminders *)

Module ReminderProps.
Import ReminderModel.

Lemma reminder_status_eqb_eq a b : status_eqb a b = true <-> a = b.
Proof. destruct a, b; simpl; split; congruence. Qed.

(** ** The table *)

Lemma reminder_get_id db i r : CRUDReminder.get db i = Some r -> id r = i.
Proof.
  unfold CRUDReminder.get. intros H.
  apply List.find_some in H as [_ H]. lia.
Qed.

Lemma reminder_get_In db i r : CRUDReminder.get db i = Some r -> In r db.
Proof.
  unfold CRUDReminder.get. intros H. now apply List.find_some in H.
Qed.

(** Reading a key after a row was written back. *)
Lemma get_after_commit db x i :
  CRUDReminder.get (CRUDReminder.commit x db) i
  = if id x =? i then (fun _ => x) <$> CRUDReminder.get db i
    else CRUDReminder.get db i.
Proof.
  unfold CRUDReminder.get, CRUDReminder.commit.
  induction db as [|r db IH]; cbn [List.find List.map].
  - destruct (id x =? i); reflexivity.
  - destruct (id r =? id x) eqn:Erx.
    + apply Z.eqb_eq in Erx. rewrite Erx.
      destruct (id x =? i) eqn:Exi; [reflexivity|exact IH].
    + destruct (id r =? i) eqn:Eri.
      * destruct (id x =? i) eqn:Exi; [lia|reflexivity].
      * exact IH.
Qed.

Lemma written_row_is_read db i r r' :
  CRUDReminder.get db i = Some r -> id r' = i ->
  CRUDReminder.get (CRUDReminder.commit r' db) i = Some r'.
Proof.
  intros G E. rewrite get_after_commit, G.
  apply Z.eqb_eq in E. now rewrite E.
Qed.

Lemma commit_length x db : length (CRUDReminder.commit x db) = length db.
Proof. unfold CRUDReminder.commit. apply List.length_map. Qed.

Lemma reminder_get_app db l i r :
  CRUDReminder.get db i = Some r -> CRUDReminder.get (db ++ l) i = Some r.
Proof.
  unfold CRUDReminder.get.
  induction db as [|x db IH]; cbn [List.find app]; [discriminate|].
  destruct (id x =? i); auto.
Qed.

(** In a well-keyed table a row is found under its own key. *)
Lemma get_own_key db r :
  ReminderSpec.well_keyed db -> In r db -> CRUDReminder.get db (id r) = Some r.
Proof.
  unfold ReminderSpec.well_keyed, CRUDReminder.get.
  induction db as [|x db IH]; cbn [List.map List.find]; [intros _ []|].
  intros ND [->|Hin].
  - now rewrite Z.eqb_refl.
  - apply List.NoDup_cons_iff in ND as [Hx ND].
    destruct (id x =? id r) eqn:E; [|auto].
    apply Z.eqb_eq in E. exfalso. apply Hx. rewrite E.
    now apply List.in_map.
Qed.

Lemma well_keyed_filter f db :
  ReminderSpec.well_keyed db -> ReminderSpec.well_keyed (List.filter f db).
Proof.
  unfold ReminderSpec.well_keyed.
  induction db as [|x db IH]; cbn [List.filter List.map]; [auto|].
  intros ND. apply List.NoDup_cons_iff in ND as [Hx ND].
  destruct (f x); [|auto].
  cbn [List.map]. constructor; [|auto].
  intros Hin. apply Hx.
  apply List.in_map_iff in Hin as (y & Ey & Hy).
  apply List.filter_In in Hy as [Hy _].
  rewrite <- Ey. now apply List.in_map.
Qed.

(** ** The scheduler job *)

(** A reminder that is not ACTIVE and enabled is skipped: the job
    returns before anything is sent or written. *)
Lemma inactive_reminder_is_skipped now bot s rid r :
  CRUDReminder.get (ReminderScheduler.reminders s) rid = Some r ->
  is_active r = false ->
  ReminderScheduler._send_reminder_job now bot s rid = s.
Proof.
  intros G A. unfold ReminderScheduler._send_reminder_job.
  rewrite G, A. reflexivity.
Qed.

(** C7.  A second fire of a non-recurring reminder that is already SENT
    has no effect at all: the scheduler state comes back unchanged, so
    [send_message] is not called and the record keeps its status,
    [sent_count] and [sent_at]. *)
Theorem second_fire_of_sent_reminder now bot s rid r :
  CRUDReminder.get (ReminderScheduler.reminders s) rid = Some r ->
  status r = SENT ->
  is_recurring r = false ->
  let s' := ReminderScheduler._send_reminder_job now bot s rid in
  s' = s
  /\ ReminderScheduler.dispatched s' = ReminderScheduler.dispatched s
  /\ CRUDReminder.get (ReminderScheduler.reminders s') rid = Some r.
Proof.
  intros G S _ s'.
  assert (s' = s) as E.
  { apply (inactive_reminder_is_skipped now bot s rid r G).
    unfold is_active. now rewrite S. }
  rewrite E. auto.
Qed.

Lemma second_fire_of_sent_reminder_witness :
  status ReminderSpec.one_shot_sent = SENT
  /\ is_recurring ReminderSpec.one_shot_sent = false
  /\ ReminderScheduler._send_reminder_job 90 (fun _ => message_sent)
       (ReminderSpec.scheduler_with ReminderSpec.one_shot_sent) 1
     = ReminderSpec.scheduler_with ReminderSpec.one_shot_sent.
Proof.
  split; [reflexivity|]. split; [reflexivity|].
  apply (second_fire_of_sent_reminder 90 (fun _ => message_sent)
           (ReminderSpec.scheduler_with ReminderSpec.one_shot_sent) 1
           ReminderSpec.one_shot_sent); reflexivity.
Defined.




(** ** The periodic sweep *)

Lemma sweep_users now l : forall w,
  ReminderTasks.users (List.fold_left (ReminderTasks.process_reminder now) l w)
  = ReminderTasks.users w.
Proof.
  induction l as [|r l IH]; intros w; cbn [List.fold_left]; [reflexivity|].
  now rewrite IH.
Qed.

(** One delivery task is enqueued per due reminder, in table order. *)
Lemma sweep_queue now l : forall w,
  ReminderTasks.queue (List.fold_left (ReminderTasks.process_reminder now) l w)
  = ReminderTasks.queue w ++ List.map id l.
Proof.
  induction l as [|r l IH]; intros w; cbn [List.fold_left List.map].
  - now rewrite List.app_nil_r.
  - rewrite IH. cbn [ReminderTasks.queue ReminderTasks.process_reminder].
    now rewrite <- List.app_assoc.
Qed.

Lemma find_absent (l : list Reminder) i :
  ~ In i (List.map id l) -> List.find (fun r => id r =? i) l = None.
Proof.
  induction l as [|r l IH]; cbn [List.map List.find]; [reflexivity|].
  intros N. destruct (id r =? i) eqn:E.
  - apply Z.eqb_eq in E. exfalso. apply N. left. exact E.
  - apply IH. intros H. apply N. right. exact H.
Qed.

(** The two cases of the loop body. *)
Lemma mark_processed_repeating now r :
  repeats r = true ->
  ReminderTasks.mark_processed now r
  = set_updated_at now
      (set_status ACTIVE
         (set_scheduled_time (now + minutes (default 0 (repeat_interval r)))
            (set_sent_count (sent_count r + 1)
               (set_sent_at (Some now) (set_status SENT r))))).
Proof.
  intros R. unfold ReminderTasks.mark_processed, repeats in *. cbn.
  rewrite R. reflexivity.
Qed.

Lemma mark_processed_one_shot now r :
  repeats r = false ->
  ReminderTasks.mark_processed now r
  = set_updated_at now
      (set_sent_count (sent_count r + 1)
         (set_sent_at (Some now) (set_status SENT r))).
Proof.
  intros R. unfold ReminderTasks.mark_processed, repeats in *. cbn.
  rewrite R. reflexivity.
Qed.

Lemma mark_processed_id now r : id (ReminderTasks.mark_processed now r) = id r.
Proof.
  destruct (repeats r) eqn:R.
  - now rewrite mark_processed_repeating.
  - now rewrite mark_processed_one_shot.
Qed.

(** The row stored under a key after the loop went over the rows [l]:
    the processed version of the row of [l] with that key, if there is
    one. *)
Lemma sweep_get now l : forall w i,
  List.NoDup (List.map id l) ->
  CRUDReminder.get
    (ReminderTasks.reminders
       (List.fold_left (ReminderTasks.process_reminder now) l w)) i
  = match List.find (fun r => id r =? i) l with
    | Some r =>
      (fun _ => ReminderTasks.mark_processed now r)
        <$> CRUDReminder.get (ReminderTasks.reminders w) i
    | None => CRUDReminder.get (ReminderTasks.reminders w) i
    end.
Proof.
  induction l as [|r l IH]; intros w i ND;
    cbn [List.fold_left List.find List.map] in *; [reflexivity|].
  apply List.NoDup_cons_iff in ND as [Hr ND].
  rewrite IH by exact ND.
  cbn [ReminderTasks.reminders ReminderTasks.process_reminder].
  rewrite get_after_commit, mark_processed_id.
  destruct (id r =? i) eqn:E; [|reflexivity].
  apply Z.eqb_eq in E. subst i.
  rewrite (find_absent l (id r) Hr). reflexivity.
Qed.

(** What the sweep does to one row of a well-keyed table. *)
Lemma sweep_row now w r :
  ReminderSpec.well_keyed (ReminderTasks.reminders w) ->
  In r (ReminderTasks.reminders w) ->
  CRUDReminder.get
    (ReminderTasks.reminders (snd (ReminderTasks.check_due_reminders now w)))
    (id r)
  = Some (if ReminderTasks.is_due now r
          then ReminderTasks.mark_processed now r
          else r).
Proof.
  intros WK Hin. unfold ReminderTasks.check_due_reminders. cbn [snd].
  rewrite sweep_get by (apply well_keyed_filter; exact WK).
  rewrite (get_own_key _ _ WK Hin).
  destruct (ReminderTasks.is_due now r) eqn:D.
  - assert (In r (List.filter (ReminderTasks.is_due now) (ReminderTasks.reminders w)))
      as Hf by (apply List.filter_In; auto).
    pose proof (get_own_key _ _ (well_keyed_filter _ _ WK) Hf) as G.
    unfold CRUDReminder.get in G. rewrite G. reflexivity.
  - rewrite find_absent; [reflexivity|].
    intros H. apply List.in_map_iff in H as (x & Ex & Hx).
    apply List.filter_In in Hx as [Hx Dx].
    assert (x = r) as ->; [|congruence].
    pose proof (get_own_key _ _ WK Hx) as G. rewrite Ex in G.
    rewrite (get_own_key _ _ WK Hin) in G. congruence.
Qed.

(** A fire happens only while the reminder has not expired. *)
Lemma due_before_expiry now r e :
  ReminderTasks.is_due now r = true -> expires_at r = Some e -> now < e.
Proof.
  unfold ReminderTasks.is_due. intros D E. rewrite E in D.
  repeat (apply andb_prop in D as [D ?]). lia.
Qed.

(** C6 (as amended).  Each fire of an interval reminder by the sweep adds
    exactly one to [sent_count] and keeps the reminder ACTIVE; the next
    occurrence is set one interval after the fire, whatever [expires_at]
    is; what [expires_at] bounds is the fire itself, which only happens
    while [expires_at] is unset or still ahead. *)
Theorem interval_fire_counts_and_advances now w r n :
  ReminderSpec.well_keyed (ReminderTasks.reminders w) ->
  In r (ReminderTasks.reminders w) ->
  is_recurring r = true ->
  repeat_interval r = Some n ->
  n <> 0 ->
  ReminderTasks.is_due now r = true ->
  exists r',
    CRUDReminder.get
      (ReminderTasks.reminders (snd (ReminderTasks.check_due_reminders now w)))
      (id r) = Some r'
    /\ sent_count r' = sent_count r + 1
    /\ sent_at r' = Some now
    /\ status r' = ACTIVE
    /\ scheduled_time r' = now + minutes n
    /\ expires_at r' = expires_at r
    /\ (forall e, expires_at r = Some e -> now < e).
Proof.
  intros WK Hin Rec Int N D.
  assert (repeats r = true) as R.
  { unfold repeats. rewrite Rec, Int. cbn.
    apply Z.eqb_neq in N. now rewrite N. }
  exists (ReminderTasks.mark_processed now r).
  rewrite (sweep_row now w r WK Hin), D.
  split; [reflexivity|].
  rewrite (mark_processed_repeating now r R). cbn. rewrite Int. cbn.
  repeat split. intros e E. exact (due_before_expiry now r e D E).
Qed.

Lemma interval_fire_counts_and_advances_witness :
  ReminderTasks.is_due 90 ReminderSpec.hourly = true
  /\ exists r',
       CRUDReminder.get
         (ReminderTasks.reminders
            (snd (ReminderTasks.check_due_reminders 90
                    (ReminderSpec.worker_with ReminderSpec.hourly)))) 1
       = Some r'
       /\ sent_count r' = 1
       /\ sent_at r' = Some 90
       /\ status r' = ACTIVE
       /\ scheduled_time r' = 90 + minutes 60
       /\ expires_at r' = Some 100
       /\ (forall e, Some 100 = Some e -> 90 < e).
Proof.
  split; [reflexivity|].
  apply (interval_fire_counts_and_advances 90
           (ReminderSpec.worker_with ReminderSpec.hourly)
           ReminderSpec.hourly 60).
  - repeat constructor. intros [].
  - left. reflexivity.
  - reflexivity.
  - reflexivity.
  - discriminate.
  - reflexivity.
Defined.

(** C6, counterexample.  The hourly reminder that expires at second 100
    fires at second 90: its next occurrence is scheduled for second 3690,
    later than [expires_at]. *)
Lemma next_occurrence_after_expiry :
  let w := ReminderSpec.worker_with ReminderSpec.hourly in
  ReminderTasks.is_due 90 ReminderSpec.hourly = true
  /\ expires_at ReminderSpec.hourly = Some 100
  /\ (exists r',
        CRUDReminder.get
          (ReminderTasks.reminders (snd (ReminderTasks.check_due_reminders 90 w))) 1
        = Some r'
        /\ sent_count r' = 1
        /\ status r' = ACTIVE
        /\ scheduled_time r' = 3690)
  /\ ~ ReminderSpec.interval_fire_respects_expiry.
Proof.
  cbn zeta.
  split; [reflexivity|]. split; [reflexivity|].
  split; [eexists; split; [vm_compute; reflexivity|repeat split]|].
  intros H.
  destruct (H 90 (ReminderSpec.worker_with ReminderSpec.hourly) ReminderSpec.hourly)
    as (r' & G & _ & B).
  - repeat constructor. intros [].
  - left. reflexivity.
  - reflexivity.
  - reflexivity.
  - vm_compute in G. injection G as <-.
    specialize (B 100 eq_refl). vm_compute in B. apply B. reflexivity.
Qed.

(** The scheduler job advances in the same way: after a dispatch that
    did not raise, the fired record is SENT with [sent_count + 1], and the
    successor is due one interval later with [expires_at] copied and not
    compared. *)
Lemma scheduler_fire_counts_and_advances now bot s rid r u n :
  CRUDReminder.get (ReminderScheduler.reminders s) rid = Some r ->
  is_active r = true ->
  CRUDReminder.get_user (ReminderScheduler.users s) (user_id r) = Some u ->
  UserModel.telegram_id u <> 0 ->
  bot (UserModel.telegram_id u) <> raised ->
  is_recurring r = true ->
  repeat_interval r = Some n ->
  n <> 0 ->
  let s' := ReminderScheduler._send_reminder_job now bot s rid in
  exists r' db1 next,
    CRUDReminder.get (ReminderScheduler.reminders s') rid = Some r'
    /\ status r' = SENT
    /\ sent_count r' = sent_count r + 1
    /\ ReminderScheduler.reminders s' = db1 ++ [next]
    /\ status next = ACTIVE
    /\ sent_count next = 0
    /\ scheduled_time next = now + minutes n
    /\ expires_at next = expires_at r.
Proof.
  intros G A U T B Rec Int N s'. subst s'.
  pose proof (reminder_get_id _ _ _ G) as I. subst rid.
  apply Z.eqb_neq in T.
  assert (repeats r = true) as R.
  { unfold repeats. rewrite Rec, Int. cbn.
    apply Z.eqb_neq in N. now rewrite N. }
  unfold ReminderScheduler._send_reminder_job. rewrite G, A. cbn [negb].
  unfold ReminderScheduler._send_reminder. rewrite U, T.
  assert (forall X Y : ReminderScheduler.Scheduler,
            match bot (UserModel.telegram_id u) with
            | raised => X | _ => Y end = Y) as ->.
  { intros X Y. destruct (bot (UserModel.telegram_id u)); congruence. }
  unfold CRUDReminder.mark_as_sent. rewrite G.
  cbn [snd ReminderScheduler.reminders].
  erewrite written_row_is_read; [|exact G|reflexivity].
  cbn [default from_option].
  match goal with |- context [repeats ?x] =>
    change (repeats x) with (repeats r) end.
  rewrite R.
  unfold ReminderScheduler._schedule_next_recurring_reminder,
    ReminderScheduler._schedule_reminder.
  cbn [ReminderScheduler.reminders repeat_interval expires_at].
  eexists. eexists. eexists. split.
  { apply reminder_get_app. eapply written_row_is_read; [exact G|reflexivity]. }
  split; [reflexivity|]. split; [reflexivity|]. split; [reflexivity|].
  cbn. rewrite Int. cbn. auto.
Qed.

(** ** Marked SENT whatever the delivery does *)

(** The sweep marks a due one-shot reminder SENT as soon as the delivery
    task is enqueued; the outcome of the task is not awaited. *)
Lemma sweep_marks_sent now w r :
  ReminderSpec.well_keyed (ReminderTasks.reminders w) ->
  In r (ReminderTasks.reminders w) ->
  ReminderTasks.is_due now r = true ->
  repeats r = false ->
  let w' := snd (ReminderTasks.check_due_reminders now w) in
  In (id r) (ReminderTasks.queue w')
  /\ exists r',
       CRUDReminder.get (ReminderTasks.reminders w') (id r) = Some r'
       /\ status r' = SENT
       /\ sent_at r' = Some now
       /\ sent_count r' = sent_count r + 1
       /\ user_id r' = user_id r.
Proof.
  intros WK Hin D R w'. subst w'. split.
  - unfold ReminderTasks.check_due_reminders. cbn [snd].
    rewrite sweep_queue. apply List.in_or_app. right.
    apply List.in_map. apply List.filter_In. auto.
  - exists (ReminderTasks.mark_processed now r).
    rewrite (sweep_row now w r WK Hin), D.
    split; [reflexivity|].
    rewrite (mark_processed_one_shot now r R). cbn. auto.
Qed.

(** The delivery task that was enqueued then fails, and the reminder
    stays SENT: the task writes nothing. *)
Lemma delivery_failure_is_only_reported bot w rid r u :
  CRUDReminder.get (ReminderTasks.reminders w) rid = Some r ->
  CRUDReminder.get_user (ReminderTasks.users w) (user_id r) = Some u ->
  bot (UserModel.telegram_id u) <> message_sent ->
  ReminderTasks.send_telegram_reminder bot w rid
  = ReminderTasks.task_error "Failed to send message".
Proof.
  intros G U B. unfold ReminderTasks.send_telegram_reminder.
  rewrite G, U. destruct (bot (UserModel.telegram_id u)); congruence.
Qed.


(** The sweep leaves a reminder that is already SENT alone. *)
Lemma sweep_skips_sent now w r :
  ReminderSpec.well_keyed (ReminderTasks.reminders w) ->
  In r (ReminderTasks.reminders w) ->
  status r = SENT ->
  CRUDReminder.get
    (ReminderTasks.reminders (snd (ReminderTasks.check_due_reminders now w)))
    (id r) = Some r.
Proof.
  intros WK Hin S. rewrite (sweep_row now w r WK Hin).
  unfold ReminderTasks.is_due. rewrite S. reflexivity.
Qed.

End ReminderProps.

(* ================================================================== *)
(** * Further properties of the focus-session engine *)

Module FocusEngine.
Import FocusModel.

(** ** Progress pings *)

(** [range(5, d, 5)]: the multiples of 5 from 5 up to, and not
    including, [d]. *)
Lemma progress_marks_spec d i :
  In i (FocusTimer.progress_marks d) <-> 5 <= i < d /\ i mod 5 = 0.
Proof.
  unfold FocusTimer.progress_marks. rewrite List.in_map_iff. split.
  - intros (k & <- & Hk). apply List.in_seq in Hk.
    assert (Z.of_nat k <= (d - 1) / 5) as B by lia.
    pose proof (Z.mul_div_le (d - 1) 5 ltac:(lia)).
    split; [lia|].
    rewrite Z.mul_comm. apply Z.mod_mul. lia.
  - intros [B M]. exists (Z.to_nat (i / 5)).
    pose proof (Z.div_mod i 5 ltac:(lia)) as E. rewrite M in E.
    split; [lia|]. apply List.in_seq.
    assert (i / 5 <= (d - 1) / 5) by (apply Z.div_le_mono; lia).
    lia.
Qed.

Lemma pings_not_in_marks now uid d sid i marks : forall jobs,
  ~ In i marks ->
  FocusTimer.find_job (FocusTimer.progress uid sid i)
    (List.fold_left
       (fun js m => FocusTimer.add_job (FocusSpec.progress_ping now uid d sid m) js)
       marks jobs)
  = FocusTimer.find_job (FocusTimer.progress uid sid i) jobs.
Proof.
  induction marks as [|m marks IH]; intros jobs N; cbn [List.fold_left];
    [reflexivity|].
  rewrite IH by (intros H; apply N; now right).
  rewrite FocusProps.find_job_add_job. cbn.
  destruct (m =? i) eqn:E; [|now rewrite !Z.eqb_refl].
  apply Z.eqb_eq in E. exfalso. apply N. now left.
Qed.

Lemma pings_in_marks now uid d sid i marks : forall jobs,
  In i marks ->
  FocusTimer.find_job (FocusTimer.progress uid sid i)
    (List.fold_left
       (fun js m => FocusTimer.add_job (FocusSpec.progress_ping now uid d sid m) js)
       marks jobs)
  = Some (FocusSpec.progress_ping now uid d sid i).
Proof.
  induction marks as [|m marks IH]; intros jobs H; cbn [List.fold_left];
    [destruct H|].
  destruct (List.in_dec Z.eq_dec i marks) as [Hin|Hnot].
  - now apply IH.
  - destruct H as [->|H]; [|contradiction].
    rewrite pings_not_in_marks by exact Hnot.
    rewrite FocusProps.find_job_add_job. cbn. now rewrite !Z.eqb_refl.
Qed.

(** X1.  After [_schedule_progress_notifications] the store holds a ping
    for minute [i] of the session exactly when [i] is a multiple of 5 with
    [5 <= i < duration]; it runs [i] minutes from now.  Every other job
    id of the form [progress_{user}_{session}_{i}] names what it named
    before. *)
Theorem progress_pings_every_five_minutes now jobs uid d sid i :
  FocusTimer.find_job (FocusTimer.progress uid sid i)
    (FocusTimer._schedule_progress_notifications now jobs uid d sid)
  = if (5 <=? i) && (i <? d) && (i mod 5 =? 0)
    then Some {| FocusTimer.job_id := FocusTimer.progress uid sid i;
                 FocusTimer.run_date := now + minutes i;
                 FocusTimer.func := FocusTimer.progress_job uid i d |}
    else FocusTimer.find_job (FocusTimer.progress uid sid i) jobs.
Proof.
  unfold FocusTimer._schedule_progress_notifications.
  destruct ((5 <=? i) && (i <? d) && (i mod 5 =? 0)) eqn:C.
  - apply (pings_in_marks now uid d sid i). apply progress_marks_spec.
    repeat (apply andb_prop in C as [C ?]). lia.
  - apply (pings_not_in_marks now uid d sid i).
    rewrite progress_marks_spec. intros [B M].
    assert ((5 <=? i) && (i <? d) && (i mod 5 =? 0) = true); [|congruence].
    repeat (apply andb_true_intro; split); lia.
Qed.

(** ** Jobs removed by pause and cancel *)

(** Looking a job up in a store filtered by job id. *)
Lemma find_job_filter (keep : FocusTimer.JobId -> bool) i jobs :
  FocusTimer.find_job i
    (List.filter (fun k => keep (FocusTimer.job_id k)) jobs)
  = if keep i then FocusTimer.find_job i jobs else None.
Proof.
  unfold FocusTimer.find_job.
  induction jobs as [|k jobs IH]; cbn [List.filter List.find].
  - destruct (keep i); reflexivity.
  - destruct (keep (FocusTimer.job_id k)) eqn:K; cbn [List.find].
    + destruct (FocusTimer.job_id_eqb (FocusTimer.job_id k) i) eqn:E;
        [|exact IH].
      apply FocusProps.job_id_eqb_eq in E. rewrite E in K. now rewrite K.
    + rewrite IH.
      destruct (FocusTimer.job_id_eqb (FocusTimer.job_id k) i) eqn:E;
        [|reflexivity].
      apply FocusProps.job_id_eqb_eq in E. rewrite E in K. now rewrite K.
Qed.

(** The store after the two removals that pause and cancel perform. *)
Lemma find_job_after_removals jobs uid sid i :
  FocusTimer.find_job i
    (FocusTimer._remove_progress_notifications
       (FocusTimer.remove_job (FocusTimer.focus_complete uid sid) jobs) uid sid)
  = if FocusTimer.job_id_eqb i (FocusTimer.focus_complete uid sid) then None
    else match i with
         | FocusTimer.progress u s _ =>
           if (u =? uid) && (s =? sid) then None
           else FocusTimer.find_job i jobs
         | _ => FocusTimer.find_job i jobs
         end.
Proof.
  unfold FocusTimer._remove_progress_notifications, FocusTimer.remove_job.
  rewrite (find_job_filter
             (fun j => match j with
                       | FocusTimer.progress u s _ => negb ((u =? uid) && (s =? sid))
                       | _ => true
                       end)).
  rewrite (find_job_filter
             (fun j => negb (FocusTimer.job_id_eqb j (FocusTimer.focus_complete uid sid)))).
  destruct i as [u s|u s|u s k]; cbn.
  - destruct ((u =? uid) && (s =? sid)); reflexivity.
  - reflexivity.
  - destruct ((u =? uid) && (s =? sid)); reflexivity.
Qed.

(** X2.  A pause that goes through leaves the session PAUSED with
    [last_pause_start = now], and removes from the job store the
    completion job of that session and every progress ping of it; every
    other job stays, and so does the cache. *)
Theorem pause_removes_session_jobs now (t t' : FocusTimer.Timer) uid :
  FocusTimer.pause_session now t uid = (true, t') ->
  exists info s',
    FocusTimer.active_sessions t !! uid = Some info
    /\ FocusTimer.active_sessions t' = FocusTimer.active_sessions t
    /\ CRUDFocusSession.get (FocusTimer.db t') (FocusTimer.session_id info) = Some s'
    /\ status s' = PAUSED
    /\ last_pause_start s' = Some now
    /\ FocusTimer.find_job
         (FocusTimer.focus_complete uid (FocusTimer.session_id info))
         (FocusTimer.scheduler t') = None
    /\ (forall i,
          FocusTimer.find_job
            (FocusTimer.progress uid (FocusTimer.session_id info) i)
            (FocusTimer.scheduler t') = None)
    /\ (forall j,
          j <> FocusTimer.focus_complete uid (FocusTimer.session_id info) ->
          (forall i, j <> FocusTimer.progress uid (FocusTimer.session_id info) i) ->
          FocusTimer.find_job j (FocusTimer.scheduler t')
          = FocusTimer.find_job j (FocusTimer.scheduler t)).
Proof.
  unfold FocusTimer.pause_session.
  destruct (FocusTimer.active_sessions t !! uid) as [info|] eqn:C; [|discriminate].
  unfold CRUDFocusSession.pause_session.
  destruct (CRUDFocusSession.get (FocusTimer.db t) (FocusTimer.session_id info))
    as [s|] eqn:G; [|discriminate].
  destruct (negb (status_eqb (status s) ACTIVE)); [discriminate|].
  intros [= <-]. exists info. eexists.
  split; [reflexivity|]. split; [reflexivity|].
  cbn [FocusTimer.db FocusTimer.set_db FocusTimer.set_scheduler
         FocusTimer.scheduler].
  split; [eapply (FocusProps.get_commit _ _ s);
          [exact G|exact (FocusProps.get_id _ _ _ G)]|].
  split; [reflexivity|]. split; [reflexivity|].
  split; [|split].
  - rewrite find_job_after_removals. cbn. now rewrite !Z.eqb_refl.
  - intros i. rewrite find_job_after_removals. cbn. now rewrite !Z.eqb_refl.
  - intros j N1 N2. rewrite find_job_after_removals.
    apply FocusProps.job_id_eqb_neq in N1. rewrite N1.
    destruct j as [u s0|u s0|u s0 k]; try reflexivity.
    destruct ((u =? uid) && (s0 =? FocusTimer.session_id info)) eqn:E;
      [|reflexivity].
    apply andb_prop in E as [E1 E2]. apply Z.eqb_eq in E1, E2. subst.
    now destruct (N2 k).
Qed.

Lemma pause_removes_session_jobs_witness :
  FocusTimer.pause_session 600 FocusSpec.pomodoro_started 7
  = (true, FocusSpec.pomodoro_paused)
  /\ exists info s',
       FocusTimer.active_sessions FocusSpec.pomodoro_started !! 7 = Some info
       /\ FocusTimer.active_sessions FocusSpec.pomodoro_paused
          = FocusTimer.active_sessions FocusSpec.pomodoro_started
       /\ CRUDFocusSession.get (FocusTimer.db FocusSpec.pomodoro_paused)
            (FocusTimer.session_id info) = Some s'
       /\ status s' = PAUSED
       /\ last_pause_start s' = Some 600
       /\ FocusTimer.find_job
            (FocusTimer.focus_complete 7 (FocusTimer.session_id info))
            (FocusTimer.scheduler FocusSpec.pomodoro_paused) = None
       /\ (forall i,
             FocusTimer.find_job
               (FocusTimer.progress 7 (FocusTimer.session_id info) i)
               (FocusTimer.scheduler FocusSpec.pomodoro_paused) = None)
       /\ (forall j,
             j <> FocusTimer.focus_complete 7 (FocusTimer.session_id info) ->
             (forall i, j <> FocusTimer.progress 7 (FocusTimer.session_id info) i) ->
             FocusTimer.find_job j (FocusTimer.scheduler FocusSpec.pomodoro_paused)
             = FocusTimer.find_job j (FocusTimer.scheduler FocusSpec.pomodoro_started)).
Proof.
  split; [vm_compute; reflexivity|].
  apply (pause_removes_session_jobs 600 FocusSpec.pomodoro_started
           FocusSpec.pomodoro_paused 7).
  vm_compute. reflexivity.
Defined.

(** X3.  The guards of the timer's transitions.  With the cached session
    of the user in the table, [pause_session] returns [True] exactly when
    that session is ACTIVE, [resume_session] exactly when it is PAUSED,
    and [cancel_session] exactly when it is not COMPLETED; without a cache
    entry or without the row, all three return [False]. *)
Theorem timer_transition_guards now (t : FocusTimer.Timer) uid :
  (fst (FocusTimer.pause_session now t uid) = true <->
   exists info s,
     FocusTimer.active_sessions t !! uid = Some info
     /\ CRUDFocusSession.get (FocusTimer.db t) (FocusTimer.session_id info) = Some s
     /\ status s = ACTIVE)
  /\ (fst (FocusTimer.resume_session now t uid) = true <->
      exists info s,
        FocusTimer.active_sessions t !! uid = Some info
        /\ CRUDFocusSession.get (FocusTimer.db t) (FocusTimer.session_id info) = Some s
        /\ status s = PAUSED)
  /\ (fst (FocusTimer.cancel_session now t uid) = true <->
      exists info s,
        FocusTimer.active_sessions t !! uid = Some info
        /\ CRUDFocusSession.get (FocusTimer.db t) (FocusTimer.session_id info) = Some s
        /\ status s <> COMPLETED).
Proof.
  unfold FocusTimer.pause_session, FocusTimer.resume_session,
    FocusTimer.cancel_session, CRUDFocusSession.pause_session,
    CRUDFocusSession.resume_session, CRUDFocusSession.cancel_session.
  destruct (FocusTimer.active_sessions t !! uid) as [info|].
  - destruct (CRUDFocusSession.get (FocusTimer.db t) (FocusTimer.session_id info))
      as [s|] eqn:G.
    + repeat split.
      all: try (intros H; exists info, s; split; [reflexivity|];
                split; [exact G|]; destruct (status s);
                cbn in H; congruence).
      all: intros (i & s0 & Hi & Hg & H); injection Hi as <-;
        rewrite G in Hg; injection Hg as <-; destruct (status s);
        cbn; congruence.
    + repeat split; cbn; try discriminate;
        intros (i & s0 & Hi & Hg & _); injection Hi as <-;
        rewrite G in Hg; discriminate.
  - repeat split; cbn; try discriminate;
      intros (i & s0 & H & _); discriminate.
Qed.

(** ** Starting a session *)




(** ** The break after a focus session *)

Lemma complete_running now db sid s :
  CRUDFocusSession.get db sid = Some s ->
  status s = ACTIVE \/ status s = PAUSED ->
  exists c,
    CRUDFocusSession.complete_session now db sid
    = (Some c, CRUDFocusSession.commit c db)
    /\ id c = sid /\ user_id c = user_id s /\ status c = COMPLETED.
Proof.
  intros G S. unfold CRUDFocusSession.complete_session. rewrite G.
  pose proof (FocusProps.get_id _ _ _ G) as I.
  destruct S as [S|S]; rewrite S; cbn; destruct (actual_start s);
    (eexists; split; [reflexivity|]; cbn; auto).
Qed.

(** X5.  When the completion job completes the cached session of a user,
    the break it starts is ACTIVE in the table, but the user is left
    without a cache entry.  From then on the break's own completion job
    changes nothing, and the timer refuses to cancel it: the break stays
    ACTIVE. *)
Theorem break_is_dropped_from_cache now (t : FocusTimer.Timer) uid info s :
  FocusTimer.active_sessions t !! uid = Some info ->
  CRUDFocusSession.get (FocusTimer.db t) (FocusTimer.session_id info) = Some s ->
  status s = ACTIVE \/ status s = PAUSED ->
  FocusTimer.sessions_before_long_break t <> 0 ->
  let t' := FocusTimer._complete_focus_session now t uid in
  FocusTimer.active_sessions t' !! uid = None
  /\ (exists b,
        In b (FocusTimer.db t')
        /\ user_id b = uid
        /\ status b = ACTIVE
        /\ session_type b <> FOCUS)
  /\ (forall later, FocusTimer._complete_break_session later t' uid = t')
  /\ (forall later, FocusTimer.cancel_session later t' uid = (false, t')).
Proof.
  intros C G S N t'.
  destruct (complete_running now _ _ _ G S) as (c & D & _).
  assert (FocusTimer.active_sessions t' !! uid = None) as Hnone.
  { subst t'. unfold FocusTimer._complete_focus_session. rewrite C, D.
    cbn [FocusTimer.sessions_before_long_break FocusTimer.notify
           FocusTimer.set_active_sessions FocusTimer.set_db].
    apply Z.eqb_neq in N. rewrite N. cbn. apply lookup_delete_eq. }
  split; [exact Hnone|]. split.
  - subst t'. rewrite (FocusProps.complete_focus_break now t uid info c _ C D N).
    eexists. split; [apply List.in_or_app; right; left; reflexivity|].
    destruct (_ =? 0); cbn; repeat split; discriminate.
  - split; intros later.
    + unfold FocusTimer._complete_break_session. now rewrite Hnone.
    + unfold FocusTimer.cancel_session. now rewrite Hnone.
Qed.

Lemma break_is_dropped_from_cache_witness :
  FocusTimer.active_sessions FocusSpec.pomodoro_started !! 7 <> None
  /\ let t' := FocusTimer._complete_focus_session 1500 FocusSpec.pomodoro_started 7 in
     FocusTimer.active_sessions t' !! 7 = None
     /\ (exists b,
           In b (FocusTimer.db t')
           /\ user_id b = 7
           /\ status b = ACTIVE
           /\ session_type b <> FOCUS)
     /\ (forall later, FocusTimer._complete_break_session later t' 7 = t')
     /\ (forall later, FocusTimer.cancel_session later t' 7 = (false, t')).
Proof.
  split; [vm_compute; discriminate|].
  eapply (break_is_dropped_from_cache 1500 FocusSpec.pomodoro_started 7).
  - vm_compute. reflexivity.
  - vm_compute. reflexivity.
  - left. reflexivity.
  - vm_compute. discriminate.
Defined.

(** ** Pause and resume on the table *)

(** X6.  Pausing an ACTIVE session at [t1] and resuming it at [t2] gives
    the row back with [paused_duration] increased by the whole minutes
    between [t1] and [t2], with [last_pause_start] empty and [updated_at]
    refreshed, and nothing else changed.  A pause shorter than a minute
    adds nothing. *)
Theorem pause_resume_round_trip t1 t2 db sid s :
  CRUDFocusSession.get db sid = Some s ->
  status s = ACTIVE ->
  exists p r,
    CRUDFocusSession.pause_session t1 db sid = (Some p, CRUDFocusSession.commit p db)
    /\ CRUDFocusSession.resume_session t2 (CRUDFocusSession.commit p db) sid
       = (Some r, CRUDFocusSession.commit r (CRUDFocusSession.commit p db))
    /\ r = set_updated_at t2
             (set_last_pause_start None
                (set_paused_duration (paused_duration s + whole_minutes t2 t1) s))
    /\ (0 <= t2 - t1 < 60 -> paused_duration r = paused_duration s).
Proof.
  intros G A. unfold CRUDFocusSession.pause_session. rewrite G, A. cbn.
  eexists. eexists. split; [reflexivity|].
  unfold CRUDFocusSession.resume_session.
  erewrite FocusProps.get_commit;
    [|exact G|cbn; eapply FocusProps.get_id; exact G].
  cbn. split; [reflexivity|]. split.
  - destruct s; cbn in *. subst. reflexivity.
  - intros B. cbn. unfold whole_minutes. rewrite Z.quot_small by lia. lia.
Qed.

Lemma pause_resume_round_trip_witness :
  CRUDFocusSession.get [FocusSpec.running_row ACTIVE None] 1
  = Some (FocusSpec.running_row ACTIVE None)
  /\ exists p r,
       CRUDFocusSession.pause_session 600 [FocusSpec.running_row ACTIVE None] 1
       = (Some p, CRUDFocusSession.commit p [FocusSpec.running_row ACTIVE None])
       /\ CRUDFocusSession.resume_session 900
            (CRUDFocusSession.commit p [FocusSpec.running_row ACTIVE None]) 1
          = (Some r, CRUDFocusSession.commit r
                       (CRUDFocusSession.commit p [FocusSpec.running_row ACTIVE None]))
       /\ r = set_updated_at 900
                (set_last_pause_start None
                   (set_paused_duration
                      (paused_duration (FocusSpec.running_row ACTIVE None)
                       + whole_minutes 900 600)
                      (FocusSpec.running_row ACTIVE None)))
       /\ (0 <= 900 - 600 < 60 ->
           paused_duration r = paused_duration (FocusSpec.running_row ACTIVE None)).
Proof.
  split; [reflexivity|].
  apply (pause_resume_round_trip 600 900 [FocusSpec.running_row ACTIVE None] 1
           (FocusSpec.running_row ACTIVE None)); reflexivity.
Defined.

(** ** The user cache *)

(** X7.  A user cached at [now] is returned, and the cache left alone,
    for as long as less than 300 seconds have passed; from then on the
    lookup misses and evicts the entry. *)
Theorem cached_user_expires_after_ttl {A} now later
    (cache : gmap Z (A * datetime)) uid (data : A) :
  FocusTimer._get_cached_user later (FocusTimer._cache_user now cache uid data) uid
  = if later - now <? 300
    then (Some data, FocusTimer._cache_user now cache uid data)
    else (None, delete uid cache).
Proof.
  unfold FocusTimer._get_cached_user, FocusTimer._cache_user,
    FocusTimer._cache_ttl.
  rewrite lookup_insert_eq.
  destruct (later - now <? 300); [reflexivity|].
  now rewrite delete_insert_eq.
Qed.

(** ** A ping that cannot be delivered *)

(** X8.  When the progress ping of a user comes back undelivered ([None]
    from the bot, or an exception whose text says the chat is gone), every
    job whose id carries the user's number is removed and the user's cache
    entry is dropped, while the session table is not touched: the session
    stays ACTIVE in it.  The removal catches the pings of any session whose
    own number equals the user's. *)
Theorem undelivered_ping_purges_user outcome (t : FocusTimer.Timer)
    uid elapsed total :
  total <> 0 ->
  outcome = FocusTimer.not_delivered \/ outcome = FocusTimer.send_failed true ->
  let t' := FocusTimer._send_progress_notification outcome t uid elapsed total in
  FocusTimer.db t' = FocusTimer.db t
  /\ FocusTimer.active_sessions t' = delete uid (FocusTimer.active_sessions t)
  /\ (forall sid,
        FocusTimer.find_job (FocusTimer.focus_complete uid sid)
          (FocusTimer.scheduler t') = None
        /\ FocusTimer.find_job (FocusTimer.break_complete uid sid)
             (FocusTimer.scheduler t') = None)
  /\ (forall sid i,
        FocusTimer.find_job (FocusTimer.progress uid sid i)
          (FocusTimer.scheduler t') = None)
  /\ (forall u i,
        FocusTimer.find_job (FocusTimer.progress u uid i)
          (FocusTimer.scheduler t') = None)
  /\ (forall j,
        FocusTimer.mentions_user uid j = false ->
        FocusTimer.find_job j (FocusTimer.scheduler t')
        = FocusTimer.find_job j (FocusTimer.scheduler t)).
Proof.
  intros N O t'. subst t'. unfold FocusTimer._send_progress_notification.
  apply Z.eqb_neq in N. rewrite N.
  assert (forall j,
            FocusTimer.find_job j
              (FocusTimer._remove_user_notifications (FocusTimer.scheduler t) uid)
            = if negb (FocusTimer.mentions_user uid j)
              then FocusTimer.find_job j (FocusTimer.scheduler t)
              else None) as F.
  { intros j. unfold FocusTimer._remove_user_notifications.
    apply (find_job_filter (fun j => negb (FocusTimer.mentions_user uid j))). }
  destruct O as [-> | ->];
    cbn [FocusTimer.db FocusTimer.active_sessions FocusTimer.scheduler
           FocusTimer.set_scheduler FocusTimer.set_active_sessions];
    (split; [reflexivity|]); (split; [reflexivity|]);
    (split; [intros sid; split; rewrite F; cbn; now rewrite Z.eqb_refl|]);
    (split; [intros sid i; rewrite F; cbn; now rewrite Z.eqb_refl|]);
    (split; [intros u i; rewrite F; cbn; rewrite Z.eqb_refl;
             now rewrite orb_true_r|]);
    intros j M; rewrite F, M; reflexivity.
Qed.

Lemma undelivered_ping_purges_user_witness :
  let t' :=
    FocusTimer._send_progress_notification FocusTimer.not_delivered
      FocusSpec.pomodoro_started 7 5 25 in
  FocusTimer.db t' = FocusTimer.db FocusSpec.pomodoro_started
  /\ FocusTimer.active_sessions t' !! 7 = None
  /\ FocusTimer.scheduler t' = [].
Proof.
  destruct (undelivered_ping_purges_user FocusTimer.not_delivered
              FocusSpec.pomodoro_started 7 5 25 ltac:(discriminate)
              (or_introl eq_refl))
    as (D & C & _).
  cbn zeta. split; [exact D|]. split.
  - rewrite C. apply lookup_delete_eq.
  - vm_compute. reflexivity.
Defined.

(** ** Restoring the cache at start-up *)

Lemma insert_by_created_at_In x s l :
  In x (CRUDFocusSession.insert_by_created_at s l) <-> x = s \/ In x l.
Proof.
  induction l as [|y l IH]; cbn [CRUDFocusSession.insert_by_created_at].
  - cbn. intuition.
  - destruct (created_at y <? created_at s); cbn [In] in *; intuition.
Qed.

Lemma order_by_created_at_desc_In x l :
  In x (CRUDFocusSession.order_by_created_at_desc l) <-> In x l.
Proof.
  unfold CRUDFocusSession.order_by_created_at_desc.
  assert (forall acc,
            In x (List.fold_left
                    (fun sorted s => CRUDFocusSession.insert_by_created_at s sorted)
                    l acc)
            <-> In x l \/ In x acc) as H.
  { induction l as [|y l IH]; intros acc; cbn [List.fold_left In].
    - intuition.
    - rewrite IH, insert_by_created_at_In. intuition. }
  rewrite H. cbn. intuition.
Qed.

Lemma insert_by_created_at_length s l :
  length (CRUDFocusSession.insert_by_created_at s l) = S (length l).
Proof.
  induction l as [|y l IH]; cbn [CRUDFocusSession.insert_by_created_at];
    [reflexivity|].
  destruct (created_at y <? created_at s); cbn [length]; [reflexivity|].
  now rewrite IH.
Qed.

Lemma order_by_created_at_desc_length l :
  length (CRUDFocusSession.order_by_created_at_desc l) = length l.
Proof.
  unfold CRUDFocusSession.order_by_created_at_desc.
  assert (forall acc,
            length (List.fold_left
                      (fun sorted s => CRUDFocusSession.insert_by_created_at s sorted)
                      l acc)
            = (length l + length acc)%nat) as H.
  { induction l as [|y l IH]; intros acc; cbn [List.fold_left length];
      [reflexivity|].
    rewrite IH, insert_by_created_at_length. lia. }
  rewrite H. cbn. lia.
Qed.

Lemma firstn_subset {A} (x : A) n : forall l, In x (List.firstn n l) -> In x l.
Proof.
  induction n as [|n IH]; intros [|y l] H; cbn in *; try contradiction.
  destruct H as [H|H]; [now left|right; now apply IH].
Qed.

(** The rows the restore goes over are rows of the table. *)
Lemma restored_rows_In db x :
  In x (CRUDFocusSession.get_user_sessions db None 100 None) -> In x db.
Proof.
  unfold CRUDFocusSession.get_user_sessions. intros H.
  apply firstn_subset in H. now apply order_by_created_at_desc_In.
Qed.

Lemma restore_fold_scheduler sessions : forall t,
  FocusTimer.scheduler (List.fold_left FocusTimer.restore_session sessions t)
  = FocusTimer.scheduler t
  /\ FocusTimer.db (List.fold_left FocusTimer.restore_session sessions t)
     = FocusTimer.db t.
Proof.
  induction sessions as [|x sessions IH]; intros t; cbn [List.fold_left];
    [split; reflexivity|].
  destruct (IH (FocusTimer.restore_session t x)) as [-> ->].
  unfold FocusTimer.restore_session. destruct (_ || _); split; reflexivity.
Qed.

Lemma restore_fold_sound db sessions : forall t,
  (forall x, In x sessions -> In x db) ->
  (forall u info, FocusTimer.active_sessions t !! u = Some info ->
                  FocusSpec.restored_from db u info) ->
  forall u info,
    FocusTimer.active_sessions
      (List.fold_left FocusTimer.restore_session sessions t) !! u = Some info ->
    FocusSpec.restored_from db u info.
Proof.
  induction sessions as [|x sessions IH]; intros t Sub P; cbn [List.fold_left];
    [exact P|].
  apply IH; [intros y Hy; apply Sub; now right|].
  intros u info. unfold FocusTimer.restore_session.
  destruct (status_eqb (status x) ACTIVE || status_eqb (status x) PAUSED) eqn:R;
    [|apply P].
  cbn. destruct (decide (user_id x = u)) as [E|E].
  - rewrite E, lookup_insert_eq. intros [= <-].
    exists x. cbn. repeat split; auto. apply Sub. now left.
  - rewrite lookup_insert_ne by exact E. apply P.
Qed.

(** X9.  After a restart every cache entry stands for a session of that
    user that is ACTIVE or PAUSED in the table, with the session's planned
    duration, its start time and a counter of zero; and the job store is
    empty: no completion job is set for a session that was put back, so it
    does not complete by itself any more. *)
Theorem restart_restores_without_jobs db u info :
  FocusTimer.active_sessions (FocusTimer.start (FocusTimer.__init__ db)) !! u
  = Some info ->
  FocusTimer.scheduler (FocusTimer.start (FocusTimer.__init__ db)) = []
  /\ FocusTimer.db (FocusTimer.start (FocusTimer.__init__ db)) = db
  /\ exists s,
       In s db
       /\ (status s = ACTIVE \/ status s = PAUSED)
       /\ user_id s = u
       /\ FocusTimer.session_id info = id s
       /\ FocusTimer.start_time info = default (created_at s) (actual_start s)
       /\ FocusTimer.duration_minutes info = planned_duration s
       /\ FocusTimer.sessions_completed info = 0.
Proof.
  unfold FocusTimer.start, FocusTimer._restore_active_sessions. intros H.
  destruct (restore_fold_scheduler
              (CRUDFocusSession.get_user_sessions
                 (FocusTimer.db (FocusTimer.__init__ db)) None 100 None)
              (FocusTimer.__init__ db)) as [-> ->].
  split; [reflexivity|]. split; [reflexivity|].
  apply (restore_fold_sound db) in H.
  - destruct H as (s & Hin & R & Hu & H).
    exists s. split; [exact Hin|]. split; [|split; [exact Hu|exact H]].
    unfold FocusSpec.running in R.
    apply orb_prop in R as [R|R]; apply FocusProps.status_eqb_eq in R; auto.
  - intros x. apply restored_rows_In.
  - intros u' i' E. cbn in E. rewrite lookup_empty in E. discriminate.
Qed.

Lemma restart_restores_without_jobs_witness :
  FocusTimer.active_sessions (FocusTimer.start FocusSpec.restarted) !! 7
  = Some {| FocusTimer.session_id := 1;
            FocusTimer.start_time := 0;
            FocusTimer.duration_minutes := 25;
            FocusTimer.session_type := FOCUS;
            FocusTimer.sessions_completed := 0 |}
  /\ FocusTimer.scheduler (FocusTimer.start FocusSpec.restarted) = [].
Proof.
  assert (FocusTimer.active_sessions (FocusTimer.start FocusSpec.restarted) !! 7
          = Some {| FocusTimer.session_id := 1;
                    FocusTimer.start_time := 0;
                    FocusTimer.duration_minutes := 25;
                    FocusTimer.session_type := FOCUS;
                    FocusTimer.sessions_completed := 0 |}) as H
      by (vm_compute; reflexivity).
  split; [exact H|].
  exact (proj1 (restart_restores_without_jobs
                  [FocusSpec.running_row ACTIVE None] 7 _ H)).
Defined.

Lemma restore_fold_complete u sessions : forall t,
  is_Some (FocusTimer.active_sessions t !! u)
  \/ (exists s, In s sessions /\ FocusSpec.running s = true /\ user_id s = u) ->
  is_Some (FocusTimer.active_sessions
             (List.fold_left FocusTimer.restore_session sessions t) !! u).
Proof.
  induction sessions as [|x sessions IH]; intros t H; cbn [List.fold_left].
  - destruct H as [H|(s & [] & _)]. exact H.
  - apply IH. unfold FocusTimer.restore_session. unfold FocusSpec.running in H.
    destruct H as [H|(s & [->|Hin] & R & Hu)].
    + left. destruct (_ || _); [|exact H]. cbn.
      destruct (decide (user_id x = u)) as [E|E].
      * rewrite E, lookup_insert_eq. eauto.
      * now rewrite lookup_insert_ne by exact E.
    + left. rewrite R. cbn. rewrite Hu, lookup_insert_eq. eauto.
    + right. exists s. auto.
Qed.

(** X10.  With at most 100 sessions in the table, a restart puts every
    user who has an ACTIVE or PAUSED session back into the cache. *)
Theorem restart_restores_every_running_user db u :
  (length db <= 100)%nat ->
  FocusSpec.has_running_session db u ->
  is_Some (FocusTimer.active_sessions
             (FocusTimer.start (FocusTimer.__init__ db)) !! u).
Proof.
  intros L (s & Hin & Hu & S).
  unfold FocusTimer.start, FocusTimer._restore_active_sessions.
  apply restore_fold_complete. right. exists s.
  split; [|split; [|exact Hu]].
  - cbn [FocusTimer.db FocusTimer.__init__].
    unfold CRUDFocusSession.get_user_sessions.
    rewrite List.firstn_all2
      by (rewrite order_by_created_at_desc_length;
          change (Z.to_nat 100) with 100%nat; lia).
    now apply order_by_created_at_desc_In.
  - unfold FocusSpec.running. destruct S as [-> | ->]; reflexivity.
Qed.

Lemma restart_restores_every_running_user_witness :
  FocusSpec.has_running_session [FocusSpec.running_row PAUSED (Some 600)] 7
  /\ is_Some (FocusTimer.active_sessions
                (FocusTimer.start
                   (FocusTimer.__init__ [FocusSpec.running_row PAUSED (Some 600)]))
                !! 7).
Proof.
  assert (FocusSpec.has_running_session
            [FocusSpec.running_row PAUSED (Some 600)] 7) as H.
  { exists (FocusSpec.running_row PAUSED (Some 600)).
    split; [left; reflexivity|]. split; [reflexivity|]. right. reflexivity. }
  split; [exact H|].
  apply restart_restores_every_running_user; [cbn; lia|exact H].
Defined.

(** ** The streak *)

Lemma streak_loop_spec now db uid n : forall a k,
  (k <= n)%nat ->
  0 <= CRUDFocusSession.streak_loop now db uid
         (List.map Z.of_nat (List.seq a n)) <= Z.of_nat n
  /\ (Z.of_nat k
      <= CRUDFocusSession.streak_loop now db uid
           (List.map Z.of_nat (List.seq a n))
      <-> forall i, (i < k)%nat ->
            FocusSpec.completed_on_day now db uid (a + i)).
Proof.
  unfold FocusSpec.completed_on_day.
  induction n as [|n IH]; intros a k K.
  - cbn. split; [lia|]. split; [intros _ i Hi; lia|lia].
  - cbn [List.seq List.map CRUDFocusSession.streak_loop].
    destruct (IH (S a) (Nat.pred k) ltac:(lia)) as [B E].
    destruct (0 <? CRUDFocusSession.completed_sessions_on db uid
                     (CRUDFocusSession.day_start now (Z.of_nat a)))%nat eqn:H.
    + apply Nat.ltb_lt in H. split; [lia|].
      destruct k as [|k]; [split; [intros _ i Hi; lia|lia]|].
      cbn [Nat.pred] in E. split.
      * intros L i Hi. destruct i as [|i].
        -- now rewrite Nat.add_0_r.
        -- replace (a + S i)%nat with (S a + i)%nat by lia.
           apply E; lia.
      * intros P. assert (Z.of_nat k <=
            CRUDFocusSession.streak_loop now db uid
              (List.map Z.of_nat (List.seq (S a) n))); [|lia].
        apply E. intros i Hi.
        replace (S a + i)%nat with (a + S i)%nat by lia. apply P. lia.
    + apply Nat.ltb_ge in H. split; [lia|].
      destruct k as [|k]; [split; [intros _ i Hi; lia|lia]|].
      split; [lia|]. intros P. specialize (P 0%nat ltac:(lia)).
      rewrite Nat.add_0_r in P. lia.
Qed.

(** X11.  The streak is between 0 and 365, and for every [k] up to 365
    it is at least [k] exactly when each of the last [k] days, today
    included, has a COMPLETED session of the user that was created on
    that day.  In particular it is 0 as long as nothing was completed
    today. *)
Theorem streak_counts_consecutive_days now db uid k :
  (k <= 365)%nat ->
  0 <= CRUDFocusSession.get_streak_days now db uid <= 365
  /\ (Z.of_nat k <= CRUDFocusSession.get_streak_days now db uid
      <-> forall i, (i < k)%nat -> FocusSpec.completed_on_day now db uid i).
Proof.
  intros K. unfold CRUDFocusSession.get_streak_days.
  destruct (streak_loop_spec now db uid 365 0 k K) as [B E].
  split; [lia|exact E].
Qed.

Lemma streak_counts_consecutive_days_witness :
  (1 <= 365)%nat
  /\ CRUDFocusSession.get_streak_days 100 FocusSpec.three_pomodoros 7 = 1
  /\ (1 <= CRUDFocusSession.get_streak_days 100 FocusSpec.three_pomodoros 7
      <-> forall i, (i < 1)%nat ->
            FocusSpec.completed_on_day 100 FocusSpec.three_pomodoros 7 i).
Proof.
  split; [lia|]. split; [vm_compute; reflexivity|].
  exact (proj2 (streak_counts_consecutive_days 100 FocusSpec.three_pomodoros 7 1
                  ltac:(lia))).
Defined.

(** ** At most one running session per user *)

Lemma commit_In db s' x :
  In x (CRUDFocusSession.commit s' db) -> x = s' \/ (In x db /\ id x <> id s').
Proof.
  unfold CRUDFocusSession.commit. rewrite List.in_map_iff.
  intros (r & E & Hin). destruct (id r =? id s') eqn:K.
  - left. now symmetry.
  - right. subst x. split; [exact Hin|]. now apply Z.eqb_neq.
Qed.

Lemma commit_ids s' db :
  List.map id (CRUDFocusSession.commit s' db) = List.map id db.
Proof.
  unfold CRUDFocusSession.commit. rewrite List.map_map.
  apply List.map_ext. intros r. destruct (id r =? id s') eqn:K; [|reflexivity].
  apply Z.eqb_eq in K. now symmetry.
Qed.

Lemma focus_get_own_key db s :
  FocusSpec.well_keyed db -> In s db -> CRUDFocusSession.get db (id s) = Some s.
Proof.
  unfold FocusSpec.well_keyed, CRUDFocusSession.get.
  induction db as [|x db IH]; cbn [List.map List.find]; [intros _ []|].
  intros ND [->|Hin].
  - now rewrite Z.eqb_refl.
  - apply List.NoDup_cons_iff in ND as [Hx ND].
    destruct (id x =? id s) eqn:E; [|auto].
    apply Z.eqb_eq in E. exfalso. apply Hx. rewrite E.
    now apply List.in_map.
Qed.

Lemma get_app_present db l i s :
  CRUDFocusSession.get db i = Some s -> CRUDFocusSession.get (db ++ l) i = Some s.
Proof.
  unfold CRUDFocusSession.get.
  induction db as [|x db IH]; cbn [List.find app]; [discriminate|].
  destruct (id x =? i); auto.
Qed.

Lemma extends_refl db : FocusSpec.extends db db.
Proof. split; [auto|]. intros i s G. eauto. Qed.

Lemma extends_trans db1 db2 db3 :
  FocusSpec.extends db1 db2 -> FocusSpec.extends db2 db3 ->
  FocusSpec.extends db1 db3.
Proof.
  intros [K1 G1] [K2 G2]. split; [auto|].
  intros i s G. destruct (G1 i s G) as (s' & G' & U').
  destruct (G2 i s' G') as (s'' & G'' & U''). exists s''. split; congruence.
Qed.

Lemma extends_commit db sid s s' :
  CRUDFocusSession.get db sid = Some s ->
  id s' = id s -> user_id s' = user_id s ->
  FocusSpec.extends db (CRUDFocusSession.commit s' db).
Proof.
  intros G I U. pose proof (FocusProps.get_id _ _ _ G) as Is. split.
  - unfold FocusSpec.well_keyed. now rewrite commit_ids.
  - intros i x Gx. destruct (Z.eq_dec (id s') i) as [E|E].
    + exists s'. split; [eapply FocusProps.get_commit; eauto|].
      assert (x = s) by congruence. congruence.
    + exists x. split; [|reflexivity].
      now rewrite FocusProps.get_commit_other.
Qed.

Lemma extends_append db x :
  id x = CRUDFocusSession.next_id db -> FocusSpec.extends db (db ++ [x]).
Proof.
  intros I. split.
  - unfold FocusSpec.well_keyed. rewrite List.map_app. cbn [List.map].
    intros ND. apply List.NoDup_app; [exact ND|repeat constructor; intros []|].
    intros i Hi [<-|[]].
    apply List.in_map_iff in Hi as (y & Ey & Hy).
    apply FocusProps.id_lt_next_id in Hy. lia.
  - intros i s G. exists s. split; [now apply get_app_present|reflexivity].
Qed.

Lemma calm_extends db db' : FocusSpec.calm db db' -> FocusSpec.extends db db'.
Proof.
  intros [->|(sid & s & s' & G & I & U & _ & ->)].
  - apply extends_refl.
  - eapply extends_commit; eauto.
Qed.

Lemma calm_one_running db db' :
  FocusSpec.calm db db' -> FocusSpec.one_running db -> FocusSpec.one_running db'.
Proof.
  intros [->|(sid & s & s' & G & I & U & R & ->)] O; [exact O|].
  pose proof (FocusProps.get_In _ _ _ G) as Hs.
  intros s1 s2 H1 H2 R1 R2 E.
  apply commit_In in H1, H2.
  destruct H1 as [->|[H1 N1]], H2 as [->|[H2 N2]].
  - reflexivity.
  - exfalso. apply N2. rewrite I. symmetry.
    apply (O s s2); auto. congruence.
  - exfalso. apply N1. rewrite I.
    apply (O s1 s); auto. congruence.
  - now apply O.
Qed.

(** The four operations that work on an existing row are calm. *)
Ltac written_back sid s G :=
  right; eexists sid, s, _; split; [exact G|];
  (split; [|split; [|split; [|reflexivity]]]);
  [reflexivity|reflexivity|unfold FocusSpec.running].

Lemma pause_calm now db sid :
  FocusSpec.calm db (snd (CRUDFocusSession.pause_session now db sid)).
Proof.
  unfold CRUDFocusSession.pause_session.
  destruct (CRUDFocusSession.get db sid) as [s|] eqn:G; [|now left].
  destruct (status s) eqn:S; cbn; try (now left).
  written_back sid s G. now rewrite S.
Qed.

Lemma resume_calm now db sid :
  FocusSpec.calm db (snd (CRUDFocusSession.resume_session now db sid)).
Proof.
  unfold CRUDFocusSession.resume_session.
  destruct (CRUDFocusSession.get db sid) as [s|] eqn:G; [|now left].
  destruct (status s) eqn:S; cbn; try (now left).
  destruct (last_pause_start s); written_back sid s G; now rewrite S.
Qed.

Lemma cancel_calm now db sid :
  FocusSpec.calm db (snd (CRUDFocusSession.cancel_session now db sid)).
Proof.
  unfold CRUDFocusSession.cancel_session.
  destruct (CRUDFocusSession.get db sid) as [s|] eqn:G; [|now left].
  destruct (status s) eqn:S; cbn; try (now left);
    written_back sid s G; cbn; discriminate.
Qed.

Lemma complete_calm now db sid :
  FocusSpec.calm db (snd (CRUDFocusSession.complete_session now db sid)).
Proof.
  unfold CRUDFocusSession.complete_session.
  destruct (CRUDFocusSession.get db sid) as [s|] eqn:G; [|now left].
  destruct (status s) eqn:S; cbn; try (now left);
    destruct (actual_start s); written_back sid s G; cbn; discriminate.
Qed.

(** A completion that goes through was one of a running session. *)
Lemma complete_inversion now db sid c db' :
  CRUDFocusSession.complete_session now db sid = (Some c, db') ->
  exists s,
    CRUDFocusSession.get db sid = Some s
    /\ FocusSpec.running s = true
    /\ id c = id s
    /\ user_id c = user_id s
    /\ FocusSpec.running c = false
    /\ db' = CRUDFocusSession.commit c db.
Proof.
  unfold CRUDFocusSession.complete_session.
  destruct (CRUDFocusSession.get db sid) as [s|] eqn:G; [|discriminate].
  destruct (status s) eqn:S; cbn; try discriminate;
    destruct (actual_start s); intros [= <- <-]; exists s;
    unfold FocusSpec.running; rewrite S; cbn; repeat split; reflexivity.
Qed.

Lemma cache_owned_set_db (t : FocusTimer.Timer) db' :
  FocusSpec.extends (FocusTimer.db t) db' ->
  FocusSpec.cache_owned t ->
  FocusSpec.cache_owned (FocusTimer.set_db db' t).
Proof.
  intros [_ X] C u info H. cbn in H.
  destruct (C u info H) as (s & G & U).
  destruct (X _ _ G) as (s' & G' & U'). exists s'.
  split; [exact G'|congruence].
Qed.

Lemma consistent_set_db (t : FocusTimer.Timer) db' :
  FocusSpec.calm (FocusTimer.db t) db' ->
  FocusSpec.consistent t ->
  FocusSpec.consistent (FocusTimer.set_db db' t).
Proof.
  intros K (W & O & C). pose proof (calm_extends _ _ K) as X.
  split; [|split].
  - cbn. now apply X.
  - cbn. now apply (calm_one_running _ _ K).
  - now apply cache_owned_set_db.
Qed.

(** Changes of the cache and of the job store that keep a timer
    consistent. *)
Lemma consistent_set_scheduler (t : FocusTimer.Timer) jobs :
  FocusSpec.consistent t -> FocusSpec.consistent (FocusTimer.set_scheduler jobs t).
Proof. intros H. exact H. Qed.

Lemma consistent_notify (t : FocusTimer.Timer) n :
  FocusSpec.consistent t -> FocusSpec.consistent (FocusTimer.notify n t).
Proof. intros H. exact H. Qed.

Lemma consistent_delete (t : FocusTimer.Timer) uid :
  FocusSpec.consistent t ->
  FocusSpec.consistent
    (FocusTimer.set_active_sessions (delete uid (FocusTimer.active_sessions t)) t).
Proof.
  intros (W & O & C). split; [exact W|]. split; [exact O|].
  intros u info H. cbn in H. apply lookup_delete_Some in H as [_ H].
  exact (C u info H).
Qed.

Lemma consistent_insert (t : FocusTimer.Timer) uid info s :
  CRUDFocusSession.get (FocusTimer.db t) (FocusTimer.session_id info) = Some s ->
  user_id s = uid ->
  FocusSpec.consistent t ->
  FocusSpec.consistent
    (FocusTimer.set_active_sessions
       (<[uid := info]> (FocusTimer.active_sessions t)) t).
Proof.
  intros G U (W & O & C). split; [exact W|]. split; [exact O|].
  intros u i H. cbn in H. cbn [FocusTimer.db FocusTimer.set_active_sessions].
  destruct (decide (uid = u)) as [<-|N].
  - rewrite lookup_insert_eq in H. injection H as <-. eauto.
  - rewrite lookup_insert_ne in H by exact N. exact (C u i H).
Qed.

(** Appending the session that a start creates, for an idle user. *)
Lemma consistent_append (t : FocusTimer.Timer) x :
  id x = CRUDFocusSession.next_id (FocusTimer.db t) ->
  FocusSpec.idle (FocusTimer.db t) (user_id x) ->
  FocusSpec.consistent t ->
  FocusSpec.consistent (FocusTimer.set_db (FocusTimer.db t ++ [x]) t).
Proof.
  intros I Idle (W & O & C). pose proof (extends_append _ _ I) as X.
  split; [|split].
  - cbn. now apply X.
  - cbn. intros s1 s2 H1 H2 R1 R2 E.
    apply List.in_app_or in H1, H2.
    destruct H1 as [H1|[<-|[]]], H2 as [H2|[<-|[]]].
    + now apply O.
    + now destruct (Idle s1 H1 R1).
    + destruct (Idle s2 H2 R2). now symmetry.
    + reflexivity.
  - now apply cache_owned_set_db.
Qed.

Lemma start_break_consistent now (t : FocusTimer.Timer) uid :
  FocusSpec.idle (FocusTimer.db t) uid ->
  FocusSpec.consistent t ->
  FocusSpec.consistent (FocusTimer._start_short_break now t uid)
  /\ FocusSpec.consistent (FocusTimer._start_long_break now t uid).
Proof.
  intros Idle K.
  unfold FocusTimer._start_short_break, FocusTimer._start_long_break.
  pose proof (FocusProps.start_created now (FocusTimer.db t) uid SHORT_BREAK
                (FocusTimer.short_break_duration t) true) as Hs.
  pose proof (FocusProps.start_created now (FocusTimer.db t) uid LONG_BREAK
                (FocusTimer.long_break_duration t) true) as Hl.
  cbn in Hs, Hl. cbn [CRUDFocusSession.create_focus_session id].
  rewrite Hs, Hl.
  split; apply consistent_notify, consistent_set_scheduler;
    (eapply (consistent_insert (FocusTimer.set_db _ t));
     [cbn; apply FocusProps.get_app_absent;
      [apply FocusProps.get_next_id|reflexivity]
     |reflexivity
     |apply (consistent_append t); [reflexivity|exact Idle|exact K]]).
Qed.

Lemma find_none_idle db uid :
  CRUDFocusSession.get_active_session db uid = None -> FocusSpec.idle db uid.
Proof.
  unfold CRUDFocusSession.get_active_session. intros F x Hin R E.
  pose proof (List.find_none _ _ F x Hin) as P. cbn in P.
  unfold FocusSpec.running in R. rewrite E, Z.eqb_refl, R in P. discriminate.
Qed.

(** Every call keeps a timer consistent. *)
Lemma handle_consistent t e :
  FocusSpec.consistent t -> FocusSpec.consistent (FocusSpec.handle t e).
Proof.
  intros K.
  destruct e as [now [uid d a|uid|uid|uid|uid|uid|]];
    unfold FocusSpec.handle; cbn [fst snd].
  - unfold FocusTimer.start_focus_session.
    destruct (CRUDFocusSession.get_active_session (FocusTimer.db t) uid) eqn:F;
      [exact K|].
    pose proof (FocusProps.start_created now (FocusTimer.db t) uid FOCUS d a) as S.
    cbn in S. cbn [CRUDFocusSession.create_focus_session id]. rewrite S.
    cbn [snd]. apply consistent_set_scheduler.
    eapply (consistent_insert (FocusTimer.set_db _ t));
      [cbn; apply FocusProps.get_app_absent;
       [apply FocusProps.get_next_id|reflexivity]
      |reflexivity
      |apply (consistent_append t);
       [reflexivity|cbn; now apply find_none_idle|exact K]].
  - unfold FocusTimer.pause_session.
    destruct (FocusTimer.active_sessions t !! uid) as [info|]; [|exact K].
    pose proof (pause_calm now (FocusTimer.db t) (FocusTimer.session_id info)) as Q.
    destruct (CRUDFocusSession.pause_session _ _ _) as [[?|] db'];
      cbn [snd] in *; [apply consistent_set_scheduler|];
      now apply consistent_set_db.
  - unfold FocusTimer.resume_session.
    destruct (FocusTimer.active_sessions t !! uid) as [info|]; [|exact K].
    pose proof (resume_calm now (FocusTimer.db t) (FocusTimer.session_id info)) as Q.
    destruct (CRUDFocusSession.resume_session _ _ _) as [[?|] db'];
      cbn [snd] in *; [apply consistent_set_scheduler|];
      now apply consistent_set_db.
  - unfold FocusTimer.cancel_session.
    destruct (FocusTimer.active_sessions t !! uid) as [info|]; [|exact K].
    pose proof (cancel_calm now (FocusTimer.db t) (FocusTimer.session_id info)) as Q.
    destruct (CRUDFocusSession.cancel_session _ _ _) as [[?|] db'];
      cbn [snd] in *;
      [apply (consistent_delete
                (FocusTimer.set_scheduler _ (FocusTimer.set_db db' t)) uid),
         consistent_set_scheduler|];
      now apply consistent_set_db.
  - unfold FocusTimer._complete_focus_session.
    destruct (FocusTimer.active_sessions t !! uid) as [info|] eqn:C; [|exact K].
    pose proof (complete_calm now (FocusTimer.db t) (FocusTimer.session_id info)) as Q.
    destruct (CRUDFocusSession.complete_session _ _ _) as [[c|] db'] eqn:D;
      cbn [snd] in Q; [|now apply consistent_set_db].
    apply complete_inversion in D as (s & G & Rs & Ic & Uc & Rc & ->).
    destruct K as (W & O & Cache).
    destruct (Cache uid info C) as (s0 & G0 & U0).
    assert (s0 = s) by congruence. subst s0.
    pose proof (FocusProps.get_id _ _ _ G) as Is.
    set (t1 := FocusTimer.notify _ _).
    assert (FocusSpec.consistent t1) as K1.
    { subst t1. apply consistent_notify.
      eapply (consistent_insert (FocusTimer.set_db _ t));
        [cbn [FocusTimer.db FocusTimer.set_db FocusTimer.session_id];
         eapply FocusProps.get_commit; [exact G|congruence]
        |congruence
        |apply consistent_set_db; [exact Q|now repeat split]]. }
    assert (FocusSpec.idle (FocusTimer.db t1) uid) as Idle.
    { subst t1. cbn. intros x Hx Rx Ux.
      apply commit_In in Hx as [->|[Hx Nx]]; [congruence|].
      apply Nx. rewrite Ic.
      apply (O x s); auto; [eapply FocusProps.get_In; eauto|congruence]. }
    destruct (FocusTimer.sessions_before_long_break t1 =? 0); [exact K1|].
    destruct (start_break_consistent now t1 uid Idle K1) as [Ks Kl].
    destruct (_ mod _ =? 0); now apply consistent_delete.
  - unfold FocusTimer._complete_break_session.
    destruct (FocusTimer.active_sessions t !! uid) as [info|]; [|exact K].
    pose proof (complete_calm now (FocusTimer.db t) (FocusTimer.session_id info)) as Q.
    destruct (CRUDFocusSession.complete_session _ _ _) as [[?|] db'];
      cbn [snd] in *;
      [apply (consistent_delete
                (FocusTimer.notify _ (FocusTimer.set_db db' t)) uid),
         consistent_notify|];
      now apply consistent_set_db.
  - destruct K as (W & O & _).
    unfold FocusTimer.start, FocusTimer._restore_active_sessions.
    destruct (restore_fold_scheduler
                (CRUDFocusSession.get_user_sessions
                   (FocusTimer.db (FocusTimer.__init__ (FocusTimer.db t)))
                   None 100 None)
                (FocusTimer.__init__ (FocusTimer.db t))) as [_ Edb].
    split; [now rewrite Edb|]. split; [now rewrite Edb|].
    intros u info H. rewrite Edb. cbn [FocusTimer.db FocusTimer.__init__].
    apply (restore_fold_sound (FocusTimer.db t)) in H.
    + destruct H as (s & Hin & _ & Hu & Hid & _).
      exists s. split; [|exact Hu]. rewrite Hid.
      now apply focus_get_own_key.
    + intros x. apply restored_rows_In.
    + intros u' i' E. cbn in E. rewrite lookup_empty in E. discriminate.
Qed.

Lemma run_consistent trace : forall t,
  FocusSpec.consistent t -> FocusSpec.consistent (FocusSpec.run t trace).
Proof.
  unfold FocusSpec.run.
  induction trace as [|e trace IH]; intros t K; cbn [List.fold_left];
    [exact K|].
  apply IH. now apply handle_consistent.
Qed.

(** X12.  The timer keeps the one-session rule.  If the table it is
    constructed over has unique keys and no user with two running
    sessions, then after any sequence of starts, pauses, resumes, cancels,
    completion jobs and restarts the keys are still unique and no user has
    two sessions that are ACTIVE or PAUSED. *)
Theorem one_running_session_per_user db0 trace :
  FocusSpec.well_keyed db0 ->
  FocusSpec.one_running db0 ->
  let t := FocusSpec.run (FocusTimer.__init__ db0) trace in
  FocusSpec.well_keyed (FocusTimer.db t)
  /\ forall s1 s2,
       In s1 (FocusTimer.db t) -> In s2 (FocusTimer.db t) ->
       (status s1 = ACTIVE \/ status s1 = PAUSED) ->
       (status s2 = ACTIVE \/ status s2 = PAUSED) ->
       user_id s1 = user_id s2 ->
       s1 = s2.
Proof.
  intros W O t.
  assert (FocusSpec.consistent (FocusTimer.__init__ db0)) as K0.
  { split; [exact W|]. split; [exact O|].
    intros u i H. cbn in H. rewrite lookup_empty in H. discriminate. }
  destruct (run_consistent trace _ K0) as (Wt & Ot & _). fold t in Wt, Ot.
  split; [exact Wt|].
  intros s1 s2 H1 H2 R1 R2 E.
  assert (id s1 = id s2) as I.
  { apply Ot; auto; unfold FocusSpec.running.
    - destruct R1 as [-> | ->]; reflexivity.
    - destruct R2 as [-> | ->]; reflexivity. }
  pose proof (focus_get_own_key _ _ Wt H1) as G1.
  pose proof (focus_get_own_key _ _ Wt H2) as G2.
  congruence.
Qed.

Lemma one_running_session_per_user_witness :
  FocusSpec.well_keyed [] /\ FocusSpec.one_running []
  /\ let t := FocusSpec.run (FocusTimer.__init__ []) FocusSpec.four_sessions in
     FocusSpec.well_keyed (FocusTimer.db t)
     /\ forall s1 s2,
          In s1 (FocusTimer.db t) -> In s2 (FocusTimer.db t) ->
          (status s1 = ACTIVE \/ status s1 = PAUSED) ->
          (status s2 = ACTIVE \/ status s2 = PAUSED) ->
          user_id s1 = user_id s2 ->
          s1 = s2.
Proof.
  assert (FocusSpec.well_keyed []) as W by constructor.
  assert (FocusSpec.one_running []) as O by (intros s1 s2 []).
  split; [exact W|]. split; [exact O|].
  exact (one_running_session_per_user [] FocusSpec.four_sessions W O).
Defined.

End FocusEngine.

(* ================================================================== *)
(** * More of the reminder life cycle *)

Module ReminderLifecycle.
Import ReminderModel.

(** ** Loops that write rows back *)

Lemma commit_fresh x db :
  ~ In (id x) (List.map id db) -> CRUDReminder.commit x db = db.
Proof.
  unfold CRUDReminder.commit.
  induction db as [|y db IH]; cbn [List.map]; [reflexivity|].
  intros H. rewrite IH by (intros K; apply H; now right).
  destruct (id y =? id x) eqn:E; [|reflexivity].
  apply Z.eqb_eq in E. exfalso. apply H. now left.
Qed.

Lemma filter_ids (p : Reminder -> bool) db i :
  In i (List.map id (List.filter p db)) -> In i (List.map id db).
Proof.
  intros H. apply List.in_map_iff in H as (x & E & Hx).
  apply List.filter_In in Hx as [Hx _].
  apply List.in_map_iff. eauto.
Qed.

Section RowLoop.

(** A loop over the rows picked by [p] whose body [step] rewrites the
    row of its argument with [f] and touches no other row.  *)
Variable f : Reminder -> Reminder.
Variable step : CRUDReminder.table -> Reminder -> CRUDReminder.table.
Variable p : Reminder -> bool.

Hypothesis f_id : forall r, id (f r) = id r.
Hypothesis step_other :
  forall y db z, id y <> id z -> step (y :: db) z = y :: step db z.
Hypothesis step_own :
  forall x db, ~ In (id x) (List.map id db) -> step (x :: db) x = f x :: db.

Lemma loop_head_kept rest : forall db y,
  ~ In (id y) (List.map id rest) ->
  List.fold_left step rest (y :: db) = y :: List.fold_left step rest db.
Proof.
  induction rest as [|z rest IH]; intros db y N; cbn [List.fold_left];
    [reflexivity|].
  cbn [List.map] in N. rewrite step_other by (intros E; apply N; now left).
  apply IH. intros K. apply N. now right.
Qed.

Lemma loop_is_one_pass db :
  ReminderSpec.well_keyed db ->
  List.fold_left step (List.filter p db) db
  = List.map (fun r => if p r then f r else r) db.
Proof.
  unfold ReminderSpec.well_keyed.
  induction db as [|x db IH]; cbn [List.filter List.map]; [reflexivity|].
  intros ND. apply List.NoDup_cons_iff in ND as [Hx ND].
  assert (~ In (id x) (List.map id (List.filter p db))) as Hx'
    by (intros H; apply Hx; eapply filter_ids; eauto).
  destruct (p x).
  - cbn [List.fold_left]. rewrite step_own by exact Hx.
    rewrite loop_head_kept by (now rewrite f_id).
    now rewrite IH.
  - rewrite loop_head_kept by exact Hx'. now rewrite IH.
Qed.

End RowLoop.

(** The loop body of the task sweeps: the row of the loop variable is
    written back. *)
Lemma commit_other f y db z :
  (forall r, id (f r) = id r) -> id y <> id z ->
  CRUDReminder.commit (f z) (y :: db) = y :: CRUDReminder.commit (f z) db.
Proof.
  intros F N. unfold CRUDReminder.commit. cbn [List.map]. rewrite F.
  destruct (id y =? id z) eqn:E; [|reflexivity].
  apply Z.eqb_eq in E. contradiction.
Qed.

Lemma commit_own f x db :
  (forall r, id (f r) = id r) -> ~ In (id x) (List.map id db) ->
  CRUDReminder.commit (f x) (x :: db) = f x :: db.
Proof.
  intros F N. unfold CRUDReminder.commit. cbn [List.map].
  fold (CRUDReminder.commit (f x) db).
  rewrite commit_fresh by (now rewrite F).
  now rewrite F, Z.eqb_refl.
Qed.

Lemma expired_row_id now r : id (ReminderSpec.expired_row now r) = id r.
Proof. reflexivity. Qed.

(** The loop body of the scheduler's sweep reads the row again. *)
Lemma mark_as_expired_other now y db z :
  id y <> id z ->
  snd (CRUDReminder.mark_as_expired now (y :: db) (id z))
  = y :: snd (CRUDReminder.mark_as_expired now db (id z)).
Proof.
  intros N. unfold CRUDReminder.mark_as_expired, CRUDReminder.get.
  cbn [List.find]. destruct (id y =? id z) eqn:E;
    [apply Z.eqb_eq in E; contradiction|].
  destruct (List.find _ db) as [r|] eqn:G; [|reflexivity].
  cbn [snd]. apply List.find_some in G as [_ G]. apply Z.eqb_eq in G.
  unfold CRUDReminder.commit. cbn [List.map]. cbn [id set_updated_at set_status].
  rewrite G, E. reflexivity.
Qed.

Lemma mark_as_expired_own now x db :
  ~ In (id x) (List.map id db) ->
  snd (CRUDReminder.mark_as_expired now (x :: db) (id x))
  = ReminderSpec.expired_row now x :: db.
Proof.
  intros N. unfold CRUDReminder.mark_as_expired, CRUDReminder.get.
  cbn [List.find]. rewrite Z.eqb_refl. cbn [snd].
  now apply (commit_own (ReminderSpec.expired_row now)).
Qed.

(** The scheduler state, field by field, while the sweep runs. *)
Lemma expire_fold_reminders now l : forall s,
  ReminderScheduler.reminders
    (List.fold_left (ReminderScheduler.expire_reminder now) l s)
  = List.fold_left
      (fun db r => snd (CRUDReminder.mark_as_expired now db (id r)))
      l (ReminderScheduler.reminders s).
Proof.
  induction l as [|r l IH]; intros s; cbn [List.fold_left]; [reflexivity|].
  now rewrite IH.
Qed.

Lemma expire_fold_jobs now l : forall s,
  ReminderScheduler.jobs
    (List.fold_left (ReminderScheduler.expire_reminder now) l s)
  = List.fold_left (fun js r => ReminderScheduler.remove_job (id r) js)
      l (ReminderScheduler.jobs s).
Proof.
  induction l as [|r l IH]; intros s; cbn [List.fold_left]; [reflexivity|].
  now rewrite IH.
Qed.

Lemma expire_fold_rest now l : forall s,
  ReminderScheduler.users
    (List.fold_left (ReminderScheduler.expire_reminder now) l s)
  = ReminderScheduler.users s
  /\ ReminderScheduler.dispatched
       (List.fold_left (ReminderScheduler.expire_reminder now) l s)
     = ReminderScheduler.dispatched s.
Proof.
  induction l as [|r l IH]; intros s; cbn [List.fold_left]; [auto|].
  destruct (IH (ReminderScheduler.expire_reminder now s r)) as [-> ->]. auto.
Qed.

Lemma job_of_remove_job i k js :
  ReminderScheduler.job_of i (ReminderScheduler.remove_job k js)
  = if k =? i then None else ReminderScheduler.job_of i js.
Proof.
  unfold ReminderScheduler.job_of, ReminderScheduler.remove_job.
  induction js as [|j js IH]; cbn [List.filter List.find].
  - now destruct (k =? i).
  - destruct (ReminderScheduler.job_reminder j =? k) eqn:Ek; cbn [negb List.find].
    + apply Z.eqb_eq in Ek. rewrite IH.
      destruct (k =? i) eqn:Ei; [reflexivity|].
      rewrite Ek, Ei. reflexivity.
    + destruct (ReminderScheduler.job_reminder j =? i) eqn:Ei.
      * destruct (k =? i) eqn:Eki; [lia|reflexivity].
      * exact IH.
Qed.



Lemma job_of_removals i l : forall js,
  ReminderScheduler.job_of i
    (List.fold_left (fun js r => ReminderScheduler.remove_job (id r) js) l js)
  = if List.existsb (fun r => id r =? i) l then None
    else ReminderScheduler.job_of i js.
Proof.
  induction l as [|r l IH]; intros js; cbn [List.fold_left List.existsb];
    [reflexivity|].
  rewrite IH, job_of_remove_job.
  destruct (id r =? i); cbn [orb]; [now destruct (List.existsb _ l)|reflexivity].
Qed.

Lemma has_expired_expired_row now t r :
  CRUDReminder.has_expired t (ReminderSpec.expired_row now r) = false.
Proof.
  unfold CRUDReminder.has_expired. cbn. now rewrite andb_false_r.
Qed.

Lemma no_expired_left now db :
  CRUDReminder.get_expired_reminders now
    (List.map (fun r => if CRUDReminder.has_expired now r
                        then ReminderSpec.expired_row now r else r) db)
  = [].
Proof.
  unfold CRUDReminder.get_expired_reminders.
  induction db as [|r db IH]; cbn [List.map List.filter]; [reflexivity|].
  destruct (CRUDReminder.has_expired now r) eqn:E.
  - now rewrite has_expired_expired_row.
  - now rewrite E.
Qed.

(** X13.  The scheduler's expiry sweep is one pass over a well-keyed
    table: every row that is ACTIVE with [expires_at <= now] gets status
    EXPIRED (and a fresh [updated_at]), every other row is left as it
    was; the jobs of the expired reminders are gone and all other jobs
    are kept; no expired reminder is left, so sweeping again at the same
    instant changes nothing. *)
Theorem expiry_sweep_is_one_pass now s :
  ReminderSpec.well_keyed (ReminderScheduler.reminders s) ->
  let s' := ReminderScheduler.cleanup_expired_reminders now s in
  ReminderScheduler.reminders s'
  = List.map (fun r => if CRUDReminder.has_expired now r
                       then ReminderSpec.expired_row now r else r)
      (ReminderScheduler.reminders s)
  /\ (forall i,
        ReminderScheduler.job_of i (ReminderScheduler.jobs s')
        = if List.existsb (fun r => id r =? i)
               (CRUDReminder.get_expired_reminders now
                  (ReminderScheduler.reminders s))
          then None
          else ReminderScheduler.job_of i (ReminderScheduler.jobs s))
  /\ ReminderScheduler.dispatched s' = ReminderScheduler.dispatched s
  /\ ReminderScheduler.cleanup_expired_reminders now s' = s'.
Proof.
  intros WK s'.
  assert (ReminderScheduler.reminders s'
          = List.map (fun r => if CRUDReminder.has_expired now r
                               then ReminderSpec.expired_row now r else r)
              (ReminderScheduler.reminders s)) as E.
  { subst s'. unfold ReminderScheduler.cleanup_expired_reminders.
    rewrite expire_fold_reminders.
    unfold CRUDReminder.get_expired_reminders.
    apply (loop_is_one_pass (ReminderSpec.expired_row now)).
    - apply expired_row_id.
    - intros y db z. apply mark_as_expired_other.
    - intros x db. apply mark_as_expired_own.
    - exact WK. }
  split; [exact E|]. split; [|split].
  - intros i. subst s'. unfold ReminderScheduler.cleanup_expired_reminders.
    rewrite expire_fold_jobs. apply job_of_removals.
  - subst s'. unfold ReminderScheduler.cleanup_expired_reminders.
    apply expire_fold_rest.
  - unfold ReminderScheduler.cleanup_expired_reminders at 1.
    rewrite E, no_expired_left. reflexivity.
Qed.

Lemma expiry_sweep_is_one_pass_witness :
  let s := ReminderSpec.scheduler_with ReminderSpec.hourly in
  let s' := ReminderScheduler.cleanup_expired_reminders 100 s in
  ReminderSpec.well_keyed (ReminderScheduler.reminders s)
  /\ ReminderScheduler.reminders s'
     = List.map (fun r => if CRUDReminder.has_expired 100 r
                          then ReminderSpec.expired_row 100 r else r)
         (ReminderScheduler.reminders s)
  /\ (forall i,
        ReminderScheduler.job_of i (ReminderScheduler.jobs s')
        = if List.existsb (fun r => id r =? i)
               (CRUDReminder.get_expired_reminders 100
                  (ReminderScheduler.reminders s))
          then None
          else ReminderScheduler.job_of i (ReminderScheduler.jobs s))
  /\ ReminderScheduler.dispatched s' = ReminderScheduler.dispatched s
  /\ ReminderScheduler.cleanup_expired_reminders 100 s' = s'.
Proof.
  intros s s'.
  assert (ReminderSpec.well_keyed (ReminderScheduler.reminders s)) as WK
    by (repeat constructor; intros []).
  split; [exact WK|].
  exact (expiry_sweep_is_one_pass 100 s WK).
Defined.

(** ** The task sweeps *)

Lemma task_expire_fold now l : forall w,
  let w' :=
    List.fold_left
      (fun w reminder =>
         {| ReminderTasks.reminders :=
              CRUDReminder.commit
                (set_updated_at now (set_status EXPIRED reminder))
                (ReminderTasks.reminders w);
            ReminderTasks.users := ReminderTasks.users w;
            ReminderTasks.queue := ReminderTasks.queue w |})
      l w in
  ReminderTasks.reminders w'
  = List.fold_left
      (fun db r => CRUDReminder.commit (ReminderSpec.expired_row now r) db)
      l (ReminderTasks.reminders w)
  /\ ReminderTasks.users w' = ReminderTasks.users w
  /\ ReminderTasks.queue w' = ReminderTasks.queue w.
Proof.
  induction l as [|r l IH]; intros w; cbv zeta; cbn [List.fold_left];
    [auto|].
  match goal with
  | |- context [List.fold_left _ l ?w0] => specialize (IH w0)
  end.
  exact IH.
Qed.

(** X14.  The expiry task writes, to a well-keyed table, exactly what
    the scheduler's sweep writes: EXPIRED on every ACTIVE row with
    [expires_at <= now] and nothing else.  It reports the number of
    those rows and enqueues nothing. *)
Theorem expiry_task_agrees_with_scheduler now w s :
  ReminderSpec.well_keyed (ReminderTasks.reminders w) ->
  ReminderScheduler.reminders s = ReminderTasks.reminders w ->
  let '(expired_count, w') := ReminderTasks.cleanup_expired_reminders now w in
  ReminderTasks.reminders w'
  = ReminderScheduler.reminders
      (ReminderScheduler.cleanup_expired_reminders now s)
  /\ expired_count
     = Z.of_nat
         (length (CRUDReminder.get_expired_reminders now (ReminderTasks.reminders w)))
  /\ ReminderTasks.queue w' = ReminderTasks.queue w.
Proof.
  intros WK E. unfold ReminderTasks.cleanup_expired_reminders.
  destruct (task_expire_fold now
              (List.filter (CRUDReminder.has_expired now) (ReminderTasks.reminders w))
              w) as (R & _ & Q).
  cbv zeta in R, Q.
  assert (ReminderTasks.reminders
            (List.fold_left
               (fun w reminder =>
                  {| ReminderTasks.reminders :=
                       CRUDReminder.commit
                         (set_updated_at now (set_status EXPIRED reminder))
                         (ReminderTasks.reminders w);
                     ReminderTasks.users := ReminderTasks.users w;
                     ReminderTasks.queue := ReminderTasks.queue w |})
               (List.filter (CRUDReminder.has_expired now) (ReminderTasks.reminders w))
               w)
          = List.map (fun r => if CRUDReminder.has_expired now r
                               then ReminderSpec.expired_row now r else r)
              (ReminderTasks.reminders w)) as M.
  { rewrite R.
    apply (loop_is_one_pass (ReminderSpec.expired_row now)).
    - apply expired_row_id.
    - intros y db z. now apply commit_other.
    - intros x db. now apply commit_own.
    - exact WK. }
  split; [|split; [reflexivity|exact Q]].
  rewrite M. unfold ReminderScheduler.cleanup_expired_reminders.
  rewrite expire_fold_reminders, E.
  unfold CRUDReminder.get_expired_reminders. symmetry.
  apply (loop_is_one_pass (ReminderSpec.expired_row now)).
  - apply expired_row_id.
  - intros y db z. apply mark_as_expired_other.
  - intros x db. apply mark_as_expired_own.
  - exact WK.
Qed.

Lemma expiry_task_agrees_with_scheduler_witness :
  let w := ReminderSpec.worker_with ReminderSpec.hourly in
  let s := ReminderSpec.scheduler_with ReminderSpec.hourly in
  ReminderSpec.well_keyed (ReminderTasks.reminders w)
  /\ ReminderScheduler.reminders s = ReminderTasks.reminders w
  /\ let '(expired_count, w') := ReminderTasks.cleanup_expired_reminders 100 w in
     ReminderTasks.reminders w'
     = ReminderScheduler.reminders
         (ReminderScheduler.cleanup_expired_reminders 100 s)
     /\ expired_count
        = Z.of_nat
            (length (CRUDReminder.get_expired_reminders 100 (ReminderTasks.reminders w)))
     /\ ReminderTasks.queue w' = ReminderTasks.queue w.
Proof.
  intros w s.
  assert (ReminderSpec.well_keyed (ReminderTasks.reminders w)) as WK
    by (repeat constructor; intros []).
  split; [exact WK|]. split; [reflexivity|].
  exact (expiry_task_agrees_with_scheduler 100 w s WK eq_refl).
Defined.







(** ** Who may be sent *)

(** X16.  The model's [can_send] and the filter of the due queries
    ([get_active_reminders] and the query of [check_due_reminders], which
    are the same filter) agree on every reminder, except at the very
    instant of expiry and for a [max_send_count] of zero: the property
    still allows a reminder at [now = expires_at] and treats a limit of 0
    as no limit, the queries do not. *)
Theorem can_send_agrees_with_due_query now r :
  expires_at r <> Some now ->
  max_send_count r <> Some 0 ->
  can_send now r = ReminderTasks.is_due now r
  /\ ReminderTasks.is_due now r = CRUDReminder.ready_to_send now r.
Proof.
  intros E M. split; [|reflexivity].
  unfold can_send, ReminderTasks.is_due, is_active, is_expired, truthy.
  destruct (status_eqb (status r) ACTIVE); cbn [andb negb orb]; [|reflexivity].
  destruct (is_enabled r); cbn [andb negb orb]; [|reflexivity].
  destruct (expires_at r) as [e|], (max_send_count r) as [m|];
    cbn [default from_option];
    repeat match goal with
           | |- context [?a <? ?b] => destruct (Z.ltb_spec a b)
           | |- context [?a <=? ?b] => destruct (Z.leb_spec a b)
           | |- context [?a =? ?b] => destruct (Z.eqb_spec a b)
           end;
    cbn; unfold Datatypes.id in *; try reflexivity; try lia;
    try (exfalso; apply E; f_equal; lia);
    exfalso; apply M; f_equal; lia.
Qed.

Lemma can_send_agrees_with_due_query_witness :
  expires_at ReminderSpec.hourly <> Some 90
  /\ max_send_count ReminderSpec.hourly <> Some 0
  /\ can_send 90 ReminderSpec.hourly = ReminderTasks.is_due 90 ReminderSpec.hourly
  /\ ReminderTasks.is_due 90 ReminderSpec.hourly
     = CRUDReminder.ready_to_send 90 ReminderSpec.hourly.
Proof.
  assert (expires_at ReminderSpec.hourly <> Some 90) as E by discriminate.
  assert (max_send_count ReminderSpec.hourly <> Some 0) as M by discriminate.
  split; [exact E|]. split; [exact M|].
  exact (can_send_agrees_with_due_query 90 ReminderSpec.hourly E M).
Defined.

(** ** Fires of the scheduler job *)

Lemma bot_did_not_raise (bot : Bot) chat (X Y : ReminderScheduler.Scheduler) :
  bot chat <> raised ->
  match bot chat with raised => X | _ => Y end = Y.
Proof. intros B. destruct (bot chat); congruence. Qed.

(** A dispatch that does not raise, for a reminder that does not
    repeat. *)
Lemma one_shot_fire now bot s rid r u :
  CRUDReminder.get (ReminderScheduler.reminders s) rid = Some r ->
  is_active r = true ->
  repeats r = false ->
  CRUDReminder.get_user (ReminderScheduler.users s) (user_id r) = Some u ->
  UserModel.telegram_id u <> 0 ->
  bot (UserModel.telegram_id u) <> raised ->
  let sent :=
    set_updated_at now
      (set_sent_count (sent_count r + 1) (set_sent_at (Some now) (set_status SENT r))) in
  let s' := ReminderScheduler._send_reminder_job now bot s rid in
  s' = {| ReminderScheduler.reminders :=
            CRUDReminder.commit sent (ReminderScheduler.reminders s);
          ReminderScheduler.users := ReminderScheduler.users s;
          ReminderScheduler.jobs := ReminderScheduler.jobs s;
          ReminderScheduler.dispatched :=
            ReminderScheduler.dispatched s ++ [(UserModel.telegram_id u, rid)] |}
  /\ CRUDReminder.get (ReminderScheduler.reminders s') rid = Some sent
  /\ forall later bot', ReminderScheduler._send_reminder_job later bot' s' rid = s'.
Proof.
  intros G A R U T B sent s'.
  pose proof (ReminderProps.reminder_get_id _ _ _ G) as I. subst rid.
  apply Z.eqb_neq in T.
  assert (CRUDReminder.get
            (CRUDReminder.commit sent (ReminderScheduler.reminders s)) (id r)
          = Some sent) as G'
    by (eapply ReminderProps.written_row_is_read; [exact G|reflexivity]).
  assert (s' = {| ReminderScheduler.reminders :=
                    CRUDReminder.commit sent (ReminderScheduler.reminders s);
                  ReminderScheduler.users := ReminderScheduler.users s;
                  ReminderScheduler.jobs := ReminderScheduler.jobs s;
                  ReminderScheduler.dispatched :=
                    ReminderScheduler.dispatched s
                    ++ [(UserModel.telegram_id u, id r)] |}) as E.
  { subst s'. unfold ReminderScheduler._send_reminder_job. rewrite G, A.
    cbn [negb]. unfold ReminderScheduler._send_reminder. rewrite U, T.
    rewrite bot_did_not_raise by exact B.
    unfold CRUDReminder.mark_as_sent. rewrite G.
    cbn [snd ReminderScheduler.reminders].
    erewrite ReminderProps.written_row_is_read; [|exact G|reflexivity].
    cbn [default from_option].
    match goal with
    | |- context [repeats ?x] => change (repeats x) with (repeats r)
    end.
    rewrite R. reflexivity. }
  split; [exact E|]. rewrite E. cbn [ReminderScheduler.reminders].
  split; [exact G'|].
  intros later bot'.
  apply (ReminderProps.inactive_reminder_is_skipped later bot' _ (id r) sent);
    [exact G'|reflexivity].
Qed.

(** X17.  A reminder that does not repeat is delivered at most once.
    After a fire whose dispatch did not raise, the record is SENT with
    [sent_count + 1] and [sent_at = now], the job store is what it was
    (the job is not removed), one call of [send_message] was made, and
    every later fire of that job, at any time and with any notifier,
    leaves the whole state unchanged. *)
Theorem delivered_reminder_is_not_sent_again now bot s rid r u :
  CRUDReminder.get (ReminderScheduler.reminders s) rid = Some r ->
  is_active r = true ->
  repeats r = false ->
  CRUDReminder.get_user (ReminderScheduler.users s) (user_id r) = Some u ->
  UserModel.telegram_id u <> 0 ->
  bot (UserModel.telegram_id u) <> raised ->
  let s' := ReminderScheduler._send_reminder_job now bot s rid in
  (exists r',
     CRUDReminder.get (ReminderScheduler.reminders s') rid = Some r'
     /\ status r' = SENT
     /\ sent_count r' = sent_count r + 1
     /\ sent_at r' = Some now)
  /\ length (ReminderScheduler.reminders s') = length (ReminderScheduler.reminders s)
  /\ ReminderScheduler.jobs s' = ReminderScheduler.jobs s
  /\ ReminderScheduler.dispatched s'
     = ReminderScheduler.dispatched s ++ [(UserModel.telegram_id u, rid)]
  /\ forall later bot', ReminderScheduler._send_reminder_job later bot' s' rid = s'.
Proof.
  intros G A R U T B s'.
  destruct (one_shot_fire now bot s rid r u G A R U T B) as (E & G' & L).
  fold s' in E, G', L.
  split; [eexists; split; [exact G'|repeat split]|].
  rewrite E at 1 2 3. cbn [ReminderScheduler.reminders ReminderScheduler.jobs
                            ReminderScheduler.dispatched].
  rewrite ReminderProps.commit_length. auto.
Qed.

Lemma delivered_reminder_is_not_sent_again_witness :
  let s := ReminderSpec.scheduler_with ReminderSpec.one_shot in
  let s' := ReminderScheduler._send_reminder_job 90 (fun _ => returned_none) s 1 in
  (exists r',
     CRUDReminder.get (ReminderScheduler.reminders s') 1 = Some r'
     /\ status r' = SENT
     /\ sent_count r' = sent_count ReminderSpec.one_shot + 1
     /\ sent_at r' = Some 90)
  /\ length (ReminderScheduler.reminders s') = length (ReminderScheduler.reminders s)
  /\ ReminderScheduler.jobs s' = ReminderScheduler.jobs s
  /\ ReminderScheduler.dispatched s'
     = ReminderScheduler.dispatched s ++ [(7007, 1)]
  /\ forall later bot', ReminderScheduler._send_reminder_job later bot' s' 1 = s'.
Proof.
  intros s s'.
  apply (delivered_reminder_is_not_sent_again 90 (fun _ => returned_none) s 1
           ReminderSpec.one_shot ReminderSpec.user7);
    try reflexivity; discriminate.
Defined.



(** ** Creation *)

Lemma reminder_id_lt_next_id db r : In r db -> id r < CRUDReminder.next_id db.
Proof.
  unfold CRUDReminder.next_id.
  induction db as [|x db IH]; cbn [List.fold_right]; [intros []|].
  intros [->|H]; [lia|]. specialize (IH H). lia.
Qed.

Lemma get_created_row db r :
  id r = CRUDReminder.next_id db ->
  CRUDReminder.get (db ++ [r]) (id r) = Some r
  /\ forall i, i <> id r -> CRUDReminder.get (db ++ [r]) i = CRUDReminder.get db i.
Proof.
  intros E. unfold CRUDReminder.get. split.
  - induction db as [|x db IH]; cbn [app List.find].
    + now rewrite Z.eqb_refl.
    + destruct (id x =? id r) eqn:K.
      * apply Z.eqb_eq in K.
        pose proof (reminder_id_lt_next_id (x :: db) x (or_introl eq_refl)). lia.
      * assert (forall y, In y db -> id y <> id r) as F.
        { intros y Hy.
          pose proof (reminder_id_lt_next_id (x :: db) y (or_intror Hy)). lia. }
        clear IH E K. induction db as [|y db IH]; cbn [app List.find].
        -- now rewrite Z.eqb_refl.
        -- destruct (id y =? id r) eqn:K.
           ++ apply Z.eqb_eq in K. destruct (F y (or_introl eq_refl) K).
           ++ apply IH. intros z Hz. apply F. now right.
  - intros i N. induction db as [|x db IH]; cbn [app List.find].
    + destruct (id r =? i) eqn:K; [apply Z.eqb_eq in K; congruence|reflexivity].
    + destruct (id x =? i); [reflexivity|].
      clear E IH. induction db as [|y db IH]; cbn [app List.find].
      * destruct (id r =? i) eqn:K; [apply Z.eqb_eq in K; congruence|reflexivity].
      * destruct (id y =? i); [reflexivity|exact IH].
Qed.

(** X19.  Without a start date, [create_daily_reminder] schedules the
    first occurrence at the requested hour and minute (seconds dropped),
    strictly after [now] and at most 24 hours ahead: today if that time is
    still to come, tomorrow otherwise.  The record is stored under a fresh
    key, ACTIVE and enabled, flagged recurring but without an interval. *)
Theorem daily_reminder_next_occurrence
    now db uid title message reminder_time end_date max_send_count prio :
  0 <= reminder_time < 86400 ->
  let '(r, db') :=
    CRUDReminder.create_daily_reminder now db uid title message reminder_time
      None end_date max_send_count prio in
  now < scheduled_time r <= now + 86400
  /\ scheduled_time r mod 86400
     = 3600 * (reminder_time / 3600) + 60 * (reminder_time mod 3600 / 60)
  /\ CRUDReminder.get db' (id r) = Some r
  /\ is_active r = true
  /\ is_recurring r = true
  /\ repeats r = false.
Proof.
  intros T. unfold CRUDReminder.create_daily_reminder.
  cbn [scheduled_time CRUDReminder.new_reminder id].
  split; [|split; [|split; [|repeat split]]].
  - unfold CRUDReminder.today_at.
    destruct (Z.leb_spec
                (now / 86400 * 86400 + 3600 * (reminder_time / 3600)
                 + 60 * (reminder_time mod 3600 / 60)) now);
      Z.div_mod_to_equations; lia.
  - unfold CRUDReminder.today_at.
    destruct (Z.leb_spec
                (now / 86400 * 86400 + 3600 * (reminder_time / 3600)
                 + 60 * (reminder_time mod 3600 / 60)) now);
      Z.div_mod_to_equations; lia.
  - now apply (get_created_row db).
Qed.

Lemma daily_reminder_next_occurrence_witness :
  0 <= 32400 < 86400
  /\ let '(r, db') :=
       CRUDReminder.create_daily_reminder 36000 [] 7 "Stretch" None 32400
         None None None 1 in
     36000 < scheduled_time r <= 36000 + 86400
     /\ scheduled_time r mod 86400
        = 3600 * (32400 / 3600) + 60 * (32400 mod 3600 / 60)
     /\ CRUDReminder.get db' (id r) = Some r
     /\ is_active r = true
     /\ is_recurring r = true
     /\ repeats r = false.
Proof.
  assert (0 <= 32400 < 86400) as T by lia.
  split; [exact T|].
  exact (daily_reminder_next_occurrence 36000 [] 7 "Stretch" None 32400
           None None 1 T).
Defined.



(** ** The next weekly date *)

Lemma day_number_range day_name d :
  CRUDReminder.day_number day_name = Some d -> 0 <= d <= 6.
Proof.
  unfold CRUDReminder.day_number.
  destruct (List.find _ CRUDReminder.day_mapping) as [entry|] eqn:F;
    [|discriminate].
  cbn [option_map]. intros [= <-].
  apply List.find_some in F as [Hin _].
  unfold CRUDReminder.day_mapping in Hin. cbn [In] in Hin.
  repeat (destruct Hin as [<-|Hin]; [cbn; lia|]). destruct Hin.
Qed.

Lemma first_known_day_range days d :
  CRUDReminder.first_known_day days = Some d -> 0 <= d <= 6.
Proof.
  induction days as [|day_name days IH]; cbn [CRUDReminder.first_known_day];
    [discriminate|].
  destruct (CRUDReminder.day_number day_name) as [k|] eqn:K; [|exact IH].
  intros [= <-]. eapply day_number_range; eauto.
Qed.

(** X21.  [_get_next_weekly_date] returns the requested time of day on
    a day that is one to seven days after today, never today itself.  Its
    weekday is that of the first name in the list that the mapping knows,
    whatever the other names are; with no known name the date is a week
    from today. *)
Theorem next_weekly_date_is_within_a_week now days_of_week reminder_time :
  0 <= reminder_time < 86400 ->
  let next := CRUDReminder._get_next_weekly_date now days_of_week reminder_time in
  let today := now / 86400 in
  today + 1 <= next / 86400 <= today + 7
  /\ next mod 86400 = reminder_time
  /\ match CRUDReminder.first_known_day days_of_week with
     | Some day_num => CRUDReminder.weekday (next / 86400) = day_num
     | None => next / 86400 = today + 7
     end.
Proof.
  intros T next today. subst next.
  unfold CRUDReminder._get_next_weekly_date. fold today.
  destruct (CRUDReminder.first_known_day days_of_week) as [d|] eqn:F.
  - apply first_known_day_range in F.
    unfold CRUDReminder.weekday.
    destruct (Z.leb_spec (d - (today + 3) mod 7) 0);
      Z.div_mod_to_equations; lia.
  - Z.div_mod_to_equations. lia.
Qed.

Lemma next_weekly_date_is_within_a_week_witness :
  0 <= 32400 < 86400
  /\ let next := CRUDReminder._get_next_weekly_date 36000 ["Thu"; "fri"] 32400 in
     let today := 36000 / 86400 in
     today + 1 <= next / 86400 <= today + 7
     /\ next mod 86400 = 32400
     /\ match CRUDReminder.first_known_day ["Thu"; "fri"] with
        | Some day_num => CRUDReminder.weekday (next / 86400) = day_num
        | None => next / 86400 = today + 7
        end.
Proof.
  assert (0 <= 32400 < 86400) as T by lia.
  split; [exact T|].
  exact (next_weekly_date_is_within_a_week 36000 ["Thu"; "fri"] 32400 T).
Defined.

(** ** Cancelling and disabling *)

Lemma none_active_after_cancel_all now uid db r :
  In r (snd (CRUDReminder.cancel_all_active_reminders now db uid)) ->
  CRUDReminder.active_of uid r = false.
Proof.
  unfold CRUDReminder.cancel_all_active_reminders. cbn [snd].
  intros H. apply List.in_map_iff in H as (r0 & <- & _).
  destruct (CRUDReminder.active_of uid r0) eqn:A; [|exact A].
  unfold CRUDReminder.active_of. cbn. now rewrite andb_false_r.
Qed.

Lemma cancel_all_of_none now uid db :
  (forall r, In r db -> CRUDReminder.active_of uid r = false) ->
  CRUDReminder.cancel_all_active_reminders now db uid = (0, db).
Proof.
  intros H. unfold CRUDReminder.cancel_all_active_reminders.
  induction db as [|r db IH]; cbn [List.filter List.map length]; [reflexivity|].
  rewrite (H r (or_introl eq_refl)).
  injection (IH (fun x Hx => H x (or_intror Hx))) as E1 E2.
  now rewrite E2, E1.
Qed.

(** X22.  [cancel_all_active_reminders] leaves the user without an
    ACTIVE reminder.  Keys stay as they are, every row that was not an
    ACTIVE row of this user is kept unchanged, the count is 0 exactly when
    the table is unchanged, and a second call returns 0 and changes
    nothing. *)
Theorem cancel_all_leaves_no_active_reminder now db uid :
  let '(n, db') := CRUDReminder.cancel_all_active_reminders now db uid in
  (forall r, In r db' -> user_id r = uid -> status r <> ACTIVE)
  /\ List.map id db' = List.map id db
  /\ (forall r, In r db -> CRUDReminder.active_of uid r = false -> In r db')
  /\ (n = 0 <-> db' = db)
  /\ forall later,
       CRUDReminder.cancel_all_active_reminders later db' uid = (0, db').
Proof.
  destruct (CRUDReminder.cancel_all_active_reminders now db uid) as [n db'] eqn:C.
  assert (forall r, In r db' -> CRUDReminder.active_of uid r = false) as NA.
  { intros r Hin. apply (none_active_after_cancel_all now uid db).
    now rewrite C. }
  unfold CRUDReminder.cancel_all_active_reminders in C. injection C as En Edb.
  split; [|split; [|split; [|split]]].
  - intros r Hin Hu S. specialize (NA r Hin).
    unfold CRUDReminder.active_of in NA. rewrite Hu, S, Z.eqb_refl in NA.
    discriminate.
  - subst db'. rewrite List.map_map. apply List.map_ext_in. intros r _.
    now destruct (CRUDReminder.active_of uid r).
  - intros r Hin A. subst db'. apply List.in_map_iff. exists r.
    now rewrite A.
  - subst n db'. clear NA.
    induction db as [|r db IH]; cbn [List.filter List.map length];
      [split; reflexivity|].
    destruct (CRUDReminder.active_of uid r) eqn:A.
    + split; [cbn [length]; lia|].
      intros [= E _]. unfold CRUDReminder.active_of in A.
      apply andb_prop in A as [_ A].
      apply ReminderProps.reminder_status_eqb_eq in A.
      rewrite <- E in A. discriminate.
    + split.
      * intros Z0. f_equal. now apply IH.
      * intros [= E]. now apply IH.
  - intros later. now apply cancel_all_of_none.
Qed.



(** ** The job store *)









Lemma remove_job_unique k js :
  List.NoDup (List.map ReminderScheduler.job_reminder js) ->
  List.NoDup (List.map ReminderScheduler.job_reminder (ReminderScheduler.remove_job k js)).
Proof.
  unfold ReminderScheduler.remove_job.
  induction js as [|j js IH]; cbn [List.filter List.map]; [auto|].
  intros ND. apply List.NoDup_cons_iff in ND as [Hj ND].
  destruct (negb (ReminderScheduler.job_reminder j =? k)); [|auto].
  cbn [List.map]. constructor; [|auto].
  intros Hin. apply Hj.
  apply List.in_map_iff in Hin as (y & Ey & Hy).
  apply List.filter_In in Hy as [Hy _].
  rewrite <- Ey. now apply List.in_map.
Qed.

Lemma add_job_unique j js :
  List.NoDup (List.map ReminderScheduler.job_reminder js) ->
  List.NoDup (List.map ReminderScheduler.job_reminder (ReminderScheduler.add_job j js)).
Proof.
  intros ND. unfold ReminderScheduler.add_job. rewrite List.map_app.
  apply List.NoDup_app.
  - now apply remove_job_unique.
  - repeat constructor. intros [].
  - intros a Ha [<-|[]].
    apply List.in_map_iff in Ha as (y & Ey & Hy).
    unfold ReminderScheduler.remove_job in Hy.
    apply List.filter_In in Hy as [_ Hy].
    apply negb_true_iff, Z.eqb_neq in Hy. congruence.
Qed.

Lemma schedule_reminder_unique s r :
  ReminderSpec.unique_jobs s ->
  ReminderSpec.unique_jobs (ReminderScheduler._schedule_reminder s r).
Proof.
  unfold ReminderSpec.unique_jobs, ReminderScheduler._schedule_reminder.
  cbn [ReminderScheduler.jobs]. intros U.
  now apply add_job_unique, remove_job_unique.
Qed.

(** X25.  The job store never holds two jobs for one reminder: if it
    has at most one per reminder, it still has after scheduling or
    rescheduling a reminder, after removing one, after a fire of a job
    (whatever the notifier does), after the start-up load and after the
    expiry sweep. *)
Theorem one_job_per_reminder now bot s r i :
  ReminderSpec.unique_jobs s ->
  ReminderSpec.unique_jobs (ReminderScheduler.add_reminder s r)
  /\ ReminderSpec.unique_jobs (ReminderScheduler.update_reminder s r)
  /\ ReminderSpec.unique_jobs (ReminderScheduler.remove_reminder s i)
  /\ ReminderSpec.unique_jobs (ReminderScheduler._send_reminder_job now bot s i)
  /\ ReminderSpec.unique_jobs (ReminderScheduler._load_existing_reminders now s)
  /\ ReminderSpec.unique_jobs (ReminderScheduler.cleanup_expired_reminders now s).
Proof.
  intros U.
  split; [now apply schedule_reminder_unique|].
  split; [now apply schedule_reminder_unique|].
  split; [now apply remove_job_unique|].
  split; [|split].
  - unfold ReminderScheduler._send_reminder_job.
    destruct (CRUDReminder.get _ i) as [x|]; [|exact U].
    destruct (negb (is_active x)); [exact U|].
    assert (ReminderSpec.unique_jobs (ReminderScheduler._send_reminder now bot s x))
      as U1.
    { unfold ReminderScheduler._send_reminder.
      destruct (CRUDReminder.get_user _ _) as [u|]; [|exact U].
      destruct (UserModel.telegram_id u =? 0); [exact U|].
      destruct (bot (UserModel.telegram_id u)); exact U. }
    destruct (repeats _); [|exact U1].
    unfold ReminderScheduler._schedule_next_recurring_reminder.
    apply schedule_reminder_unique. exact U1.
  - unfold ReminderScheduler._load_existing_reminders.
    generalize (CRUDReminder.get_active_reminders now (ReminderScheduler.reminders s)).
    intros l. revert s U.
    induction l as [|x l IH]; intros s U; cbn [List.fold_left]; [exact U|].
    apply IH. now apply schedule_reminder_unique.
  - unfold ReminderScheduler.cleanup_expired_reminders.
    generalize (CRUDReminder.get_expired_reminders now (ReminderScheduler.reminders s)).
    intros l. revert s U.
    induction l as [|x l IH]; intros s U; cbn [List.fold_left]; [exact U|].
    apply IH. unfold ReminderSpec.unique_jobs, ReminderScheduler.expire_reminder,
      ReminderScheduler.remove_reminder. cbn [ReminderScheduler.jobs].
    now apply remove_job_unique.
Qed.

Lemma one_job_per_reminder_witness :
  let s := ReminderSpec.scheduler_with ReminderSpec.hourly in
  ReminderSpec.unique_jobs s
  /\ ReminderSpec.unique_jobs (ReminderScheduler.add_reminder s ReminderSpec.hourly)
  /\ ReminderSpec.unique_jobs (ReminderScheduler.update_reminder s ReminderSpec.hourly)
  /\ ReminderSpec.unique_jobs (ReminderScheduler.remove_reminder s 1)
  /\ ReminderSpec.unique_jobs
       (ReminderScheduler._send_reminder_job 90 ReminderSpec.broken_bot s 1)
  /\ ReminderSpec.unique_jobs (ReminderScheduler._load_existing_reminders 90 s)
  /\ ReminderSpec.unique_jobs (ReminderScheduler.cleanup_expired_reminders 90 s).
Proof.
  intros s.
  assert (ReminderSpec.unique_jobs s) as U by (repeat constructor; intros []).
  split; [exact U|].
  exact (one_job_per_reminder 90 ReminderSpec.broken_bot s ReminderSpec.hourly 1 U).
Defined.

(** ** Quick reminders and the cancel task *)

(** X26.  A reminder made by [create_quick_reminder] is stored under a
    fresh key beside the untouched older rows, never with an empty
    message, and it is a one-shot: the due queries pick it exactly from
    [now + delay_minutes] minutes on, [can_send] agrees, and the scheduler
    gives it a date trigger at that instant. *)
Theorem quick_reminder_is_due_after_delay now db uid title message delay_minutes ty :
  let '(r, db') :=
    CRUDReminder.create_quick_reminder now db uid title message delay_minutes ty in
  CRUDReminder.get db' (id r) = Some r
  /\ (forall i, i <> id r -> CRUDReminder.get db' i = CRUDReminder.get db i)
  /\ (ReminderModel.message r = Some EmptyString -> title = EmptyString)
  /\ (forall t,
        ReminderTasks.is_due t r = (now + 60 * delay_minutes <=? t)
        /\ CRUDReminder.ready_to_send t r = (now + 60 * delay_minutes <=? t)
        /\ can_send t r = (now + 60 * delay_minutes <=? t))
  /\ ReminderScheduler.trigger_of r
     = ReminderScheduler.DateTrigger (now + 60 * delay_minutes).
Proof.
  unfold CRUDReminder.create_quick_reminder.
  destruct (get_created_row db
              (CRUDReminder.new_reminder now db uid title
                 (message_or_title message title) ty (now + minutes delay_minutes)
                 None None None false None None 1) eq_refl) as [G O].
  split; [exact G|]. split; [exact O|]. split; [|split].
  - cbn [ReminderModel.message CRUDReminder.new_reminder].
    unfold message_or_title. destruct message as [m|]; [|congruence].
    destruct (String.eqb m EmptyString) eqn:E; [congruence|].
    intros [= ->]. discriminate.
  - intros t. unfold ReminderTasks.is_due, CRUDReminder.ready_to_send, can_send,
      is_active, is_expired. cbn. unfold minutes.
    now rewrite !andb_true_r.
  - unfold ReminderScheduler.trigger_of. cbn. unfold minutes.
    now destruct ty.
Qed.


End ReminderLifecycle.
